(* ===== verification/_CoqProject ===== *)
-Q . S2P
Prelude.v
PyStr.v
Dates.v
Ordinal.v
Aggregate.v
Float64.v
Summary.v
Heatmap.v
Token.v
NetlifyJson.v
TokenSpec.v
Interleave.v
Dashboard.v
FlaskApp.v
Script.v
Server.v
