(* ===== verification/Prelude.v ===== *)
(** * A verification library for strava-gh-viz

    The repository renders a running dashboard: a day-of-week by
    week-of-year "heatmap" of daily mileage and year-to-date totals,
    fed by the Strava API. Its Python sources are

    - [src/app.py] (the deployed Flask app): an OAuth token lifecycle
      kept in [os.environ] ([save_token], [load_token],
      [refresh_token_if_needed], [get_access_token], the [/authorized]
      callback), the fetch of pre-digested runs from a Netlify function
      ([fetch_running_data], [fetch_user_profile]), the calendar layout
      ([prepare_heatmap_data]) and the yearly summary
      ([calculate_summary_statistics]), composed by [index];
    - [src/flask-app/app.py] with [src/auth.py] (the older local app):
      the same layout and summary, an aggregation straight from
      stravalib activities (filter [type == 'Run'], metres to miles,
      seconds to minutes, key by local date), and a token kept in
      [token.json];
    - [src/fetch_strava_data.py]: the script that turns activities into
      the per-run records ([fetch_data]) the Netlify function serves.

    The components interact by data flow: a valid token gates the
    fetch; the fetch yields a [defaultdict] from date strings to
    [{distance, duration}]; the layout and the summary both read that
    dictionary, the layout for every date of the current year.

    ** Files, and what each models

    - [Prelude] (this file): the scope [py_scope], the hint database
      [pyhints], the [Ltac] helpers, and the generic lemmas on exact
      sums of rationals that the components share.
    - [PyStr]: the Python string and number conversions the code relies
      on: [str(int)], [int(str)] (with [strip], a sign and [_]
      separators), zero padding,
      [round(x, 2)] (round half to even) and the [:.2f] format.
    - [Dates]: [datetime.date] as a record, [str(date)] and the
      [pd.to_datetime] parse of ["YYYY-MM-DD"], leap years, the proleptic
      Gregorian day number, [dayofweek], [isocalendar().week] and
      [pd.date_range] over one year.
    - [Ordinal]: CPython's [_ord2ymd], which turns every timestamp into
      a date ([local_date]: the local date of a Unix timestamp at a
      fixed UTC offset), inverts [_ymd2ord] on [date.min .. date.max],
      both ways.
    - [Aggregate]: [fetch_running_data] of both apps as folds of a
      [defaultdict] update over the input list ([strava_step],
      [netlify_step] and [netlify_loop], with the [except] that returns
      an empty dictionary), and [fetch_data] of the script
      ([fetch_data_runs], with its [limit=200]). A generic Section
      [Accumulate] proves, once for both loops, what the dictionary
      holds after a loop of guarded [+=] statements.
    - [Float64]: the stravalib loop again, over binary64 floats.
    - [Summary]: [calculate_summary_statistics], its specification,
      and the two data paths compared: at the turn of a year (the
      stravalib app keys a run by the server's local date, [fetch_data]
      by the UTC date), and on examples of per-run rounding in
      [fetch_data] and of the two miles factors.
    - [Heatmap]: [prepare_heatmap_data]: the per-date frame, the
      [groupby(['day_of_week','week_of_year'])] aggregation and the two
      [pivot]s with [fillna]; its theorems state the layout's
      contract: every cell holds the sum of the dates mapped to it
      ([dates_at]), the rows are the seven weekdays, the columns the
      ascending week indices present in 0..52, and a cell merges at
      most two dates, a January and a December one.
    - [NetlifyJson]: the loop of [fetch_running_data] of [src/app.py]
      over the raw JSON records of the Netlify response ([run['...']],
      [pd.to_datetime], [float()]; both library functions are inputs,
      [pd.to_datetime] constrained only to give [pd.Timestamp]-range
      dates), proved equal to the [Aggregate] loop over the decoded
      records ([decode_run]), and to the empty dictionary when one
      record does not decode. [Dashboard] and [Server] take the decoded
      records as the Netlify answer, which this equivalence justifies.
    - [Token]: the token store and lifecycle of both apps as programs of
      a small state-and-exception monad [PyM] (an exception keeps the
      effects made before it, as Python does). The store is a type
      class [TokenStore] ([store_load], [store_save]) with the law
      [TokenStoreLaws] (what is saved is loaded back); the lifecycle
      ([refresh_token_if_needed], [get_access_token], [authorized]) is
      written once against it in Section [Lifecycle], and its theorems
      are proved against the class in Section [LifecycleFacts]. The
      instances are [os.environ] of [src/app.py] ([env_store]) and
      [token.json] of [src/auth.py] ([file_store]). The stravalib calls
      are functions given as inputs ([srv]) and every call is logged in
      the state ([st_calls]), so the theorems count calls.
    - [TokenSpec]: the specification's [get_valid_token] as an
      abstract function on an optional TokenState, and the refinement
      theorem: for every store satisfying the [TokenStore] law,
      [refresh_token_if_needed] implements it (through the abstraction
      [abs_store]), except when a token expires exactly now or a refresh
      response is malformed, the two departures [Token] exhibits.
    - [Interleave]: the atomic steps of [refresh_token_if_needed] as a
      step relation [tstep] over program points [Phase], proved to
      refine the function when one request runs alone (a lemma that
      checks the step model against the function), and two requests
      interleaved ([sys_step]) over the shared store: the code has no
      lock, and a reachable schedule refreshes twice.
    - [Dashboard]: [index] and [fetch_user_profile] of both apps, which
      compose the components: [index_netlify] runs [get_access_token]
      in [PyM], redirects on a URL, and renders the profile, the heatmap
      and the totals of one dictionary; [index_strava] does the same
      with the stravalib data and the totals of 2024.
    - [FlaskApp]: the life of the server of [src/flask-app/app.py]: the
      import of the module, which calls [get_access_token] of
      [src/auth.py] once and builds [STRAVA_CLIENT] with that token
      ([import_app]), then a sequence of requests ([run_app]), each an
      [index] whose API answers depend on the client's token and the
      instant of the request ([StravaApi], an input).
    - [Script]: [src/fetch_strava_data.py] in the same monad, over the
      calls made to Strava and the contents of [strava_data.json]:
      [authenticate] with its hard-coded code, [fetch_data],
      [save_to_json] and [main]. Strava's answer to a code exchange may
      depend on the calls it has already received, so that a
      single-use code can be stated ([single_use]).
    - [Server]: the Flask server of [src/app.py]: the URL map
      ([handle]: [/], [/authorized], [/health], and 404 otherwise),
      Flask's 500 for an exception escaping a view ([flask_call], the
      effects made before it kept), and [app.run] as a loop over
      requests ([serve]) sharing [os.environ] and the global token; the
      outside world's answers come with each request ([World]).

    ** Theorems, by group

    - Aggregation: the lookup of every date after either loop (sums of
      the runs of that date), and the error path of one malformed
      record in the loop over raw JSON records (not an object, a missing
      key, a value [float()] or [pd.to_datetime] rejects).
    - Layout: shape, the content of each cell, one cell per distinct
      (weekday, week) pair, the columns, the conservation of mileage
      (the cells add up to the year's mileage), and, for every year,
      the year-boundary cells: a cell holds at most two dates, a
      January one and a December one.
    - Server life: the token of the stravalib app is read at import
      only, so after it expires every request renders the empty
      dashboard and the refresh token is never used.
    - Script: one run of [main] makes one exchange, with the code of
      the source, and writes [strava_data.json] only when it succeeds;
      against single-use codes a second run always fails.
    - Dashboard: [index] of both apps renders whatever the upstream
      answers (no exception reaches the page; for the stravalib app, as
      long as the runs fall in the [pd.Timestamp] range), the fallbacks
      when both requests fail, and the redirect; and the agreement of the page's parts:
      the totals [calculate_summary_statistics] reports are the number
      of days the heatmap shows a run on and the rounded sum of its
      cells.
    - Summary: the functional specification, insensitivity to other
      years, and, for every year and every positive UTC offset, the run
      of the last minutes of December 31 that the stravalib app counts
      in the next year and the Netlify path in its own.
    - Tokens: each branch of [refresh_token_if_needed] (valid, expired
      and refreshed, expired and failed, absent), the refinement of the
      specification's contract, at most one call, the save/load round
      trip of each store, the half-written [os.environ] and the
      overwritten [token.json] after a malformed refresh response, the
      half-written [os.environ] after a malformed authorization
      exchange, the first authorization of [src/auth.py].
    - Concurrency: the double refresh, a reachable schedule in which
      both unlocked requests send the same refresh token. Lemmas check
      the step model itself: it refines the function, each request
      makes at most one call, and every schedule is finite and ends with
      both requests returned.
    - Server: over any sequence of requests, every request gets exactly
      one response and makes at most one call to Strava (an invariant
      by induction on the requests); the first authorization end to
      end (redirect, callback,
      then the rendered dashboard, over one sequence of requests), and
      the error path of a malformed [EXPIRES_AT]: every [/] answers 500
      and changes nothing until an authorization callback rewrites the
      credential, after which [/] renders again.
    - Library lemmas (not claims about the repository, used by the
      theorems above): the date parse/print round trip, the
      [_ord2ymd]/[_ymd2ord] round trips, ISO week bounds and the ISO year
      of a date, the length of a year's date range, [int(str(i)) = i].

    ** Bounds and fuel

    Every definition of the program is structurally recursive or a fold
    over a finite list; no fuel is needed. The proof of [Ordinal]
    follows the split of a day number into 400-year cycles, centuries,
    4-year cycles and years, and checks the month table by evaluation
    on the 365 days of a common and of a leap year. [run_server] takes
    the list of callbacks the server receives before it stops, so the
    blocking [app.run] is a finite prefix of requests. Dates are restricted to years 1..9999, the
    range of Python's [datetime]; the theorems that need it say so.

    ** What the theorems show about the code

    Most of what the specification asks holds. Where it does not, a
    theorem says how: a token expiring exactly now is still used; a
    malformed refresh or authorization response half-writes
    [os.environ] and replaces [token.json]; a non-integer [EXPIRES_AT]
    fails the request instead of asking for authorization; nothing
    prevents two requests from refreshing the same token; one malformed
    run record empties the Netlify dictionary; the two data paths
    round and convert differently and key a run by different dates (the
    server's local date, the UTC date); the stravalib app always reports the
    totals of 2024 and never refreshes the token it read at import;
    the export script can succeed once only, its authorization code
    being written in the source;
    with floats the totals depend on the order of the
    runs; the ISO-week layout merges two dates into one cell at the
    year boundary and leaves empty tooltips where the specification
    expects "No activity".

    ** Numbers

    Python floats are modelled as exact rationals [Q]; [Qplus] is
    commutative and associative up to Leibniz equality (lemmas
    [Qplus_comm_L], [Qplus_assoc_L] below), so the order-independence
    theorems are theorems about exact sums: they hold of the code up to
    float rounding, and no theorem claims that the dictionary is
    independent of the order of the runs. [Float64] shows on an example,
    with IEEE binary64 (Rocq's primitive floats), that the real code's
    float sums depend on that order. [time.time()] is a rational
    [now]; Python [int]s are [Z] (unbounded, as in Python).

    ** What is not modelled

    Flask's WSGI layer, CORS and templating ([render_template] and
    [redirect] are modelled as response values), the HTTP transport of [requests] and
    [stravalib] (their results are inputs of the model: a response or an
    exception), [load_dotenv], and pandas beyond the operations used
    (in [Dates], [Aggregate] and [Summary] the parse of
    [pd.to_datetime] is restricted to the ["YYYY-MM-DD"] form that every
    key the code writes has, within the range of [pd.Timestamp]; pandas
    accepts more forms, so for arbitrary Netlify [start_date] strings
    [NetlifyJson] takes [pd.to_datetime] as an input, as it takes
    CPython's [float()] on a string). The [print] calls are not modelled. Daylight saving
    time is not modelled: the server's local time is a fixed offset.
    [health_check] is I/O only; the JSON text [save_to_json] writes
    ([indent=4]) is modelled by the value it serialises. *)

From stdpp Require Export base list gmap strings sorting fin_maps.
From Stdlib Require Export QArith Qround ZArith Ascii.

#[local] Set Warnings "-clear-no-such-hyp".

Declare Scope py_scope.
Delimit Scope py_scope with py.

Create HintDb pyhints.
Create Rewrite HintDb pyrw.

(** ** Decidability on [Q] *)

#[export] Instance Q_eq_dec : EqDecision Q.
Proof. solve_decision. Defined.

#[export] Instance Qlt_decision (x y : Q) : Decision (x < y)%Q.
Proof. destruct (Qlt_le_dec x y); [left|right]; [done|by apply Qle_not_lt]. Defined.

#[export] Instance Qle_decision (x y : Q) : Decision (x <= y)%Q.
Proof. destruct (Qlt_le_dec y x); [right|left]; [by apply Qlt_not_le|done]. Defined.

(** ** Exact sums of rationals *)

(** [Qplus] does not normalise, so it is commutative, associative and has
    [0] as a unit up to Leibniz equality, not only up to [Qeq]. *)
Lemma Qplus_comm_L (x y : Q) : (x + y)%Q = (y + x)%Q.
Proof.
  destruct x as [a b], y as [c d]; unfold Qplus; cbn.
  f_equal; [ring | apply Pos.mul_comm].
Qed.

Lemma Qplus_assoc_L (x y z : Q) : (x + (y + z))%Q = (x + y + z)%Q.
Proof.
  destruct x as [a b], y as [c d], z as [e f]; unfold Qplus; cbn.
  f_equal; [rewrite ?Pos2Z.inj_mul; ring | apply Pos.mul_assoc].
Qed.

Lemma Qplus_0_l_L (x : Q) : (0 + x)%Q = x.
Proof. destruct x as [a b]; unfold Qplus; cbn. rewrite Z.mul_1_r. done. Qed.

Lemma Qplus_0_r_L (x : Q) : (x + 0)%Q = x.
Proof. rewrite Qplus_comm_L. apply Qplus_0_l_L. Qed.

#[export] Hint Rewrite Qplus_0_l_L Qplus_0_r_L : pyrw.

(** The value of a Python accumulation [acc = 0; for v in l: acc += v]. *)
Definition qsum (l : list Q) : Q := foldr Qplus 0%Q l.

Lemma qsum_nil : qsum [] = 0%Q.
Proof. done. Qed.

Lemma qsum_cons (x : Q) (l : list Q) : qsum (x :: l) = (x + qsum l)%Q.
Proof. done. Qed.

Lemma fold_left_Qplus (l : list Q) (a : Q) :
  fold_left Qplus l a = (a + qsum l)%Q.
Proof.
  revert a; induction l as [|x l IH]; intros a; cbn [fold_left].
  - by rewrite qsum_nil, Qplus_0_r_L.
  - by rewrite IH, qsum_cons, Qplus_assoc_L.
Qed.

Lemma qsum_app (l1 l2 : list Q) : qsum (l1 ++ l2) = (qsum l1 + qsum l2)%Q.
Proof.
  induction l1 as [|x l IH]; cbn [app]; [by rewrite qsum_nil, Qplus_0_l_L|].
  by rewrite !qsum_cons, IH, Qplus_assoc_L.
Qed.

#[export] Instance qsum_Permutation : Proper ((≡ₚ) ==> (=)) qsum.
Proof.
  induction 1 as [|x l1 l2 _ IH|x y l|l1 l2 l3 _ IH1 _ IH2];
    rewrite ?qsum_cons.
  - done.
  - by rewrite IH.
  - by rewrite !Qplus_assoc_L, (Qplus_comm_L y x).
  - by rewrite IH1.
Qed.

#[export] Hint Rewrite qsum_app qsum_nil qsum_cons fold_left_Qplus : pyrw.

(** A sum of non-negative terms is non-negative. *)
Lemma qsum_nonneg (l : list Q) :
  Forall (fun q => 0 <= q)%Q l -> (0 <= qsum l)%Q.
Proof.
  induction 1 as [|x l Hx _ IH]; rewrite ?qsum_nil, ?qsum_cons; [apply Qle_refl|].
  apply (Qplus_le_compat 0 x 0 (qsum l)) in Hx; [|exact IH]. exact Hx.
Qed.

(** The sum of a pointwise sum. *)
Lemma qsum_fmap_add {A} (F G : A -> Q) (l : list A) :
  qsum ((fun a => F a + G a)%Q <$> l) = (qsum (F <$> l) + qsum (G <$> l))%Q.
Proof.
  induction l as [|a l IH]; cbn [fmap list_fmap]; rewrite ?qsum_cons; [done|].
  rewrite IH, <- !Qplus_assoc_L. f_equal. rewrite !Qplus_assoc_L. f_equal. apply Qplus_comm_L.
Qed.

Lemma qsum_fmap_zero {A} (l : list A) : qsum ((fun _ => 0%Q) <$> l) = 0%Q.
Proof. induction l as [|a l IH]; [done|]. cbn [fmap list_fmap]. by rewrite qsum_cons, IH, Qplus_0_l_L. Qed.

(** Dropping terms that are zero does not change a sum. *)
Lemma qsum_filter_zero {A} (P : A -> Prop) `{!forall x, Decision (P x)} (f : A -> Q) (l : list A) :
  (forall x, x ∈ l -> ~ P x -> f x = 0%Q) -> qsum (f <$> filter P l) = qsum (f <$> l).
Proof.
  induction l as [|a l IH]; intros Hz; [done|]. rewrite filter_cons.
  case_decide as Ha; cbn [fmap list_fmap]; rewrite ?qsum_cons, IH by set_solver; [done|].
  rewrite (Hz a) by set_solver. by rewrite Qplus_0_l_L.
Qed.

(** Summing an indicator over a list without duplicates that holds
    its point once. *)
Lemma qsum_indicator_out {A} `{EqDecision A} (l : list A) (x : A) (v : Q) :
  x ∉ l -> qsum ((fun a => if decide (x = a) then v else 0%Q) <$> l) = 0%Q.
Proof.
  induction l as [|a l IH]; intros Hx; [done|]. cbn [fmap list_fmap]. rewrite qsum_cons.
  rewrite decide_False by set_solver. rewrite IH by set_solver. done.
Qed.

Lemma qsum_indicator {A} `{EqDecision A} (l : list A) (x : A) (v : Q) :
  NoDup l -> x ∈ l -> qsum ((fun a => if decide (x = a) then v else 0%Q) <$> l) = v.
Proof.
  induction 1 as [|a l Ha _ IH]; intros Hx; [set_solver|]. cbn [fmap list_fmap].
  rewrite qsum_cons. destruct (decide (x = a)) as [->|Hne].
  - rewrite qsum_indicator_out by done. apply Qplus_0_r_L.
  - rewrite IH by set_solver. apply Qplus_0_l_L.
Qed.

(** ** Lists *)

(** Sorted distinct values, the way pandas orders group keys and pivot
    labels ([sort=True] over the unique values). *)
Definition sorted_uniq (l : list Z) : list Z := merge_sort Z.le (remove_dups l).

Lemma elem_of_sorted_uniq (l : list Z) (x : Z) : x ∈ sorted_uniq l <-> x ∈ l.
Proof.
  unfold sorted_uniq. rewrite (merge_sort_Permutation Z.le (remove_dups l)).
  apply elem_of_remove_dups.
Qed.

Lemma NoDup_sorted_uniq (l : list Z) : NoDup (sorted_uniq l).
Proof.
  unfold sorted_uniq. rewrite (merge_sort_Permutation Z.le (remove_dups l)).
  apply NoDup_remove_dups.
Qed.

Lemma Sorted_sorted_uniq (l : list Z) : Sorted Z.le (sorted_uniq l).
Proof. apply Sorted_merge_sort. intros x y. lia. Qed.

#[export] Hint Resolve NoDup_sorted_uniq Sorted_sorted_uniq : pyhints.

(** [sorted_uniq] depends only on the set of values. *)
Lemma sorted_uniq_eq (l k : list Z) :
  (forall x, x ∈ l <-> x ∈ k) -> NoDup k -> Sorted Z.le k -> sorted_uniq l = k.
Proof.
  intros Hlk Hnd Hs.
  assert (AntiSymm eq Z.le) as Hanti by (intros ???; lia).
  apply (Sorted_unique Z.le); [apply Sorted_sorted_uniq|exact Hs|].
  apply NoDup_Permutation; [apply NoDup_sorted_uniq|done|].
  intros x. by rewrite elem_of_sorted_uniq.
Qed.

Lemma sorted_uniq_ext (l l' : list Z) :
  (forall x, x ∈ l <-> x ∈ l') -> sorted_uniq l = sorted_uniq l'.
Proof.
  intros H. apply sorted_uniq_eq; [|apply NoDup_sorted_uniq|apply Sorted_sorted_uniq].
  intros x. by rewrite elem_of_sorted_uniq.
Qed.

Lemma filter_fmap_comm {A B : Type} (P : B -> Prop) `{!forall x, Decision (P x)}
  (f : A -> B) (l : list A) :
  filter P (f <$> l) = f <$> filter (fun x => P (f x)) l.
Proof.
  induction l as [|x l IH]; [done|]. cbn [fmap list_fmap].
  rewrite !filter_cons. case_decide; cbn [fmap list_fmap]; by rewrite IH.
Qed.

Lemma find_fmap {A B : Type} (p : B -> bool) (f : A -> B) (l : list A) :
  List.find p (f <$> l) = f <$> List.find (fun x => p (f x)) l.
Proof. induction l as [|x l IH]; [done|]. cbn. destruct (p (f x)); [done|apply IH]. Qed.

(** A left fold whose steps commute does not depend on the order of the
    list: the shape of a Python loop that only accumulates. *)
Lemma fold_left_perm_comm {A B : Type} (f : B -> A -> B)
  (Hc : forall b x y, f (f b x) y = f (f b y) x) (l l' : list A) (b : B) :
  l ≡ₚ l' -> fold_left f l b = fold_left f l' b.
Proof.
  intros Hp. revert b.
  induction Hp as [|x l1 l2 _ IH|x y l|l1 l2 l3 _ IH1 _ IH2]; intros b; cbn [fold_left].
  - done.
  - apply IH.
  - by rewrite Hc.
  - by rewrite IH1, IH2.
Qed.

(** ** Tactics *)

(** Close a goal about exact sums by normalising with the Leibniz laws. *)
Ltac qsum_simpl := autorewrite with pyrw in *.

(** Case on every boolean test of the goal, keeping the equation. *)
Ltac case_bool :=
  repeat match goal with
  | |- context [if ?b then _ else _] =>
      lazymatch b with
      | true => fail
      | false => fail
      | _ => destruct b eqn:?
      end
  end.

(** [lia] after naming every quotient and remainder by constants: the
    calendar arithmetic ([days_before_year], ISO weeks) needs it. *)
Ltac lia_divmod := Z.div_mod_to_equations; lia.
