(* ===== verification/PyStr.v ===== *)
(** The Python conversions between numbers and strings that the code uses:
    [str(i)] for an [int], [int(s)] (as [load_token] applies it to
    [os.environ['EXPIRES_AT']]), zero padding ([%02d], [%04d]),
    [round(x, 2)] (round half to even, as in [calculate_summary_statistics]
    and [fetch_data]) and the [:.2f] format of the heatmap tooltips. *)

From S2P Require Import Prelude.
From Stdlib Require Import DecimalString DecimalN.

Module PyStr.

(** ** [str] on integers *)

(** [str(n)] for [n >= 0]: the decimal digits, no leading zero. *)
Definition str_N (n : N) : string := NilEmpty.string_of_uint (N.to_uint n).

(** [str(i)] for a Python [int]. *)
Definition str_Z (z : Z) : string :=
  if (z <? 0)%Z then String "-"%char (str_N (Z.to_N (- z))) else str_N (Z.to_N z).

(** The digit character of [0 <= d < 10]. *)
Definition digit_char (d : Z) : ascii :=
  match d with
  | 0%Z => "0" | 1%Z => "1" | 2%Z => "2" | 3%Z => "3" | 4%Z => "4"
  | 5%Z => "5" | 6%Z => "6" | 7%Z => "7" | 8%Z => "8" | _ => "9"
  end%char.

(** [format(n, '0<w>d')] for [0 <= n < 10^w] ([%02d], [%04d]): exactly
    [w] digits, most significant first. *)
Fixpoint fixed_digits (w : nat) (n : Z) : string :=
  match w with
  | O => EmptyString
  | S w' => String (digit_char ((n / 10 ^ Z.of_nat w') mod 10)) (fixed_digits w' n)
  end.

(** Read exactly [w] digits; return their value and the rest. *)
Fixpoint parse_fixed (w : nat) (s : string) : option (Z * string) :=
  match w with
  | O => Some (0%Z, s)
  | S w' =>
      match s with
      | EmptyString => None
      | String c r =>
          d ← Ascii.is_nat c;
          '(v, rest) ← parse_fixed w' r;
          Some ((Z.of_nat d * 10 ^ Z.of_nat w' + v)%Z, rest)
      end
  end.

(** ** [int] on strings *)

(** [str.strip()]: drop leading and trailing whitespace. *)
Fixpoint lstrip (s : string) : string :=
  match s with
  | EmptyString => EmptyString
  | String c r => if Ascii.is_space c then lstrip r else s
  end.

Fixpoint rstrip (s : string) : string :=
  match s with
  | EmptyString => EmptyString
  | String c r =>
      let r' := rstrip r in
      match r' with
      | EmptyString => if Ascii.is_space c then EmptyString else String c EmptyString
      | _ => String c r'
      end
  end.

Definition strip (s : string) : string := rstrip (lstrip s).

(** Drop the underscores of a numeral, each of which must be followed
    by a digit. *)
Fixpoint strip_us (s : string) : option string :=
  match s with
  | EmptyString => Some EmptyString
  | String c r =>
      if Ascii.eqb c "_"%char then
        match r with
        | String c' _ => if Ascii.is_nat c' is Some _ then strip_us r else None
        | EmptyString => None
        end
      else String c <$> strip_us r
  end.

(** A non-empty run of decimal digits, with single underscores between
    digits ([1_700_000_000]). *)
Definition parse_digits (s : string) : option N :=
  match s with
  | EmptyString => None
  | String c _ =>
      if Ascii.eqb c "_"%char then None
      else s' ← strip_us s; N.of_uint <$> NilEmpty.uint_of_string s'
  end.

(** [int(s)]: surrounding whitespace, an optional sign, then digits;
    [None] is the [ValueError]. *)
Definition int_of_str (s : string) : option Z :=
  match strip s with
  | EmptyString => None
  | String c r =>
      if Ascii.eqb c "-"%char then (fun n => - Z.of_N n)%Z <$> parse_digits r
      else if Ascii.eqb c "+"%char then Z.of_N <$> parse_digits r
      else Z.of_N <$> parse_digits (String c r)
  end.

(** ** [round(x, 2)] and [:.2f] *)

(** Round to the nearest integer, ties to even (Python's rounding of the
    exact value). *)
Definition round_half_even (q : Q) : Z :=
  let f := Qfloor q in
  match Qcompare (q - inject_Z f) (1 # 2) with
  | Lt => f
  | Gt => (f + 1)%Z
  | Eq => if Z.even f then f else (f + 1)%Z
  end.

(** [round(x, 2)]: the nearest multiple of [1/100]. *)
Definition round2 (x : Q) : Q := Qmake (round_half_even (x * 100)) 100.

(** [format(x, '.2f')]: sign of [x], integer part, two decimals of the
    rounded hundredths. *)
Definition fmt2 (x : Q) : string :=
  let k := Z.abs (round_half_even (x * 100)) in
  let body := String.append (str_N (Z.to_N (k / 100)))
                (String "."%char (fixed_digits 2 (k mod 100))) in
  if negb (Qle_bool 0 x) then String "-"%char body else body.

(** ** Lemmas *)

Fixpoint no_space (s : string) : bool :=
  match s with
  | EmptyString => true
  | String c r => negb (Ascii.is_space c) && no_space r
  end.

Lemma lstrip_no_space (s : string) : no_space s = true -> lstrip s = s.
Proof.
  destruct s as [|c r]; [done|]; cbn.
  destruct (Ascii.is_space c); done.
Qed.

Lemma rstrip_no_space (s : string) : no_space s = true -> rstrip s = s.
Proof.
  induction s as [|c r IH]; [done|]; cbn.
  destruct (Ascii.is_space c) eqn:Hc; [done|]; cbn. intros Hr.
  rewrite (IH Hr). by destruct r.
Qed.

Lemma strip_no_space (s : string) : no_space s = true -> strip s = s.
Proof. intros H. unfold strip. by rewrite lstrip_no_space, rstrip_no_space. Qed.

Lemma no_space_digits (d : Decimal.uint) : no_space (NilEmpty.string_of_uint d) = true.
Proof. induction d; cbn; auto. Qed.

Lemma to_uint_not_nil (n : N) : N.to_uint n <> Decimal.Nil.
Proof.
  intros E. pose proof (Unsigned.of_to n) as H. rewrite E in H. cbn in H.
  subst n. discriminate E.
Qed.

Lemma strip_us_digits (d : Decimal.uint) :
  strip_us (NilEmpty.string_of_uint d) = Some (NilEmpty.string_of_uint d).
Proof. induction d; [done| ..]; cbn; by match goal with IH : strip_us _ = _ |- _ => rewrite IH end. Qed.

Lemma parse_digits_uint (d : Decimal.uint) :
  d <> Decimal.Nil -> parse_digits (NilEmpty.string_of_uint d) = Some (N.of_uint d).
Proof.
  intros Hd.
  assert (exists c r, NilEmpty.string_of_uint d = String c r /\ Ascii.eqb c "_"%char = false)
    as (c & r & E & Hc) by (destruct d; try done; cbn; eauto).
  unfold parse_digits. rewrite E, Hc, <- E, strip_us_digits. cbn [mbind option_bind].
  by rewrite NilEmpty.usu.
Qed.

(** The digits of [str(n)] parse back to [n]. *)
Lemma parse_digits_str_N (n : N) : parse_digits (str_N n) = Some n.
Proof.
  unfold str_N. rewrite parse_digits_uint by apply to_uint_not_nil.
  exact (f_equal Some (Unsigned.of_to n)).
Qed.

(** [str(n)] starts with a digit, never with a sign. *)
Lemma str_N_head (n : N) :
  exists c r, str_N n = String c r /\ Ascii.eqb c "-"%char = false
              /\ Ascii.eqb c "+"%char = false.
Proof.
  unfold str_N. pose proof (to_uint_not_nil n) as Hn.
  destruct (N.to_uint n); try done; cbn; eauto.
Qed.

Lemma no_space_str_N (n : N) : no_space (str_N n) = true.
Proof. apply no_space_digits. Qed.

Lemma no_space_str_Z (z : Z) : no_space (str_Z z) = true.
Proof. unfold str_Z. destruct (z <? 0)%Z; cbn; apply no_space_str_N. Qed.

#[export] Hint Resolve no_space_str_N no_space_str_Z parse_digits_str_N : pyhints.

(** [String.append] is [simpl never] under stdpp; its cons equation. *)
Lemma append_cons (c : ascii) (s r : string) :
  String.append (String c s) r = String c (String.append s r).
Proof. done. Qed.

Lemma append_nil_l (r : string) : String.append EmptyString r = r.
Proof. done. Qed.

Lemma is_nat_digit_char (d : Z) :
  (0 <= d < 10)%Z -> Ascii.is_nat (digit_char d) = Some (Z.to_nat d).
Proof.
  intros H.
  assert (d = 0 \/ d = 1 \/ d = 2 \/ d = 3 \/ d = 4 \/ d = 5 \/ d = 6
          \/ d = 7 \/ d = 8 \/ d = 9)%Z as Hd by lia.
  repeat destruct Hd as [->|Hd]; subst; done.
Qed.

(** Reading back [w] printed digits gives the number modulo [10^w]. *)
Lemma parse_fixed_digits (w : nat) (n : Z) (rest : string) :
  (0 <= n)%Z ->
  parse_fixed w (String.append (fixed_digits w n) rest) = Some ((n mod 10 ^ Z.of_nat w)%Z, rest).
Proof.
  intros Hn. induction w as [|w IH]; cbn -[Z.pow Z.of_nat].
  - by rewrite Z.pow_0_r, Z.mod_1_r.
  - assert (0 < 10 ^ Z.of_nat w)%Z as Hp by (apply Z.pow_pos_nonneg; lia).
    rewrite append_cons. cbn -[Z.pow Z.of_nat].
    rewrite is_nat_digit_char by (apply Z.mod_pos_bound; lia). cbn -[Z.pow Z.of_nat].
    rewrite IH. cbn -[Z.pow Z.of_nat]. f_equal. f_equal.
    rewrite Nat2Z.inj_succ, Z.pow_succ_r by lia.
    rewrite Z2Nat.id by (apply Z.mod_pos_bound; lia).
    rewrite (Z.mul_comm 10), Z.rem_mul_r by lia. lia.
Qed.

Lemma is_nat_inv (c : ascii) (n : nat) :
  Ascii.is_nat c = Some n -> (n < 10)%nat /\ c = digit_char (Z.of_nat n).
Proof.
  destruct c as [[] [] [] [] [] [] [] []]; cbn; intros; simplify_eq; split; (lia || done).
Qed.

(** High digits beyond the width do not show. *)
Lemma fixed_digits_shift (w : nat) (a b : Z) :
  fixed_digits w (a * 10 ^ Z.of_nat w + b) = fixed_digits w b.
Proof.
  revert a. induction w as [|w IH]; intros a; [done|]. cbn -[Z.pow Z.of_nat].
  assert (0 < 10 ^ Z.of_nat w)%Z as Hp by (apply Z.pow_pos_nonneg; lia).
  replace (a * 10 ^ Z.of_nat (S w) + b)%Z with ((a * 10) * 10 ^ Z.of_nat w + b)%Z
    by (rewrite Nat2Z.inj_succ, Z.pow_succ_r by lia; ring).
  rewrite IH. f_equal. f_equal.
  rewrite Z.div_add_l by lia. rewrite (Z.add_comm (a * 10)), Z.mod_add by lia. done.
Qed.

(** What [parse_fixed] reads is [w] printed digits. *)
Lemma parse_fixed_inv (w : nat) (s rest : string) (v : Z) :
  parse_fixed w s = Some (v, rest) ->
  (0 <= v < 10 ^ Z.of_nat w)%Z /\ s = String.append (fixed_digits w v) rest.
Proof.
  revert s v. induction w as [|w IH]; intros s v; cbn -[Z.pow Z.of_nat].
  - intros [= <- <-]. split; [cbn; lia|done].
  - destruct s as [|c r]; [done|]. destruct (Ascii.is_nat c) as [dd|] eqn:Hc; [|done].
    cbn [mbind option_bind]. destruct (parse_fixed w r) as [[v' rest']|] eqn:Hr; [|done].
    intros [= <- <-]. apply is_nat_inv in Hc as [Hdd ->]. destruct (IH _ _ Hr) as [Hv' ->].
    assert (0 < 10 ^ Z.of_nat w)%Z as Hp by (apply Z.pow_pos_nonneg; lia).
    rewrite Nat2Z.inj_succ, Z.pow_succ_r by lia. split; [nia|].
    cbn -[Z.pow Z.of_nat]. rewrite append_cons, fixed_digits_shift.
    rewrite Z.div_add_l, Z.div_small, Z.add_0_r, Z.mod_small by lia. done.
Qed.

(** [int(str(i)) == i]: what [save_token] writes into [EXPIRES_AT] with
    [str] is read back by [load_token] with [int]. *)
Lemma int_of_str_str (z : Z) : int_of_str (str_Z z) = Some z.
Proof.
  unfold int_of_str. rewrite strip_no_space by apply no_space_str_Z.
  unfold str_Z. destruct (z <? 0)%Z eqn:Hz.
  - cbn -[parse_digits]. rewrite parse_digits_str_N. cbn. f_equal. lia.
  - destruct (str_N_head (Z.to_N z)) as (c & r & E & H1 & H2).
    rewrite E, H1, H2, <- E, parse_digits_str_N. cbn. f_equal. lia.
Qed.

End PyStr.
