(* ===== verification/Dates.v ===== *)
(** Calendar dates as the code uses them: [datetime.date] values, their
    [str] (the ["YYYY-MM-DD"] keys of the [daily_mileage] dictionary), the
    [pd.to_datetime] parse of such a key ([calculate_summary_statistics],
    the Flask [fetch_running_data]), the columns [dt.dayofweek] and
    [dt.isocalendar().week] of [prepare_heatmap_data], and the
    [pd.date_range] of one calendar year. The ordinal, weekday and ISO
    week follow CPython's [datetime] ([_ymd2ord], [weekday],
    [_isoweek1monday], [isocalendar]), whose results pandas reproduces. *)

From S2P Require Import Prelude PyStr.
Import PyStr.

Module Dates.

#[local] Open Scope Z_scope.

Record date := mkDate { year : Z; month : Z; day : Z }.

#[export] Instance date_eq_dec : EqDecision date.
Proof. solve_decision. Defined.

(** ** The Gregorian calendar *)

Definition is_leap (y : Z) : bool :=
  ((y mod 4 =? 0) && negb (y mod 100 =? 0)) || (y mod 400 =? 0).

(** CPython's [_DAYS_IN_MONTH] with February of a leap year. *)
Definition days_in_month_l (leap : bool) (m : Z) : Z :=
  if m =? 2 then (if leap then 29 else 28)
  else if (m =? 4) || (m =? 6) || (m =? 9) || (m =? 11) then 30 else 31.

Definition days_in_month (y m : Z) : Z := days_in_month_l (is_leap y) m.

(** [datetime.date] accepts exactly these triples ([MINYEAR..MAXYEAR]). *)
Definition valid_date (d : date) : bool :=
  (1 <=? year d) && (year d <=? 9999) && (1 <=? month d) && (month d <=? 12)
  && (1 <=? day d) && (day d <=? days_in_month (year d) (month d)).

(** CPython's [_days_before_year]. *)
Definition days_before_year (y : Z) : Z :=
  let y' := y - 1 in y' * 365 + y' / 4 - y' / 100 + y' / 400.

(** CPython's [_days_before_month]: the table [_DAYS_BEFORE_MONTH] plus
    one after February of a leap year. *)
Definition days_before_month_l (leap : bool) (m : Z) : Z :=
  let base :=
    match m with
    | 1 => 0 | 2 => 31 | 3 => 59 | 4 => 90 | 5 => 120 | 6 => 151
    | 7 => 181 | 8 => 212 | 9 => 243 | 10 => 273 | 11 => 304 | _ => 334
    end%Z in
  if (2 <? m) && leap then base + 1 else base.

Definition days_before_month (y m : Z) : Z := days_before_month_l (is_leap y) m.

(** CPython's [_ymd2ord]: day 1 is 0001-01-01. *)
Definition ymd2ord (y m d : Z) : Z := days_before_year y + days_before_month y m + d.

Definition toordinal (d : date) : Z := ymd2ord (year d) (month d) (day d).

(** [dt.dayofweek] (= [date.weekday()]): Monday 0 .. Sunday 6. *)
Definition weekday (d : date) : Z := (toordinal d + 6) mod 7.

(** CPython's [_isoweek1monday]: the ordinal of the Monday of ISO week 1. *)
Definition isoweek1monday (y : Z) : Z :=
  let firstday := ymd2ord y 1 1 in
  let firstweekday := (firstday + 6) mod 7 in
  let week1monday := firstday - firstweekday in
  if 3 <? firstweekday then week1monday + 7 else week1monday.

(** [dt.isocalendar().week]: the week part of CPython's [isocalendar]. *)
Definition iso_week (d : date) : Z :=
  let y := year d in
  let today := toordinal d in
  let week := (today - isoweek1monday y) / 7 in
  if week <? 0 then (today - isoweek1monday (y - 1)) / 7 + 1
  else if (52 <=? week) && (isoweek1monday (y + 1) <=? today) then 1
  else week + 1.

(** ** [str(date)] and [pd.to_datetime] *)

(** [str(d)] = [d.isoformat()] = ["%04d-%02d-%02d"]. *)
Definition date_str (d : date) : string :=
  String.append (fixed_digits 4 (year d))
    (String "-"%char (String.append (fixed_digits 2 (month d))
       (String "-"%char (fixed_digits 2 (day d))))).

(** The fields of a ["YYYY-MM-DD"] string, read without any check of
    the calendar. *)
Definition parse_ymd (s : string) : option date :=
  '(y, r1) ← parse_fixed 4 s;
  match r1 with
  | String c1 r2 =>
      if Ascii.eqb c1 "-"%char then
        '(m, r3) ← parse_fixed 2 r2;
        match r3 with
        | String c2 r4 =>
            if Ascii.eqb c2 "-"%char then
              '(dd, r5) ← parse_fixed 2 r4;
              match r5 with
              | EmptyString => Some (mkDate y m dd)
              | _ => None
              end
            else None
        | EmptyString => None
        end
      else None
  | EmptyString => None
  end.

(** A [pd.Timestamp] counts nanoseconds since the epoch in 64 bits, from
    1677-09-21 00:12:43 to 2262-04-11 23:47:16: a date parses when its
    midnight lies in that range. *)
Definition pd_min_ord : Z := ymd2ord 1677 9 22.
Definition pd_max_ord : Z := ymd2ord 2262 4 11.

Definition in_pd_range (d : date) : bool :=
  (pd_min_ord <=? toordinal d) && (toordinal d <=? pd_max_ord).

(** [pd.to_datetime(s)] on a ["YYYY-MM-DD"] string, the form of every
    key the code writes and of every [start_date] [fetch_data] writes;
    [None] is the exception pandas raises on an impossible date or one
    out of the [Timestamp] range. pandas accepts other formats too (a
    time of day, an offset); the model treats them as errors, and the
    theorems about failures assume the ["YYYY-MM-DD"] shape. *)
Definition parse_date (s : string) : option date :=
  d ← parse_ymd s;
  if valid_date d && in_pd_range d then Some d else None.

(** ** [pd.date_range(f'{y}-01-01', f'{y}-12-31')] *)

Definition month_dates (y m : Z) : list date :=
  (fun dd => mkDate y m dd) <$> seqZ 1 (days_in_month y m).

Definition year_dates (y : Z) : list date :=
  mjoin (month_dates y <$> seqZ 1 12).

(** ** Lemmas *)

Lemma valid_date_bounds (d : date) :
  valid_date d = true ->
  (1 <= year d <= 9999 /\ 1 <= month d <= 12 /\ 1 <= day d <= days_in_month (year d) (month d))%Z.
Proof. unfold valid_date. rewrite !andb_true_iff, !Z.leb_le. lia. Qed.

Lemma days_in_month_bounds (y m : Z) : (28 <= days_in_month y m <= 31)%Z.
Proof. unfold days_in_month, days_in_month_l. case_bool; lia. Qed.

Lemma is_leap_spec (y : Z) :
  is_leap y = true <-> ((y mod 4 = 0 /\ y mod 100 <> 0) \/ y mod 400 = 0).
Proof.
  unfold is_leap. rewrite orb_true_iff, andb_true_iff, negb_true_iff, !Z.eqb_eq, Z.eqb_neq.
  done.
Qed.

(** One year after another: 365 days, 366 after a leap year. *)
Lemma days_before_year_succ (y : Z) :
  days_before_year (y + 1) = days_before_year y + (if is_leap y then 366 else 365).
Proof.
  unfold days_before_year. replace (y + 1 - 1) with y by lia.
  destruct (is_leap y) eqn:E.
  - apply is_leap_spec in E. lia_divmod.
  - assert (~ ((y mod 4 = 0 /\ y mod 100 <> 0) \/ y mod 400 = 0))
      by (rewrite <- is_leap_spec; congruence). lia_divmod.
Qed.

(** The day of the year of a valid date, within the year's length. *)
Lemma day_of_year_bounds (d : date) :
  valid_date d = true ->
  1 <= days_before_month (year d) (month d) + day d
    <= if is_leap (year d) then 366 else 365.
Proof.
  intros Hv. apply valid_date_bounds in Hv as (_ & Hm & Hd).
  unfold days_before_month, days_before_month_l, days_in_month, days_in_month_l in *.
  destruct (is_leap (year d)); rewrite ?andb_true_r, ?andb_false_r in *;
  assert (month d = 1 \/ month d = 2 \/ month d = 3 \/ month d = 4 \/ month d = 5
          \/ month d = 6 \/ month d = 7 \/ month d = 8 \/ month d = 9
          \/ month d = 10 \/ month d = 11 \/ month d = 12) as Hcase by lia;
  repeat destruct Hcase as [Hcase|Hcase]; rewrite Hcase in *; cbn in *; lia.
Qed.

Lemma append_nil_r (s : string) : String.append s EmptyString = s.
Proof. induction s as [|c s IH]; [done|]. rewrite append_cons. by rewrite IH. Qed.

Lemma parse_ymd_date_str (d : date) :
  valid_date d = true -> parse_ymd (date_str d) = Some d.
Proof.
  intros Hv. pose proof (valid_date_bounds d Hv) as (Hy & Hm & Hd).
  pose proof (days_in_month_bounds (year d) (month d)).
  unfold parse_ymd, date_str.
  rewrite parse_fixed_digits by lia. cbn [mbind option_bind].
  rewrite Z.mod_small by (cbn; lia). cbn [Ascii.eqb Bool.eqb andb].
  rewrite parse_fixed_digits by lia. cbn [mbind option_bind].
  rewrite Z.mod_small by (cbn; lia). cbn [Ascii.eqb Bool.eqb andb].
  rewrite <- (append_nil_r (fixed_digits 2 (day d))).
  rewrite parse_fixed_digits by lia. cbn [mbind option_bind].
  rewrite Z.mod_small by (cbn; lia).
  by destruct d.
Qed.

Lemma parse_date_valid (s : string) (d : date) :
  parse_date s = Some d -> valid_date d = true /\ in_pd_range d = true.
Proof.
  unfold parse_date. destruct (parse_ymd s) as [d'|]; cbn; [|done].
  destruct (valid_date d') eqn:Hv, (in_pd_range d') eqn:Hr; cbn; intros; simplify_eq; done.
Qed.

Lemma parse_date_date_str (d : date) :
  valid_date d = true -> in_pd_range d = true -> parse_date (date_str d) = Some d.
Proof.
  intros Hv Hr. unfold parse_date. rewrite parse_ymd_date_str by done. cbn.
  by rewrite Hv, Hr.
Qed.

(** A string [pd.to_datetime] accepts is the [str] of its date. *)
Lemma date_str_parse_ymd (s : string) (d : date) : parse_ymd s = Some d -> date_str d = s.
Proof.
  unfold parse_ymd.
  destruct (parse_fixed 4 s) as [[y r1]|] eqn:H1; cbn [mbind option_bind]; [|done].
  apply parse_fixed_inv in H1 as [_ ->].
  destruct r1 as [|c1 r2]; [done|]. destruct (Ascii.eqb_spec c1 "-"%char) as [->|]; [|done].
  destruct (parse_fixed 2 r2) as [[mo r3]|] eqn:H2; cbn [mbind option_bind]; [|done].
  apply parse_fixed_inv in H2 as [_ ->].
  destruct r3 as [|c2 r4]; [done|]. destruct (Ascii.eqb_spec c2 "-"%char) as [->|]; [|done].
  destruct (parse_fixed 2 r4) as [[dd r5]|] eqn:H3; cbn [mbind option_bind]; [|done].
  apply parse_fixed_inv in H3 as [_ ->].
  destruct r5; [|done]. intros [= <-]. unfold date_str. cbn [year month day].
  by rewrite append_nil_r.
Qed.

Lemma date_str_parse_date (s : string) (d : date) : parse_date s = Some d -> date_str d = s.
Proof.
  unfold parse_date. destruct (parse_ymd s) as [d'|] eqn:H; cbn; [|done].
  case_match; intros; simplify_eq. by apply date_str_parse_ymd.
Qed.

(** The dates of [pd.date_range] over a year are distinct. *)
Lemma NoDup_year_dates (y : Z) : NoDup (year_dates y).
Proof.
  unfold year_dates. match goal with |- NoDup (mjoin (?f <$> ?l)) =>
    replace (mjoin (f <$> l)) with (l ≫= f)
      by (generalize l; intros ms; induction ms as [|x ms IH]; [done|]; cbn; by rewrite IH) end.
  apply NoDup_bind; [| |apply NoDup_seqZ].
  - intros m1 m2 d _ _ H1 H2. unfold month_dates in H1, H2.
    apply list_elem_of_fmap in H1 as (? & -> & _). apply list_elem_of_fmap in H2 as (? & ? & _).
    congruence.
  - intros m _. apply NoDup_fmap_2_strong; [by intros ?? _ _ [= ->]|apply NoDup_seqZ].
Qed.

(** The dates of [pd.date_range] for year [y] are the valid triples of [y]. *)
Lemma elem_of_year_dates (y : Z) (d : date) :
  d ∈ year_dates y <->
  year d = y /\ 1 <= month d <= 12 /\ 1 <= day d <= days_in_month y (month d).
Proof.
  unfold year_dates, month_dates. rewrite list_elem_of_join. split.
  - intros (l & Hd & Hl). apply list_elem_of_fmap in Hl as (m & -> & Hm).
    apply list_elem_of_fmap in Hd as (dd & -> & Hdd).
    rewrite elem_of_seqZ in Hm, Hdd. cbn. lia.
  - destruct d as [y' m dd]; cbn. intros (-> & Hm & Hdd).
    exists (month_dates y m). split.
    + apply list_elem_of_fmap. exists dd. rewrite elem_of_seqZ. split; [done|lia].
    + apply list_elem_of_fmap. exists m. rewrite elem_of_seqZ. split; [done|lia].
Qed.

Lemma year_dates_valid (y : Z) (d : date) :
  1 <= y <= 9999 -> d ∈ year_dates y -> valid_date d = true.
Proof.
  intros Hy Hd. apply elem_of_year_dates in Hd as (<- & Hm & Hdd).
  unfold valid_date. rewrite !andb_true_iff, !Z.leb_le. lia.
Qed.

(** [pd.date_range] over a calendar year has 366 dates in a leap year
    and 365 otherwise. *)
Theorem year_dates_length (y : Z) :
  length (year_dates y) = if is_leap y then 366%nat else 365%nat.
Proof.
  unfold year_dates, month_dates, days_in_month.
  destruct (is_leap y); reflexivity.
Qed.

(** Week 1 starts on the Monday at most three days away from January 1. *)
Lemma isoweek1monday_bounds (y : Z) :
  ymd2ord y 1 1 - 3 <= isoweek1monday y <= ymd2ord y 1 1 + 3
  /\ isoweek1monday y mod 7 = 1.
Proof. unfold isoweek1monday. case_bool; rewrite ?Z.ltb_lt, ?Z.ltb_ge in *; lia_divmod. Qed.

Lemma ymd2ord_jan1_succ (y : Z) :
  ymd2ord (y + 1) 1 1 = ymd2ord y 1 1 + (if is_leap y then 366 else 365).
Proof. unfold ymd2ord. rewrite days_before_year_succ. cbn. lia. Qed.

Lemma iso_week_range (d : date) :
  valid_date d = true -> 1 <= iso_week d <= 53.
Proof.
  intros Hv. pose proof (day_of_year_bounds d Hv) as Hdoy.
  pose proof (isoweek1monday_bounds (year d - 1)) as H0.
  pose proof (isoweek1monday_bounds (year d)) as H1.
  pose proof (isoweek1monday_bounds (year d + 1)) as H2.
  pose proof (ymd2ord_jan1_succ (year d)) as S1.
  pose proof (ymd2ord_jan1_succ (year d - 1)) as S0.
  replace (year d - 1 + 1) with (year d) in S0 by lia.
  unfold iso_week, toordinal. unfold ymd2ord in *.
  destruct (is_leap (year d - 1)), (is_leap (year d)); cbn in *;
  generalize dependent (isoweek1monday (year d - 1));
  generalize dependent (isoweek1monday (year d));
  generalize dependent (isoweek1monday (year d + 1)); intros;
  case_bool; rewrite ?andb_true_iff, ?andb_false_iff, ?Z.ltb_lt, ?Z.ltb_ge, ?Z.leb_le, ?Z.leb_gt in *;
  lia_divmod.
Qed.

(** The first 31 days of a year are January, the last 31 December. *)
Lemma month_of_day_of_year (d : date) :
  valid_date d = true ->
  (days_before_month (year d) (month d) + day d <= 31 -> month d = 1)
  /\ ((if is_leap (year d) then 336 else 335) <= days_before_month (year d) (month d) + day d ->
      month d = 12).
Proof.
  intros Hv. apply valid_date_bounds in Hv as (_ & Hm & Hd).
  unfold days_before_month, days_before_month_l, days_in_month, days_in_month_l in *.
  destruct (is_leap (year d)); rewrite ?andb_true_r, ?andb_false_r in *;
  assert (month d = 1 \/ month d = 2 \/ month d = 3 \/ month d = 4 \/ month d = 5
          \/ month d = 6 \/ month d = 7 \/ month d = 8 \/ month d = 9
          \/ month d = 10 \/ month d = 11 \/ month d = 12) as Hcase by lia;
  repeat destruct Hcase as [Hcase|Hcase]; rewrite Hcase in *; cbn in *; lia.
Qed.

(** The ISO year of a date of year [y] is [y - 1] (the first days of
    January), [y], or [y + 1] (the last days of December, in week 1),
    and its week counts from that ISO year's week-1 Monday. *)
Lemma iso_week_cases (d : date) :
  valid_date d = true ->
  (toordinal d < isoweek1monday (year d) /\ isoweek1monday (year d - 1) <= toordinal d
   /\ iso_week d = (toordinal d - isoweek1monday (year d - 1)) / 7 + 1)
  \/ (isoweek1monday (year d) <= toordinal d < isoweek1monday (year d + 1)
      /\ iso_week d = (toordinal d - isoweek1monday (year d)) / 7 + 1)
  \/ (isoweek1monday (year d + 1) <= toordinal d /\ iso_week d = 1).
Proof.
  intros Hv. pose proof (day_of_year_bounds d Hv) as Hdoy.
  pose proof (isoweek1monday_bounds (year d - 1)) as H0.
  pose proof (isoweek1monday_bounds (year d)) as H1.
  pose proof (isoweek1monday_bounds (year d + 1)) as H2.
  pose proof (ymd2ord_jan1_succ (year d)) as S1.
  pose proof (ymd2ord_jan1_succ (year d - 1)) as S0.
  replace (year d - 1 + 1) with (year d) in S0 by lia.
  unfold iso_week, toordinal. unfold ymd2ord in *.
  destruct (is_leap (year d - 1)), (is_leap (year d)); cbn in *;
  generalize dependent (isoweek1monday (year d - 1));
  generalize dependent (isoweek1monday (year d));
  generalize dependent (isoweek1monday (year d + 1)); intros;
  case_bool; rewrite ?andb_true_iff, ?andb_false_iff, ?Z.ltb_lt, ?Z.ltb_ge, ?Z.leb_le, ?Z.leb_gt in *;
  lia_divmod.
Qed.

End Dates.
