(* ===== verification/Ordinal.v ===== *)
(** CPython's [_ord2ymd] (the date of a day number, used by
    [date.fromordinal] and so by every conversion of a timestamp to a
    date) is the inverse of [_ymd2ord] on the dates [datetime] accepts.
    [_ord2ymd] splits a day number into 400-year cycles, centuries,
    4-year cycles and years; the proof follows that split: the year it
    computes starts on the day [_days_before_year] says, its leap-year
    flag is [_is_leap], and its month and day, computed from the day of
    the year with [(n + 50) >> 5], are checked by evaluation on the 365
    days of both kinds of year. The file also holds the conversion of
    a Unix timestamp to a local date that [src/flask-app/app.py] and
    [src/fetch_strava_data.py] perform through [_ord2ymd]. *)

From S2P Require Import Prelude PyStr Dates.
Import PyStr Dates.

Module Ordinal.

#[local] Open Scope Z_scope.

(** The ordinal of 9999-12-31, [date.max]. *)
Definition max_ordinal : Z := 3652059.

(** CPython's [_ord2ymd] ([date.fromordinal]): the date of ordinal [n]. *)
Definition ord2ymd (n0 : Z) : date :=
  let n := n0 - 1 in
  let n400 := n / 146097 in let n := n mod 146097 in
  let n100 := n / 36524 in let n := n mod 36524 in
  let n4 := n / 1461 in let n := n mod 1461 in
  let n1 := n / 365 in let n := n mod 365 in
  let y := n400 * 400 + 1 + n100 * 100 + n4 * 4 + n1 in
  if (n1 =? 4) || (n100 =? 4) then mkDate (y - 1) 12 31
  else
    let leapyear := (n1 =? 3) && (negb (n4 =? 24) || (n100 =? 3)) in
    let m := Z.shiftr (n + 50) 5 in
    let preceding := days_before_month_l leapyear m in
    if n <? preceding then
      let m' := m - 1 in
      let preceding' := preceding - days_in_month_l leapyear m' in
      mkDate y m' (n - preceding' + 1)
    else mkDate y m (n - preceding + 1).

(** The ordinal of 1970-01-01, the Unix epoch. *)
Definition epoch_ordinal : Z := 719163.

(** [arrow.get(ts).to('local').date()] for a server at a fixed UTC offset
    of [off] seconds (daylight saving time is not modelled). *)
Definition local_date (off ts : Z) : date :=
  ord2ymd (epoch_ordinal + (ts + off) / 86400).

(** ** The year *)

(** The year [_ord2ymd] computes from [a] 400-year cycles, [b]
    centuries, [c] 4-year cycles and [d] years starts after this many
    days. *)
Lemma days_before_year_split (a b c d : Z) :
  0 <= b <= 3 -> 0 <= c <= 24 -> 0 <= d <= 3 ->
  days_before_year (a * 400 + 1 + b * 100 + c * 4 + d) = 146097 * a + 36524 * b + 1461 * c + 365 * d.
Proof. intros. unfold days_before_year. lia_divmod. Qed.

(** The leap-year flag of [_ord2ymd] is [_is_leap] of its year. *)
Lemma is_leap_split (a b c d : Z) :
  0 <= b <= 3 -> 0 <= c <= 24 -> 0 <= d <= 3 ->
  is_leap (a * 400 + 1 + b * 100 + c * 4 + d) = (d =? 3) && (negb (c =? 24) || (b =? 3)).
Proof.
  intros Hb Hc Hd. set (y := a * 400 + 1 + b * 100 + c * 4 + d).
  assert (y mod 4 = 0 <-> d = 3) as H4 by (unfold y; split; intros; lia_divmod).
  assert (y mod 100 = 0 <-> c = 24 /\ d = 3) as H100 by (unfold y; split; intros; lia_divmod).
  assert (y mod 400 = 0 <-> b = 3 /\ c = 24 /\ d = 3) as H400
    by (unfold y; split; intros; lia_divmod).
  unfold is_leap. destruct (Z.eqb_spec (y mod 4) 0), (Z.eqb_spec (y mod 100) 0),
    (Z.eqb_spec (y mod 400) 0), (Z.eqb_spec d 3), (Z.eqb_spec c 24), (Z.eqb_spec b 3);
    cbn; tauto.
Qed.

(** ** The month and the day *)

(** The month and day of the day [n] (from 0) of a year, as [_ord2ymd]
    computes them. *)
Definition month_day (leap : bool) (n : Z) : date :=
  let m := Z.shiftr (n + 50) 5 in
  let preceding := days_before_month_l leap m in
  if n <? preceding then
    let m' := m - 1 in
    let preceding' := preceding - days_in_month_l leap m' in
    mkDate 0 m' (n - preceding' + 1)
  else mkDate 0 m (n - preceding + 1).

Definition month_day_ok (leap : bool) (n : Z) : bool :=
  let d := month_day leap n in
  (1 <=? month d) && (month d <=? 12) && (1 <=? day d) && (day d <=? days_in_month_l leap (month d))
  && (days_before_month_l leap (month d) + day d =? n + 1).

(** Every day of both kinds of year, by evaluation. *)
Lemma month_day_all :
  forallb (fun n => month_day_ok true n && month_day_ok false n) (seqZ 0 365) = true.
Proof. vm_compute. reflexivity. Qed.

Lemma month_day_spec (leap : bool) (n : Z) :
  0 <= n <= 364 ->
  1 <= month (month_day leap n) <= 12
  /\ 1 <= day (month_day leap n) <= days_in_month_l leap (month (month_day leap n))
  /\ days_before_month_l leap (month (month_day leap n)) + day (month_day leap n) = n + 1.
Proof.
  intros Hn. pose proof month_day_all as H. rewrite forallb_forall in H.
  specialize (H n). rewrite <- list_elem_of_In, elem_of_seqZ in H.
  assert (month_day_ok leap n = true) as Hok by (destruct leap; apply andb_true_iff in H as [? ?]; auto with lia).
  unfold month_day_ok in Hok. rewrite !andb_true_iff, !Z.leb_le, Z.eqb_eq in Hok. lia.
Qed.

(** ** Correctness *)

(** [_ord2ymd] yields, for every ordinal from [date.min] to
    [date.max], a date [datetime] accepts whose ordinal is that number:
    [toordinal(fromordinal(n)) == n]. *)
Theorem ord2ymd_correct (n : Z) :
  1 <= n <= max_ordinal -> valid_date (ord2ymd n) = true /\ toordinal (ord2ymd n) = n.
Proof.
  unfold max_ordinal. intros Hn. unfold ord2ymd. cbn zeta.
  set (x := n - 1).
  pose proof (Z.div_mod x 146097 ltac:(lia)). pose proof (Z.mod_pos_bound x 146097 ltac:(lia)).
  set (a := x / 146097) in *. set (x1 := x mod 146097) in *.
  pose proof (Z.div_mod x1 36524 ltac:(lia)). pose proof (Z.mod_pos_bound x1 36524 ltac:(lia)).
  set (b := x1 / 36524) in *. set (x2 := x1 mod 36524) in *.
  pose proof (Z.div_mod x2 1461 ltac:(lia)). pose proof (Z.mod_pos_bound x2 1461 ltac:(lia)).
  set (c := x2 / 1461) in *. set (x3 := x2 mod 1461) in *.
  pose proof (Z.div_mod x3 365 ltac:(lia)). pose proof (Z.mod_pos_bound x3 365 ltac:(lia)).
  set (d := x3 / 365) in *. set (x4 := x3 mod 365) in *.
  clearbody a x1 b x2 c x3 d x4. subst x.
  destruct ((d =? 4) || (b =? 4)) eqn:Hs.
  - (* the last day of a 4-year cycle or of a 400-year cycle *)
    assert (exists b' c', 0 <= b' <= 3 /\ 0 <= c' <= 24 /\ (c' = 24 -> b' = 3)
              /\ a * 400 + 1 + b * 100 + c * 4 + d - 1 = a * 400 + 1 + b' * 100 + c' * 4 + 3
              /\ n = 146097 * a + 36524 * b' + 1461 * c' + 1461) as (b' & c' & Hb' & Hc' & Hbc & -> & ->).
    { apply orb_true_iff in Hs as [Hd|Hb]; apply Z.eqb_eq in Hd || apply Z.eqb_eq in Hb.
      - exists b, c. lia.
      - exists 3, 24. lia. }
    unfold valid_date, toordinal, ymd2ord, days_before_month, days_in_month. cbn [year month day].
    rewrite is_leap_split, days_before_year_split by lia.
    replace ((3 =? 3) && (negb (c' =? 24) || (b' =? 3))) with true
      by (destruct (Z.eqb_spec c' 24), (Z.eqb_spec b' 3); cbn; lia || done).
    cbn. rewrite !andb_true_iff, !Z.leb_le. lia.
  - (* a day of year [a * 400 + 1 + b * 100 + c * 4 + d] *)
    apply orb_false_iff in Hs as [Hd Hb]. apply Z.eqb_neq in Hd, Hb.
    assert (d <= 3 /\ b <= 3 /\ c <= 24) as (Hd3 & Hb3 & Hc24) by lia.
    rewrite <- (is_leap_split a b c d) by lia.
    pose proof (month_day_spec (is_leap (a * 400 + 1 + b * 100 + c * 4 + d)) x4 ltac:(lia)) as Hmd.
    unfold month_day in Hmd. cbn zeta in Hmd.
    destruct (x4 <? _); cbn [year month day] in *;
    unfold valid_date, toordinal, ymd2ord, days_before_month, days_in_month; cbn [year month day];
    rewrite days_before_year_split by lia; rewrite !andb_true_iff, !Z.leb_le; lia.
Qed.

(** ** The converse *)

Lemma days_before_year_mono (y y' : Z) : y <= y' -> days_before_year y <= days_before_year y'.
Proof.
  intros Hle. replace y' with (y + Z.of_nat (Z.to_nat (y' - y))) by lia.
  induction (Z.to_nat (y' - y)) as [|j IH]; [rewrite Z.add_0_r; lia|].
  rewrite Nat2Z.inj_succ, Z.add_succ_r, <- Z.add_1_r, days_before_year_succ.
  destruct (is_leap _); lia.
Qed.

(** Within one year, the month and day are determined by the day of the
    year. *)
Lemma day_of_year_inj (leap : bool) (m1 d1 m2 d2 : Z) :
  1 <= m1 <= 12 -> 1 <= m2 <= 12 ->
  1 <= d1 <= days_in_month_l leap m1 -> 1 <= d2 <= days_in_month_l leap m2 ->
  days_before_month_l leap m1 + d1 = days_before_month_l leap m2 + d2 -> m1 = m2 /\ d1 = d2.
Proof.
  intros Hm1 Hm2.
  assert (m1 = 1 \/ m1 = 2 \/ m1 = 3 \/ m1 = 4 \/ m1 = 5 \/ m1 = 6 \/ m1 = 7 \/ m1 = 8
          \/ m1 = 9 \/ m1 = 10 \/ m1 = 11 \/ m1 = 12) as H1 by lia.
  assert (m2 = 1 \/ m2 = 2 \/ m2 = 3 \/ m2 = 4 \/ m2 = 5 \/ m2 = 6 \/ m2 = 7 \/ m2 = 8
          \/ m2 = 9 \/ m2 = 10 \/ m2 = 11 \/ m2 = 12) as H2 by lia.
  destruct leap; repeat destruct H1 as [->|H1]; repeat destruct H2 as [->|H2]; subst; cbn; lia.
Qed.

Lemma toordinal_bounds_year (d : date) :
  valid_date d = true ->
  days_before_year (year d) < toordinal d <= days_before_year (year d + 1).
Proof.
  intros Hv. pose proof (day_of_year_bounds d Hv). rewrite days_before_year_succ.
  unfold toordinal, ymd2ord, days_before_month in *. destruct (is_leap (year d)); lia.
Qed.

(** [toordinal] is injective on the dates [datetime] accepts. *)
Lemma toordinal_inj (d1 d2 : date) :
  valid_date d1 = true -> valid_date d2 = true -> toordinal d1 = toordinal d2 -> d1 = d2.
Proof.
  intros Hv1 Hv2 Heq.
  pose proof (toordinal_bounds_year d1 Hv1). pose proof (toordinal_bounds_year d2 Hv2).
  assert (year d1 = year d2) as Hy.
  { destruct (Z.lt_total (year d1) (year d2)) as [Hlt|[?|Hlt]]; [|done|];
      [pose proof (days_before_year_mono (year d1 + 1) (year d2))
      |pose proof (days_before_year_mono (year d2 + 1) (year d1))]; lia. }
  apply valid_date_bounds in Hv1 as (_ & Hm1 & Hd1), Hv2 as (_ & Hm2 & Hd2).
  unfold toordinal, ymd2ord, days_before_month, days_in_month in *. rewrite Hy in *.
  destruct (day_of_year_inj (is_leap (year d2)) (month d1) (day d1) (month d2) (day d2))
    as [Hm Hd]; try lia.
  destruct d1, d2; cbn in *. by subst.
Qed.

(** [fromordinal(toordinal(d)) == d] for every date [datetime]
    accepts: [_ord2ymd] inverts [_ymd2ord]. *)
Theorem ord2ymd_toordinal (d : date) :
  valid_date d = true -> ord2ymd (toordinal d) = d.
Proof.
  intros Hv. pose proof (toordinal_bounds_year d Hv) as Hb.
  pose proof (valid_date_bounds d Hv) as (Hy & _ & _).
  pose proof (days_before_year_mono 1 (year d)). pose proof (days_before_year_mono (year d + 1) 10000).
  change (days_before_year 1) with 0 in *. change (days_before_year 10000) with 3652059 in *.
  destruct (ord2ymd_correct (toordinal d)) as [Hv' Ho]; [unfold max_ordinal; lia|].
  by apply toordinal_inj.
Qed.

End Ordinal.
