(* ===== verification/Aggregate.v ===== *)
(** The aggregation of runs into per-day totals: the [daily_mileage]
    [defaultdict] built by [fetch_running_data] in [src/flask-app/app.py]
    (from stravalib activities) and in [src/app.py] (from the run
    records of the Netlify function), and the per-run records built by
    [fetch_data] in [src/fetch_strava_data.py]. The dictionary is a
    [gmap] from date strings to buckets; a [defaultdict] access inserts
    the default bucket, and each [+=] rewrites the bucket of its key. *)

From S2P Require Import Prelude PyStr Dates Ordinal.
Import PyStr Dates Ordinal.

Module Aggregate.

(** ** Data *)

(** The inner dict [{'distance': ..., 'duration': ...}]. *)
Record Bucket := mkBucket { distance : Q; duration : Q }.

(** [defaultdict(lambda: {'distance': 0, 'duration': 0})]. *)
Definition default_bucket : Bucket := mkBucket 0 0.

Abbreviation Mileage := (gmap string Bucket).

(** A stravalib activity, with the fields the code reads: [type],
    [distance] (metres), [moving_time] (seconds) and [start_date]
    (a UTC instant, as Unix seconds). *)
Record Activity := mkActivity {
  act_type : string;
  act_distance : Q;
  act_moving_time : Q;
  act_start : Z
}.

(** A record of the Netlify [run-details] list: [start_date] (a string),
    [distance] (miles) and [duration] (minutes). *)
Record Run := mkRun { run_start_date : string; run_distance : Q; run_duration : Q }.

(** ** The [defaultdict] *)

(** [daily_mileage[k]]: the stored bucket, or the default one, inserted. *)
Definition dd_getitem (k : string) (m : Mileage) : Bucket * Mileage :=
  match m !! k with
  | Some b => (b, m)
  | None => (default_bucket, <[k := default_bucket]> m)
  end.

(** [daily_mileage[k]['distance'] += x] *)
Definition add_distance (k : string) (x : Q) (m : Mileage) : Mileage :=
  let '(b, m1) := dd_getitem k m in
  <[k := mkBucket (distance b + x) (duration b)]> m1.

(** [daily_mileage[k]['duration'] += x] *)
Definition add_duration (k : string) (x : Q) (m : Mileage) : Mileage :=
  let '(b, m1) := dd_getitem k m in
  <[k := mkBucket (distance b) (duration b + x)]> m1.

(** The two statements of the loop body, in the order of the code. *)
Definition add_run (k : string) (dist dur : Q) (m : Mileage) : Mileage :=
  add_duration k dur (add_distance k dist m).

(** ** [fetch_running_data] of [src/flask-app/app.py] (stravalib) *)

Definition miles_per_metre : Q := 0.000621371.

(** The body of [for activity in activities]. *)
Definition strava_step (off : Z) (m : Mileage) (a : Activity) : Mileage :=
  if String.eqb (act_type a) "Run" then
    let local := date_str (local_date off (act_start a)) in
    let distance_miles := (act_distance a * miles_per_metre)%Q in
    let duration_minutes := (act_moving_time a / 60)%Q in
    add_run local distance_miles duration_minutes m
  else m.

(** [None] is an exception of [client.get_activities()], caught by the
    [except]: the result is then a fresh, empty [defaultdict]. *)
Definition fetch_running_data_strava (off : Z) (acts : option (list Activity)) : Mileage :=
  match acts with
  | None => ∅
  | Some l => fold_left (strava_step off) l ∅
  end.

(** ** [fetch_running_data] of [src/app.py] (Netlify) *)

(** The body of [for run in data]; [None] is the exception of
    [pd.to_datetime] on a malformed [start_date]. *)
Definition netlify_step (m : Mileage) (r : Run) : option Mileage :=
  d ← parse_date (run_start_date r);
  let local_date := date_str d in
  Some (add_run local_date (run_distance r) (run_duration r) m).

Fixpoint netlify_loop (m : Mileage) (l : list Run) : option Mileage :=
  match l with
  | [] => Some m
  | r :: l' => m' ← netlify_step m r; netlify_loop m' l'
  end.

(** [None] for [data] is a failed request ([raise_for_status], [json]);
    any exception of the loop also lands in the [except], which returns
    a fresh empty [defaultdict]: the partial dictionary is dropped. *)
Definition fetch_running_data_netlify (data : option (list Run)) : Mileage :=
  match data with
  | None => ∅
  | Some l => default ∅ (netlify_loop ∅ l)
  end.

(** ** [fetch_data] of [src/fetch_strava_data.py] *)

(** One entry of [run_details]; the [id] and [name] fields are carried
    through unchanged and are not modelled. *)
Definition run_detail (a : Activity) : Run :=
  mkRun (date_str (local_date 0 (act_start a)))
        (round2 (act_distance a / 1609.34))
        (round2 (act_moving_time a / 60)).

(** [acts] is the account's activity list, most recent first;
    [client.get_activities(limit=200)] yields its first 200. *)
Definition fetch_data_runs (acts : list Activity) : list Run :=
  run_detail <$> filter (fun a => String.eqb (act_type a) "Run" = true) (take 200 acts).

(** ** The dictionary updates *)

(** The bucket of [k] as the code reads it: absent means zero. *)
Definition bucket_of (m : Mileage) (k : string) : Bucket := default default_bucket (m !! k).

(** One run added to the bucket [b]. *)
Definition bplus (b : Bucket) (x y : Q) : Bucket := mkBucket (distance b + x) (duration b + y).

Lemma add_run_lookup (k j : string) (x y : Q) (m : Mileage) :
  add_run k x y m !! j = if decide (j = k) then Some (bplus (bucket_of m k) x y) else m !! j.
Proof.
  unfold add_run, add_duration, add_distance, dd_getitem, bucket_of, bplus.
  destruct (m !! k) as [b|] eqn:Hk; cbn; rewrite !lookup_insert_eq;
    case_decide; subst; simplify_map_eq; rewrite ?Hk; done.
Qed.

(** *** A loop of guarded [add_run] statements *)

Section Accumulate.
Context {A : Type} (P : A -> bool) (key : A -> string) (dx dy : A -> Q).

Definition acc_step (m : Mileage) (a : A) : Mileage :=
  if P a then add_run (key a) (dx a) (dy a) m else m.

(** The items that reach the bucket of [k]. *)
Definition hits (k : string) (l : list A) : list A :=
  filter (fun a => P a = true /\ key a = k) l.

(** The totals the bucket of [k] receives from [rs], over [o]. *)
Definition fold_bucket (o : option Bucket) (rs : list A) : option Bucket :=
  match rs with
  | [] => o
  | _ => Some (bplus (default default_bucket o) (qsum (dx <$> rs)) (qsum (dy <$> rs)))
  end.

Lemma fold_bucket_cons (o : option Bucket) (a : A) (rs : list A) :
  fold_bucket (Some (bplus (default default_bucket o) (dx a) (dy a))) rs
  = fold_bucket o (a :: rs).
Proof.
  destruct rs as [|a' rs]; cbn; unfold bplus; cbn.
  - by qsum_simpl.
  - by rewrite <- !Qplus_assoc_L.
Qed.

Lemma acc_lookup (l : list A) (m : Mileage) (k : string) :
  fold_left acc_step l m !! k = fold_bucket (m !! k) (hits k l).
Proof.
  revert m; induction l as [|a l IH]; intros m; cbn [fold_left]; [done|].
  rewrite IH. unfold hits at 2. rewrite filter_cons. fold (hits k l).
  unfold acc_step. destruct (P a) eqn:HP.
  - rewrite add_run_lookup. case_decide as Hk; subst.
    + rewrite decide_True by done. apply fold_bucket_cons.
    + rewrite decide_False by (intros []; congruence). done.
  - rewrite decide_False by (intros []; congruence). done.
Qed.

End Accumulate.

Lemma fold_bucket_None {A} (dx dy : A -> Q) (rs : list A) :
  fold_bucket dx dy None rs =
  match rs with
  | [] => None
  | a :: rs' => Some (mkBucket (qsum (dx <$> a :: rs')) (qsum (dy <$> a :: rs')))
  end.
Proof. destruct rs; [done|]. unfold fold_bucket, bplus. cbn [default distance duration]. by qsum_simpl. Qed.

(** ** [src/flask-app/app.py] *)

Definition is_run (a : Activity) : bool := String.eqb (act_type a) "Run".
Definition strava_key (off : Z) (a : Activity) : string := date_str (local_date off (act_start a)).
Definition strava_miles (a : Activity) : Q := (act_distance a * miles_per_metre)%Q.
Definition strava_minutes (a : Activity) : Q := (act_moving_time a / 60)%Q.

Lemma strava_step_acc (off : Z) :
  strava_step off = acc_step is_run (strava_key off) strava_miles strava_minutes.
Proof. done. Qed.

(** The runs of [l] whose local date is [k]. *)
Definition strava_hits (off : Z) (k : string) (l : list Activity) : list Activity :=
  hits is_run (strava_key off) k l.

(** C1. The dictionary of [fetch_running_data] ([src/flask-app/app.py]) has an entry for date [k]
    exactly when some activity of type ["Run"] starts (in the server's
    local time) on [k], and that entry holds the sums of the miles and
    of the minutes of those runs. *)
Theorem fetch_running_data_strava_lookup (off : Z) (l : list Activity) (k : string) :
  fetch_running_data_strava off (Some l) !! k =
  match strava_hits off k l with
  | [] => None
  | rs => Some (mkBucket (qsum (strava_miles <$> rs)) (qsum (strava_minutes <$> rs)))
  end.
Proof.
  unfold fetch_running_data_strava. rewrite strava_step_acc, acc_lookup, lookup_empty.
  apply fold_bucket_None.
Qed.

(** ** [src/app.py] *)

(** The key of a run whose [start_date] parses. *)
Definition netlify_key (r : Run) : string := default "" (date_str <$> parse_date (run_start_date r)).

Definition parses (r : Run) : bool := bool_decide (is_Some (parse_date (run_start_date r))).

Lemma netlify_loop_ok (l : list Run) (m : Mileage) :
  Forall (fun r => parses r = true) l ->
  netlify_loop m l = Some (fold_left (acc_step (fun _ => true) netlify_key run_distance run_duration) l m).
Proof.
  intros Hl. revert m. induction Hl as [|r l Hr _ IH]; intros m; [done|].
  cbn [netlify_loop fold_left].
  unfold parses in Hr. apply bool_decide_eq_true in Hr as [d Hd].
  unfold netlify_step. rewrite Hd. cbn [mbind option_bind]. rewrite IH. do 2 f_equal.
  unfold acc_step, netlify_key. by rewrite Hd.
Qed.

Lemma netlify_loop_error (l : list Run) (m : Mileage) :
  Exists (fun r => parse_date (run_start_date r) = None) l -> netlify_loop m l = None.
Proof.
  intros Hl. revert m. induction Hl as [r l Hr|r l _ IH]; intros m; cbn [netlify_loop].
  - unfold netlify_step. rewrite Hr. done.
  - destruct (netlify_step m r); [apply IH|done].
Qed.

(** One run whose [start_date] has the ["YYYY-MM-DD"] shape but
    names no date [pd.to_datetime] accepts (February 30, month 13, a
    year out of the [Timestamp] range) makes the [except] discard every
    other run: the dashboard shows no activity. *)
Theorem fetch_running_data_netlify_bad_date (l : list Run) (r : Run) :
  r ∈ l -> is_Some (parse_ymd (run_start_date r)) -> parse_date (run_start_date r) = None ->
  fetch_running_data_netlify (Some l) = ∅.
Proof.
  intros Hr _ Hbad. cbn. rewrite netlify_loop_error; [done|].
  apply Exists_exists. by exists r.
Qed.

(** C2. When every [start_date] parses, the entry of date [k] sums the
    runs whose date prints as [k]; dates without runs have no entry. *)
Theorem fetch_running_data_netlify_lookup (l : list Run) (k : string) :
  Forall (fun r => parses r = true) l ->
  fetch_running_data_netlify (Some l) !! k =
  match hits (fun _ => true) netlify_key k l with
  | [] => None
  | rs => Some (mkBucket (qsum (run_distance <$> rs)) (qsum (run_duration <$> rs)))
  end.
Proof.
  intros Hl. unfold fetch_running_data_netlify. rewrite netlify_loop_ok by done.
  change (default ∅ (Some ?m)) with m.
  rewrite acc_lookup, lookup_empty. apply fold_bucket_None.
Qed.

(** ** Witnesses *)

Definition bad_runs : list Run :=
  [mkRun "2024-03-01" 3.1 28; mkRun "2024-02-30" 5.0 45].

Lemma fetch_running_data_netlify_bad_date_witness :
  mkRun "2024-02-30" 5.0 45 ∈ bad_runs /\ is_Some (parse_ymd "2024-02-30")
  /\ parse_date "2024-02-30" = None /\ fetch_running_data_netlify (Some bad_runs) = ∅.
Proof.
  split; [|split; [|split]]; [right; left | eexists; reflexivity | reflexivity |].
  apply (fetch_running_data_netlify_bad_date _ (mkRun "2024-02-30" 5.0 45));
    [right; left | eexists; reflexivity | reflexivity].
Defined.

Definition good_runs : list Run :=
  [mkRun "2024-03-01" 3.1 28; mkRun "2024-03-02" 5.0 45; mkRun "2024-03-01" 1.0 9].

Lemma fetch_running_data_netlify_lookup_witness :
  Forall (fun r => parses r = true) good_runs
  /\ fetch_running_data_netlify (Some good_runs) !! "2024-03-01"
     = match hits (fun _ => true) netlify_key "2024-03-01" good_runs with
       | [] => None
       | rs => Some (mkBucket (qsum (run_distance <$> rs)) (qsum (run_duration <$> rs)))
       end.
Proof.
  assert (Forall (fun r => parses r = true) good_runs) as H
    by (repeat constructor; vm_compute; reflexivity).
  split; [exact H | apply fetch_running_data_netlify_lookup; exact H].
Defined.

End Aggregate.
