(* ===== verification/Float64.v ===== *)
(** The stravalib loop of [fetch_running_data] ([src/flask-app/app.py])
    over IEEE binary64 numbers, the Python [float]s the code really adds,
    as Rocq's primitive floats. [Aggregate] models the same loop over exact
    rationals, where the dictionary does not depend on the order of the
    activities; here the rounding of each [+=] makes it depend on it. *)

From S2P Require Import Prelude PyStr Dates Ordinal.
From Stdlib Require Import Floats.
Import PyStr Dates Ordinal.

Module Float64.

(** The inner dict, with float fields. The [int] [0] of the default
    bucket is the float [0] once a float is added to it. *)
Record FBucket := mkFBucket { fdistance : float; fduration : float }.

Definition default_fbucket : FBucket := mkFBucket 0 0.

Abbreviation FMileage := (gmap string FBucket).

(** A stravalib activity with [distance.real] and [moving_time.real] as
    floats. *)
Record FActivity := mkFActivity {
  fact_type : string;
  fact_distance : float;
  fact_moving_time : float;
  fact_start : Z
}.

Definition fdd_getitem (k : string) (m : FMileage) : FBucket * FMileage :=
  match m !! k with
  | Some b => (b, m)
  | None => (default_fbucket, <[k := default_fbucket]> m)
  end.

Definition fadd_distance (k : string) (x : float) (m : FMileage) : FMileage :=
  let '(b, m1) := fdd_getitem k m in
  <[k := mkFBucket (fdistance b + x)%float (fduration b)]> m1.

Definition fadd_duration (k : string) (x : float) (m : FMileage) : FMileage :=
  let '(b, m1) := fdd_getitem k m in
  <[k := mkFBucket (fdistance b) (fduration b + x)%float]> m1.

Definition fadd_run (k : string) (dist dur : float) (m : FMileage) : FMileage :=
  fadd_duration k dur (fadd_distance k dist m).

(** The literal [0.000621371] denotes, as in Python, its closest binary64. *)
#[warnings="-inexact-float"]
Definition fmiles_per_metre : float := 0.000621371%float.

Definition fstrava_step (off : Z) (m : FMileage) (a : FActivity) : FMileage :=
  if String.eqb (fact_type a) "Run" then
    let local := date_str (local_date off (fact_start a)) in
    let distance_miles := (fact_distance a * fmiles_per_metre)%float in
    let duration_minutes := (fact_moving_time a / 60)%float in
    fadd_run local distance_miles duration_minutes m
  else m.

Definition ffetch_running_data_strava (off : Z) (acts : option (list FActivity)) : FMileage :=
  match acts with
  | None => ∅
  | Some l => fold_left (fstrava_step off) l ∅
  end.

(** Three runs of 1000 m, 2002 m and 3000 m on 2024-03-01. *)
Definition three_runs : list FActivity :=
  [mkFActivity "Run" 1000 300 1709280000; mkFActivity "Run" 2002 600 1709290000;
   mkFActivity "Run" 3000 900 1709300000].

(** With the floats of the code, reversing the activities changes
    the dictionary of [fetch_running_data]: the distance of 2024-03-01 is
    3.7294687420000003 in one order and 3.729468742 in the other, so the
    order independence the specification asks of the aggregation holds
    only for exact sums. *)
Example float_mileage_order_dependent :
  ffetch_running_data_strava 0 (Some three_runs)
  <> ffetch_running_data_strava 0 (Some (reverse three_runs)).
Proof.
  intros H. apply (f_equal (fun m => Prim2SF <$> (fdistance <$> m !! "2024-03-01"))) in H.
  vm_compute in H. congruence.
Qed.

End Float64.
