(* ===== verification/Summary.v ===== *)
(** [calculate_summary_statistics] (identical in [src/app.py] and
    [src/flask-app/app.py]): the number of dates of a year that have a
    bucket, and the total of their distances rounded once to two
    decimals. The loop runs over [daily_mileage.items()]; a [gmap] has no
    insertion order, so the model iterates [map_to_list], and the
    theorems show the result does not depend on the order. The
    file also compares the two data paths at the turn of a year:
    [src/flask-app/app.py] keys a run by the server's local date,
    [fetch_data] by the UTC date. *)

From S2P Require Import Prelude PyStr Dates Ordinal Aggregate.
Import PyStr Dates Ordinal Aggregate.

Module Summary.

#[local] Open Scope Z_scope.

(** The body of [for date_str, data in daily_mileage.items()];
    [None] is the exception of [pd.to_datetime], which nothing catches. *)
Definition summary_step (y : Z) (acc : option (Z * Q)) (kv : string * Bucket) : option (Z * Q) :=
  '(total_runs, total_mileage) ← acc;
  d ← parse_date kv.1;
  if year d =? y then Some ((total_runs + 1)%Z, (total_mileage + distance kv.2)%Q)
  else Some (total_runs, total_mileage).

Definition calculate_summary_statistics (m : Mileage) (y : Z) : option (Z * Q) :=
  '(total_runs, total_mileage) ← fold_left (summary_step y) (map_to_list m) (Some (0%Z, 0%Q));
  Some (total_runs, round2 total_mileage).

(** ** Lemmas *)

(** The year of a key, for a key that parses. *)
Definition key_in_year (y : Z) (k : string) : Prop :=
  match parse_date k with Some d => year d = y | None => False end.

#[export] Instance key_in_year_dec (y : Z) (k : string) : Decision (key_in_year y k).
Proof. unfold key_in_year. destruct (parse_date k); apply _. Defined.

Definition key_parses (k : string) : Prop := is_Some (parse_date k).

(** The entries of year [y]. *)
Definition year_entries (y : Z) (kvs : list (string * Bucket)) : list (string * Bucket) :=
  filter (fun kv => key_in_year y kv.1) kvs.

Lemma summary_fold (y : Z) (kvs : list (string * Bucket)) (n : Z) (t : Q) :
  Forall (fun kv => key_parses kv.1) kvs ->
  fold_left (summary_step y) kvs (Some (n, t)) =
  Some ((n + Z.of_nat (length (year_entries y kvs)))%Z,
        (t + qsum ((fun kv => distance kv.2) <$> year_entries y kvs))%Q).
Proof.
  intros Hp. revert n t. induction Hp as [|[k b] kvs [d Hd] _ IH]; intros n t.
  - cbn. by rewrite Z.add_0_r, Qplus_0_r_L.
  - cbn [fst] in Hd. cbn [fold_left]. unfold summary_step at 2. cbn [mbind option_bind fst snd].
    rewrite Hd. cbn [mbind option_bind].
    assert (key_in_year y k <-> year d = y) as Hk by (unfold key_in_year; by rewrite Hd).
    unfold year_entries. rewrite filter_cons. cbn [fst]. fold (year_entries y kvs).
    destruct (Z.eqb_spec (year d) y).
    + rewrite decide_True by (by apply Hk). rewrite IH. cbn [length fmap list_fmap].
      rewrite qsum_cons, Qplus_assoc_L. do 2 f_equal. lia.
    + rewrite decide_False by (by rewrite Hk). apply IH.
Qed.

Lemma summary_step_None (y : Z) (kvs : list (string * Bucket)) :
  fold_left (summary_step y) kvs None = None.
Proof. induction kvs; cbn; auto. Qed.

Lemma summary_step_comm (y : Z) (acc : option (Z * Q)) (a b : string * Bucket) :
  summary_step y (summary_step y acc a) b = summary_step y (summary_step y acc b) a.
Proof.
  destruct acc as [[n t]|]; [|done]. unfold summary_step; cbn [mbind option_bind].
  destruct (parse_date a.1) as [da|], (parse_date b.1) as [db|];
    cbn [mbind option_bind]; try (by case_bool).
  destruct (year da =? y), (year db =? y); cbn [mbind option_bind]; try done.
  rewrite <- !Qplus_assoc_L, (Qplus_comm_L (distance a.2)). do 2 f_equal; lia.
Qed.

Lemma keys_parse_list (m : Mileage) :
  map_Forall (fun k _ => key_parses k) m -> Forall (fun kv => key_parses kv.1) (map_to_list m).
Proof. intros Hm. apply Forall_forall. intros [k b] Hkb. apply (Hm k b). by apply elem_of_map_to_list. Qed.

(** The summary raises only on a key [pd.to_datetime] rejects. *)
Lemma summary_defined (m : Mileage) (y : Z) :
  map_Forall (fun k _ => key_parses k) m -> is_Some (calculate_summary_statistics m y).
Proof.
  intros Hm. unfold calculate_summary_statistics. rewrite summary_fold by (by apply keys_parse_list).
  cbn. eauto.
Qed.

(** A timestamp whose local day (at offset [off]) is the day of [d]. *)
Lemma local_date_day (off ts : Z) (d : date) :
  valid_date d = true ->
  86400 * (toordinal d - epoch_ordinal) <= ts + off < 86400 * (toordinal d - epoch_ordinal + 1) ->
  local_date off ts = d.
Proof.
  intros Hv Hts. unfold local_date.
  replace (epoch_ordinal + (ts + off) / 86400) with (toordinal d) by lia_divmod.
  by apply ord2ymd_toordinal.
Qed.

(** One run added to the empty dictionary. *)
Lemma add_run_empty (k : string) (x y : Q) : add_run k x y ∅ = {[k := mkBucket x y]}.
Proof.
  apply map_eq. intros j. rewrite add_run_lookup. unfold bucket_of, bplus. cbn.
  case_decide as Hj; [subst; rewrite lookup_singleton_eq; cbn; by autorewrite with pyrw|].
  by rewrite lookup_singleton_ne, lookup_empty by done.
Qed.

(** The summary of a dictionary with one bucket. *)
Lemma summary_singleton (d : date) (b : Bucket) (y : Z) :
  valid_date d = true -> in_pd_range d = true ->
  calculate_summary_statistics {[date_str d := b]} y
  = Some (if year d =? y then (1%Z, round2 (distance b)) else (0%Z, round2 0)).
Proof.
  intros Hv Hr. unfold calculate_summary_statistics. rewrite map_to_list_singleton.
  cbn [fold_left]. unfold summary_step. cbn [mbind option_bind fst snd].
  rewrite parse_date_date_str by done. cbn [mbind option_bind].
  destruct (year d =? y); cbn; by autorewrite with pyrw.
Qed.

(** The dates around the new year of [y + 1] that the timestamps
    convert to, with their ordinals. *)
Lemma year_end_dates (y : Z) :
  1678 <= y <= 2261 ->
  valid_date (mkDate y 12 31) = true /\ in_pd_range (mkDate y 12 31) = true
  /\ valid_date (mkDate (y + 1) 1 1) = true /\ in_pd_range (mkDate (y + 1) 1 1) = true
  /\ toordinal (mkDate (y + 1) 1 1) = ymd2ord (y + 1) 1 1
  /\ toordinal (mkDate y 12 31) = ymd2ord (y + 1) 1 1 - 1.
Proof.
  intros Hy. pose proof (days_before_year_succ y) as Hs.
  pose proof (days_before_year_mono 1678 y) as H1. pose proof (days_before_year_mono (y + 1) 2262) as H2.
  change (days_before_year 1678) with 612512 in H1. change (days_before_year 2262) with 825813 in H2.
  unfold valid_date, in_pd_range, pd_min_ord, pd_max_ord, toordinal, ymd2ord, days_in_month,
    days_before_month. cbn [year month day].
  change (days_before_month_l (is_leap 1677) 9) with 243.
  change (days_before_month_l (is_leap 2262) 4) with 90.
  change (days_before_year 1677) with 612147. change (days_before_year 2262) with 825813.
  destruct (is_leap y); cbn; rewrite ?andb_true_iff, ?Z.leb_le; repeat split; lia.
Qed.

(** ** Theorems *)

(** C10. With keys that all parse as dates, the summary counts the dates
    of year [y] that have a bucket and rounds the sum of their distances
    once, at the end. *)
Theorem calculate_summary_statistics_spec (m : Mileage) (y : Z) :
  map_Forall (fun k _ => key_parses k) m ->
  calculate_summary_statistics m y =
  Some (Z.of_nat (length (year_entries y (map_to_list m))),
        round2 (qsum ((fun kv => distance kv.2) <$> year_entries y (map_to_list m)))).
Proof.
  intros Hm. unfold calculate_summary_statistics.
  rewrite summary_fold by (by apply keys_parse_list).
  cbn [mbind option_bind]. by qsum_simpl.
Qed.

(** C11. A bucket whose date lies in another year (the year before or
    after, say) changes neither the count nor the total of year [y]. *)
Theorem summary_other_year (m : Mileage) (y : Z) (k : string) (b : Bucket) (d : date) :
  m !! k = None -> parse_date k = Some d -> year d <> y ->
  calculate_summary_statistics (<[k:=b]> m) y = calculate_summary_statistics m y.
Proof.
  intros Hk Hd Hy. unfold calculate_summary_statistics.
  rewrite (fold_left_perm_comm _ (summary_step_comm y) _ _ _ (map_to_list_insert m k b Hk)).
  cbn [fold_left]. unfold summary_step at 2. cbn [mbind option_bind fst].
  rewrite Hd. cbn [mbind option_bind]. apply Z.eqb_neq in Hy. by rewrite Hy.
Qed.

(** C13. The two data paths date a run differently at the turn of the
    year. [src/flask-app/app.py] keys a run by its date in the server's
    time zone ([arrow.get(...).to('local')]); [fetch_data] keys it by its
    UTC date, which [src/app.py] reads back. On a server [off] seconds
    east of UTC (0 < [off] < one day), every run that starts in the last
    [off] seconds of December 31 (UTC) of a year [y] is a run of January 1
    of [y + 1] for the stravalib app (it is missing from the totals of
    [y] and counted in those of [y + 1]), while the Netlify path counts
    it in [y]. *)
Theorem year_end_run_shift (off y : Z) (a : Activity) :
  1678 <= y <= 2261 -> 0 < off < 86400 -> is_run a = true ->
  86400 * (ymd2ord (y + 1) 1 1 - epoch_ordinal) - off <= act_start a
    < 86400 * (ymd2ord (y + 1) 1 1 - epoch_ordinal) ->
  calculate_summary_statistics (fetch_running_data_strava off (Some [a])) y = Some (0%Z, round2 0)
  /\ calculate_summary_statistics (fetch_running_data_strava off (Some [a])) (y + 1)
     = Some (1%Z, round2 (strava_miles a))
  /\ calculate_summary_statistics (fetch_running_data_netlify (Some (fetch_data_runs [a]))) y
     = Some (1%Z, round2 (round2 (act_distance a / 1609.34))).
Proof.
  intros Hy Hoff Hrun Hts.
  destruct (year_end_dates y Hy) as (V1 & R1 & V2 & R2 & O2 & O1).
  assert (local_date off (act_start a) = mkDate (y + 1) 1 1) as Hl by (apply local_date_day; [done|lia]).
  assert (local_date 0 (act_start a) = mkDate y 12 31) as Hu by (apply local_date_day; [done|lia]).
  unfold fetch_running_data_strava, fetch_data_runs, fetch_running_data_netlify.
  cbn [fold_left take filter list_filter]. rewrite decide_True by (exact Hrun).
  cbn [fmap list_fmap netlify_loop]. unfold strava_step, netlify_step, run_detail.
  fold (is_run a). rewrite Hrun, Hl, Hu. cbn [run_start_date run_distance run_duration].
  rewrite parse_date_date_str by done. cbn [mbind option_bind default].
  unfold id. rewrite !add_run_empty, !summary_singleton by done. cbn [year distance].
  rewrite !Z.eqb_refl, (proj2 (Z.eqb_neq (y + 1) y)) by lia. done.
Qed.

(** ** Witnesses *)

Definition two_days : Mileage :=
  <["2024-03-01" := mkBucket 3.1 28]> (<["2023-12-31" := mkBucket 5.0 45]> ∅).

Lemma calculate_summary_statistics_spec_witness :
  map_Forall (fun k _ => key_parses k) two_days
  /\ calculate_summary_statistics two_days 2024
     = Some (Z.of_nat (length (year_entries 2024 (map_to_list two_days))),
             round2 (qsum ((fun kv => distance kv.2) <$> year_entries 2024 (map_to_list two_days)))).
Proof.
  assert (map_Forall (fun k _ => key_parses k) two_days) as H.
  { apply map_Forall_insert_2; [vm_compute; eauto|].
    apply map_Forall_insert_2; [vm_compute; eauto|]. apply map_Forall_empty. }
  split; [exact H | apply calculate_summary_statistics_spec; exact H].
Defined.

Lemma summary_other_year_witness :
  (<["2024-03-01" := mkBucket 3.1 28]> ∅ : Mileage) !! "2023-12-31" = None
  /\ parse_date "2023-12-31" = Some (mkDate 2023 12 31) /\ 2023 <> 2024
  /\ calculate_summary_statistics (<["2023-12-31" := mkBucket 5.0 45]>
        (<["2024-03-01" := mkBucket 3.1 28]> ∅)) 2024
     = calculate_summary_statistics (<["2024-03-01" := mkBucket 3.1 28]> ∅) 2024.
Proof.
  split; [vm_compute; reflexivity|]. split; [vm_compute; reflexivity|]. split; [lia|].
  apply (summary_other_year _ _ _ _ (mkDate 2023 12 31));
    [vm_compute; reflexivity | vm_compute; reflexivity | cbn; lia].
Defined.

(** The example of the specification: two dates of 2024 with 3.1
    and 5.0 miles give [(2, 8.10)]. *)
Example summary_two_days_2024 :
  calculate_summary_statistics
    (<["2024-03-01" := mkBucket 3.1 28]> (<["2024-03-02" := mkBucket 5.0 45]> ∅)) 2024
  = Some (2, 8.10%Q).
Proof. vm_compute. reflexivity. Qed.

(** Three 1250 m repetitions run on 2024-03-01 (08:00 UTC). *)
Definition interval_reps : list Activity :=
  let rep := mkActivity "Run" 1250 300 1709280000 in [rep; rep; rep].

(** One 3790 m run on 2024-03-01 (08:00 UTC). *)
Definition one_run : list Activity := [mkActivity "Run" 3790 1200 1709280000].

(** The two data paths report different yearly mileage for the
    same runs. [fetch_data] rounds every run to two decimals before
    [src/app.py] adds the Netlify records up: three 1250 m repetitions
    give 2.34 miles there and 2.33 through the stravalib path of
    [src/flask-app/app.py], which rounds once. The conversion factors
    differ too: [fetch_data] divides by 1609.34 and reports 2.36 miles
    for one 3790 m run, where [src/flask-app/app.py] multiplies by
    0.000621371 and reports 2.35. *)
Example netlify_strava_paths_disagree :
  calculate_summary_statistics
    (fetch_running_data_netlify (Some (fetch_data_runs interval_reps))) 2024 = Some (1, 2.34%Q)
  /\ calculate_summary_statistics (fetch_running_data_strava 0 (Some interval_reps)) 2024
     = Some (1, 2.33%Q)
  /\ calculate_summary_statistics
    (fetch_running_data_netlify (Some (fetch_data_runs one_run))) 2024 = Some (1, 2.36%Q)
  /\ calculate_summary_statistics (fetch_running_data_strava 0 (Some one_run)) 2024
     = Some (1, 2.35%Q).
Proof. repeat split; vm_compute; reflexivity. Qed.

(** One 5000 m run on 2024-12-31 at 23:30 UTC. *)
Definition nye_activity : Activity := mkActivity "Run" 5000 1500 1735687800.

Lemma year_end_run_shift_witness :
  (1678 <= 2024 <= 2261 /\ 0 < 3600 < 86400 /\ is_run nye_activity = true
   /\ 86400 * (ymd2ord (2024 + 1) 1 1 - epoch_ordinal) - 3600 <= act_start nye_activity
        < 86400 * (ymd2ord (2024 + 1) 1 1 - epoch_ordinal))
  /\ calculate_summary_statistics (fetch_running_data_strava 3600 (Some [nye_activity])) 2024
     = Some (0%Z, round2 0)
  /\ calculate_summary_statistics (fetch_running_data_strava 3600 (Some [nye_activity])) (2024 + 1)
     = Some (1%Z, round2 (strava_miles nye_activity))
  /\ calculate_summary_statistics (fetch_running_data_netlify (Some (fetch_data_runs [nye_activity]))) 2024
     = Some (1%Z, round2 (round2 (act_distance nye_activity / 1609.34))).
Proof.
  assert (ymd2ord (2024 + 1) 1 1 = 739252) as E by reflexivity.
  assert (86400 * (ymd2ord (2024 + 1) 1 1 - epoch_ordinal) - 3600 <= act_start nye_activity
            < 86400 * (ymd2ord (2024 + 1) 1 1 - epoch_ordinal)) as Hts
    by (rewrite E; unfold epoch_ordinal; cbn; lia).
  split; [split; [lia|split; [lia|split; [reflexivity|exact Hts]]]|].
  apply year_end_run_shift; [lia|lia|reflexivity|exact Hts].
Defined.

End Summary.
