(* ===== verification/Heatmap.v ===== *)
(** [prepare_heatmap_data] (the same code in [src/app.py] and
    [src/flask-app/app.py]): one frame row per date of the current year,
    the [groupby(['day_of_week', 'week_of_year'])] aggregation (sum of
    mileage, tooltips joined by ["; "]), and the two [pivot]s with
    [fillna(0)] and [fillna("")]. pandas orders group keys and pivot
    labels by sorting their distinct values ([sorted_uniq]); rows of a
    group keep the frame's order, that is the date order. The ISO
    weeks make the layout merge dates at the ends of the year: a cell
    holds at most two dates, a January one and a December one. *)

From S2P Require Import Prelude PyStr Dates Ordinal Aggregate.
Import PyStr Dates Ordinal Aggregate.

#[local] Set Warnings "-clear-no-such-hyp".

Module Heatmap.

#[local] Open Scope Z_scope.

(** ** The frame *)

(** A row of [df] after the [week_of_year - 1] adjustment. *)
Record Row := mkRow {
  r_date : date;
  r_dow : Z;
  r_week : Z;
  r_mileage : Q;
  r_text : string
}.

(** [daily_mileage.get(str(date.date()), {}).get('distance', 0)] *)
Definition mileage_of (m : Mileage) (d : date) : Q :=
  match m !! date_str d with Some b => distance b | None => 0%Q end.

(** The tooltip f-string, or ["No activity"] for a date without bucket. *)
Definition tooltip (m : Mileage) (d : date) : string :=
  let k := date_str d in
  match m !! k with
  | Some b =>
      String.append (fmt2 (distance b))
        (String.append " miles in "
          (String.append (fmt2 (duration b)) (String.append " minutes on " k)))
  | None => "No activity"
  end.

Definition frame_row (m : Mileage) (d : date) : Row :=
  mkRow d (weekday d) (iso_week d - 1) (mileage_of m d) (tooltip m d).

Definition frame (m : Mileage) (y : Z) : list Row := frame_row m <$> year_dates y.

(** ** [groupby(...).agg({'mileage': 'sum', 'text': '; '.join})] *)

Record Cell := mkCell { c_dow : Z; c_week : Z; c_mileage : Q; c_text : string }.

(** [sep.join(l)] *)
Fixpoint join (sep : string) (l : list string) : string :=
  match l with
  | [] => ""
  | [s] => s
  | s :: l' => String.append s (String.append sep (join sep l'))
  end.

Definition in_group (dw wk : Z) (r : Row) : Prop := r_dow r = dw /\ r_week r = wk.

#[export] Instance in_group_dec (dw wk : Z) (r : Row) : Decision (in_group dw wk r).
Proof. unfold in_group. apply _. Defined.

Definition group (rows : list Row) (dw wk : Z) : list Row := filter (in_group dw wk) rows.

(** The group keys, sorted lexicographically, as pandas enumerates them. *)
Definition group_keys (rows : list Row) : list (Z * Z) :=
  mjoin ((fun dw =>
            (fun wk => (dw, wk)) <$>
              filter (fun wk => group rows dw wk <> []) (sorted_uniq (r_week <$> rows)))
         <$> sorted_uniq (r_dow <$> rows)).

Definition aggregate_cell (rows : list Row) (k : Z * Z) : Cell :=
  let g := group rows k.1 k.2 in
  mkCell k.1 k.2 (qsum (r_mileage <$> g)) (join "; " (r_text <$> g)).

Definition groupby (rows : list Row) : list Cell := aggregate_cell rows <$> group_keys rows.

(** ** [pivot(index='day_of_week', columns='week_of_year', values=...)] *)

Definition find_cell (cells : list Cell) (dw wk : Z) : option Cell :=
  List.find (fun c => (c_dow c =? dw) && (c_week c =? wk)) cells.

Definition pivot_index (cells : list Cell) : list Z := sorted_uniq (c_dow <$> cells).
Definition pivot_columns (cells : list Cell) : list Z := sorted_uniq (c_week <$> cells).

(** [pivot(..., values='mileage').fillna(0)] *)
Definition pivot_z (cells : list Cell) : list (list Q) :=
  (fun dw => (fun wk => match find_cell cells dw wk with
                        | Some c => c_mileage c
                        | None => 0%Q
                        end) <$> pivot_columns cells) <$> pivot_index cells.

(** [pivot(..., values='text').fillna("")] *)
Definition pivot_text (cells : list Cell) : list (list string) :=
  (fun dw => (fun wk => match find_cell cells dw wk with
                        | Some c => c_text c
                        | None => ""
                        end) <$> pivot_columns cells) <$> pivot_index cells.

(** The dictionary [heatmap] returned to the template. *)
Record Heatmap := mkHeatmap {
  hm_z : list (list Q);
  hm_x : list Z;
  hm_y : list string;
  hm_text : list (list string)
}.

Definition day_labels : list string := ["Mon"; "Tue"; "Wed"; "Thu"; "Fri"; "Sat"; "Sun"].

(** [prepare_heatmap_data(daily_mileage)] with [current_year = y]. *)
Definition prepare_heatmap_data (m : Mileage) (y : Z) : Heatmap :=
  let cells := groupby (frame m y) in
  mkHeatmap (pivot_z cells) (pivot_columns cells) day_labels (pivot_text cells).

(** ** Groups and cells *)

Lemma elem_of_group (rows : list Row) (dw wk : Z) (r : Row) :
  r ∈ group rows dw wk <-> r ∈ rows /\ r_dow r = dw /\ r_week r = wk.
Proof. unfold group, in_group. rewrite list_elem_of_filter. naive_solver. Qed.

Lemma elem_of_group_keys (rows : list Row) (dw wk : Z) :
  (dw, wk) ∈ group_keys rows <-> group rows dw wk <> [].
Proof.
  unfold group_keys. rewrite list_elem_of_join. split.
  - intros (l & Hk & Hl). apply list_elem_of_fmap in Hl as (dw' & -> & _).
    apply list_elem_of_fmap in Hk as (wk' & Heq & Hwk). injection Heq as -> ->.
    by apply list_elem_of_filter in Hwk as [? _].
  - intros Hne. destruct (group rows dw wk) as [|r g] eqn:Hg; [done|].
    assert (r ∈ group rows dw wk) as Hr by (rewrite Hg; set_solver).
    apply elem_of_group in Hr as (Hr & <- & <-).
    exists ((fun wk => (r_dow r, wk)) <$>
              filter (fun wk => group rows (r_dow r) wk <> []) (sorted_uniq (r_week <$> rows))).
    split; apply list_elem_of_fmap.
    + exists (r_week r). split; [done|]. apply list_elem_of_filter.
      split; [by rewrite Hg|]. apply elem_of_sorted_uniq, list_elem_of_fmap. eauto.
    + exists (r_dow r). split; [done|]. apply elem_of_sorted_uniq, list_elem_of_fmap. eauto.
Qed.

Lemma find_key (keys : list (Z * Z)) (dw wk : Z) :
  List.find (fun k => (k.1 =? dw) && (k.2 =? wk)) keys
  = if decide ((dw, wk) ∈ keys) then Some (dw, wk) else None.
Proof.
  induction keys as [|[a b] keys IH]; [done|]. cbn [List.find fst snd].
  destruct (Z.eqb_spec a dw), (Z.eqb_spec b wk); cbn [andb].
  { subst. rewrite decide_True; [done|set_solver]. }
  all: rewrite IH; destruct (decide ((dw, wk) ∈ keys)) as [H1|H1],
         (decide ((dw, wk) ∈ (a, b) :: keys)) as [H2|H2]; try done;
       exfalso; set_solver.
Qed.

(** The pivot finds the aggregate of a key exactly when its group is not
    empty. *)
Lemma find_cell_groupby (rows : list Row) (dw wk : Z) :
  find_cell (groupby rows) dw wk
  = if decide (group rows dw wk = []) then None else Some (aggregate_cell rows (dw, wk)).
Proof.
  unfold find_cell, groupby. rewrite find_fmap.
  etransitivity; [apply (f_equal _ (find_key (group_keys rows) dw wk))|].
  destruct (decide ((dw, wk) ∈ group_keys rows)) as [Hin|Hin];
    rewrite elem_of_group_keys in Hin.
  - by rewrite decide_False.
  - apply dec_stable in Hin. by rewrite decide_True.
Qed.

(** [fillna(0)] and [fillna("")] give what the aggregation of an empty
    group would: each pivot cell is the aggregate of its group. *)
Lemma pivot_cell_mileage (rows : list Row) (dw wk : Z) :
  match find_cell (groupby rows) dw wk with Some c => c_mileage c | None => 0%Q end
  = qsum (r_mileage <$> group rows dw wk).
Proof. rewrite find_cell_groupby. case_decide as H; [by rewrite H|done]. Qed.

Lemma pivot_cell_text (rows : list Row) (dw wk : Z) :
  match find_cell (groupby rows) dw wk with Some c => c_text c | None => "" end
  = join "; " (r_text <$> group rows dw wk).
Proof. rewrite find_cell_groupby. case_decide as H; [by rewrite H|done]. Qed.

(** ** The labels of the pivot *)

Lemma elem_of_frame (m : Mileage) (y : Z) (r : Row) :
  r ∈ frame m y <-> exists d, d ∈ year_dates y /\ r = frame_row m d.
Proof. unfold frame. rewrite list_elem_of_fmap. naive_solver. Qed.

(** The labels a cell projection takes are those of the rows. *)
Lemma elem_of_cell_label (rows : list Row) (fc : Cell -> Z) (fk : Z * Z -> Z) (fr : Row -> Z) :
  (forall k, fc (aggregate_cell rows k) = fk k) ->
  (forall r, fk (r_dow r, r_week r) = fr r) ->
  forall x, x ∈ fc <$> groupby rows <-> exists r, r ∈ rows /\ fr r = x.
Proof.
  intros Hc Hr x. unfold groupby. rewrite <- list_fmap_compose, list_elem_of_fmap. split.
  - intros ([dw wk] & -> & Hk). apply elem_of_group_keys in Hk.
    destruct (group rows dw wk) as [|r g] eqn:Hg; [done|].
    assert (r ∈ group rows dw wk) as Hrg by (rewrite Hg; set_solver).
    apply elem_of_group in Hrg as (Hin & <- & <-). exists r. by rewrite <- Hr, <- Hc.
  - intros (r & Hin & <-). exists (r_dow r, r_week r). split; [by rewrite <- Hr, <- Hc|].
    apply elem_of_group_keys. intros Hg.
    assert (r ∈ group rows (r_dow r) (r_week r)) as Hrg by (by apply elem_of_group).
    rewrite Hg in Hrg. set_solver.
Qed.

Lemma weekday_bounds (d : date) : 0 <= weekday d <= 6.
Proof. unfold weekday. pose proof (Z.mod_pos_bound (toordinal d + 6) 7). lia. Qed.

(** Every day of the week occurs among the first seven days of a year. *)
Lemma year_dates_weekday (y x : Z) :
  0 <= x <= 6 -> exists d, d ∈ year_dates y /\ weekday d = x.
Proof.
  intros Hx. exists (mkDate y 1 (1 + (x - days_before_year y - 7) mod 7)). split.
  - apply elem_of_year_dates. cbn. unfold days_in_month, days_in_month_l. cbn.
    pose proof (Z.mod_pos_bound (x - days_before_year y - 7) 7). lia.
  - unfold weekday, toordinal, ymd2ord, days_before_month, days_before_month_l. cbn.
    lia_divmod.
Qed.

(** The pivot has the seven days of the week as rows, in order. *)
Lemma pivot_index_frame (m : Mileage) (y : Z) :
  pivot_index (groupby (frame m y)) = seqZ 0 7.
Proof.
  apply sorted_uniq_eq; [|apply NoDup_seqZ|by repeat constructor].
  intros x. rewrite (elem_of_cell_label _ c_dow fst r_dow) by done.
  rewrite elem_of_seqZ. split.
  - intros (r & Hr & <-). apply elem_of_frame in Hr as (d & _ & ->).
    pose proof (weekday_bounds d). cbn. lia.
  - intros Hx. destruct (year_dates_weekday y x) as (d & Hd & <-); [lia|].
    exists (frame_row m d). split; [|done]. apply elem_of_frame. eauto.
Qed.

(** The columns are the distinct [week_of_year - 1] of the year, sorted. *)
Lemma pivot_columns_frame (m : Mileage) (y : Z) :
  pivot_columns (groupby (frame m y)) = sorted_uniq ((fun d => iso_week d - 1) <$> year_dates y).
Proof.
  apply sorted_uniq_ext. intros x.
  rewrite (elem_of_cell_label _ c_week snd r_week) by done. rewrite list_elem_of_fmap.
  split.
  - intros (r & Hr & <-). apply elem_of_frame in Hr as (d & Hd & ->). eauto.
  - intros (d & -> & Hd). exists (frame_row m d). split; [|done]. apply elem_of_frame. eauto.
Qed.

(** ** Cells *)

(** The dates of year [y] that the layout puts in cell ([dw], [wk]). *)
Definition dates_at (y dw wk : Z) : list date :=
  filter (fun d => weekday d = dw /\ iso_week d - 1 = wk) (year_dates y).

Lemma group_frame (m : Mileage) (y dw wk : Z) :
  group (frame m y) dw wk = frame_row m <$> dates_at y dw wk.
Proof. unfold group, frame, dates_at. rewrite filter_fmap_comm. f_equal; by apply list_filter_iff. Qed.

(** One more row adds its mileage to its own group only. *)
Lemma group_cons_sum (r : Row) (rows : list Row) (dw wk : Z) :
  qsum (r_mileage <$> group (r :: rows) dw wk)
  = ((if decide (r_dow r = dw /\ r_week r = wk) then r_mileage r else 0)
     + qsum (r_mileage <$> group rows dw wk))%Q.
Proof.
  unfold group at 1. rewrite filter_cons. fold (group rows dw wk).
  unfold in_group. case_decide; cbn [fmap list_fmap]; rewrite ?qsum_cons; [done|].
  by rewrite Qplus_0_l_L.
Qed.

(** Over a grid of distinct labels holding the row's labels, the row
    counts once. *)
Lemma grid_indicator (A B : list Z) (r : Row) (v : Q) :
  NoDup A -> NoDup B -> r_dow r ∈ A -> r_week r ∈ B ->
  qsum ((fun dw => qsum ((fun wk => if decide (r_dow r = dw /\ r_week r = wk) then v else 0%Q)
                           <$> B)) <$> A) = v.
Proof.
  intros HA HB Hd Hw.
  rewrite (list_fmap_ext _ (fun dw => if decide (r_dow r = dw) then v else 0%Q) A);
    [by apply qsum_indicator|].
  intros _ dw _. case_decide as Hdw.
  - rewrite (list_fmap_ext _ (fun wk => if decide (r_week r = wk) then v else 0%Q) B);
      [by apply qsum_indicator|].
    intros _ wk _. repeat case_decide; naive_solver.
  - rewrite (list_fmap_ext _ (fun _ => 0%Q) B); [apply qsum_fmap_zero|].
    intros _ wk _. case_decide; naive_solver.
Qed.

(** Summing the groups over a grid that holds every row's labels sums
    the rows: no row is lost, none counted twice. *)
Lemma group_partition (rows : list Row) (A B : list Z) :
  NoDup A -> NoDup B -> Forall (fun r => r_dow r ∈ A /\ r_week r ∈ B) rows ->
  qsum ((fun dw => qsum ((fun wk => qsum (r_mileage <$> group rows dw wk)) <$> B)) <$> A)
  = qsum (r_mileage <$> rows).
Proof.
  intros HA HB. induction 1 as [|r rows [Hd Hw] _ IH].
  - rewrite (list_fmap_ext _ (fun _ => 0%Q) A); [apply qsum_fmap_zero|].
    intros _ dw _. apply qsum_fmap_zero.
  - rewrite (list_fmap_ext _ (fun dw =>
        qsum ((fun wk => if decide (r_dow r = dw /\ r_week r = wk) then r_mileage r else 0%Q) <$> B)
        + qsum ((fun wk => qsum (r_mileage <$> group rows dw wk)) <$> B))%Q A).
    + rewrite qsum_fmap_add, IH, grid_indicator by done. cbn [fmap list_fmap]. by rewrite qsum_cons.
    + intros _ dw _. rewrite <- qsum_fmap_add. f_equal. apply list_fmap_ext. intros _ wk _.
      apply group_cons_sum.
Qed.

Lemma qsum_zeros (l : list Q) : Forall (fun q => q = 0%Q) l -> qsum l = 0%Q.
Proof. induction 1 as [|q l -> _ IH]; [done|]. by rewrite qsum_cons, IH. Qed.

Lemma groupby_keys (rows : list Row) :
  (fun c => (c_dow c, c_week c)) <$> groupby rows = group_keys rows.
Proof.
  unfold groupby. rewrite <- list_fmap_compose.
  induction (group_keys rows) as [|[a b] l IH]; [done|]. cbn. by rewrite IH.
Qed.

Lemma NoDup_group_keys (rows : list Row) : NoDup (group_keys rows).
Proof.
  unfold group_keys. match goal with |- NoDup (mjoin (?f <$> ?l)) =>
    replace (mjoin (f <$> l)) with (l ≫= f)
      by (generalize l; intros ks; induction ks as [|x ks IH]; [done|]; cbn; by rewrite IH) end.
  apply NoDup_bind; [| |apply NoDup_sorted_uniq].
  - intros x1 x2 k _ _ H1 H2. apply list_elem_of_fmap in H1 as (? & -> & _).
    apply list_elem_of_fmap in H2 as (? & ? & _). congruence.
  - intros x _. apply NoDup_fmap_2_strong; [by intros ?? _ _ [= ->]|].
    apply NoDup_filter, NoDup_sorted_uniq.
Qed.

(** Two dates of a year in one cell, that is with the same weekday and
    the same ISO week, lie in different ISO years (within one ISO year
    the week and the weekday fix the day), so one is a January date of
    the ISO year before or a December date in week 1 of the next, and the
    other a date of the opposite end of the year. *)
Lemma same_cell_year_ends (y : Z) (d1 d2 : date) :
  1 <= y <= 9999 -> d1 ∈ year_dates y -> d2 ∈ year_dates y ->
  weekday d1 = weekday d2 -> iso_week d1 = iso_week d2 -> d1 <> d2 ->
  (month d1 = 1 /\ month d2 = 12) \/ (month d1 = 12 /\ month d2 = 1).
Proof.
  intros Hy H1 H2 Hw Hk Hne.
  pose proof (year_dates_valid y d1 Hy H1) as V1. pose proof (year_dates_valid y d2 Hy H2) as V2.
  assert (toordinal d1 <> toordinal d2) as Ho by (intros E; apply Hne; by apply toordinal_inj).
  pose proof (month_of_day_of_year d1 V1) as [J1 D1].
  pose proof (month_of_day_of_year d2 V2) as [J2 D2].
  pose proof (day_of_year_bounds d1 V1). pose proof (day_of_year_bounds d2 V2).
  pose proof (iso_week_cases d1 V1) as C1. pose proof (iso_week_cases d2 V2) as C2.
  apply elem_of_year_dates in H1 as (Y1 & _), H2 as (Y2 & _).
  pose proof (isoweek1monday_bounds (y - 1)). pose proof (isoweek1monday_bounds y).
  pose proof (isoweek1monday_bounds (y + 1)).
  pose proof (ymd2ord_jan1_succ y). pose proof (ymd2ord_jan1_succ (y - 1)).
  replace (y - 1 + 1) with y in * by lia.
  unfold weekday, toordinal in *. rewrite Y1, Y2 in *. unfold ymd2ord in *.
  change (days_before_month (y - 1) 1) with 0 in *. change (days_before_month y 1) with 0 in *.
  change (days_before_month (y + 1) 1) with 0 in *.
  destruct (is_leap (y - 1)), (is_leap y);
  generalize dependent (isoweek1monday (y - 1)); generalize dependent (isoweek1monday y);
  generalize dependent (isoweek1monday (y + 1)); intros;
  destruct C1 as [C1|[C1|C1]], C2 as [C2|[C2|C2]]; lia_divmod.
Qed.

(** Within a cell, two distinct dates are a January and a December date. *)
Lemma dates_at_year_ends (y dw wk : Z) (d1 d2 : date) :
  1 <= y <= 9999 -> d1 ∈ dates_at y dw wk -> d2 ∈ dates_at y dw wk -> d1 <> d2 ->
  (month d1 = 1 /\ month d2 = 12) \/ (month d1 = 12 /\ month d2 = 1).
Proof.
  unfold dates_at. rewrite !list_elem_of_filter.
  intros Hy [[Hw1 Hk1] H1] [[Hw2 Hk2] H2] Hne.
  apply (same_cell_year_ends y); auto with lia.
Qed.

(** ** Theorems *)

(** C5. The heatmap has seven rows (Monday to Sunday) of mileage and of
    tooltips, every row as long as the list [x] of week columns, and the
    fixed day labels. *)
Theorem prepare_heatmap_data_shape (m : Mileage) (y : Z) :
  let h := prepare_heatmap_data m y in
  length (hm_z h) = 7%nat /\ Forall (fun row => length row = length (hm_x h)) (hm_z h)
  /\ length (hm_text h) = 7%nat /\ Forall (fun row => length row = length (hm_x h)) (hm_text h)
  /\ hm_y h = day_labels.
Proof.
  cbn zeta. unfold prepare_heatmap_data, pivot_z, pivot_text. cbn [hm_z hm_x hm_y hm_text].
  rewrite pivot_index_frame. rewrite !length_fmap.
  split; [done|]. split; [|split; [done|split; [|done]]];
    apply Forall_fmap, Forall_forall; intros; cbn; by rewrite length_fmap.
Qed.

(** C4. Cell ([i], [j]) holds the mileage of the dates of the year with
    weekday [i] and column [x[j]], summed, and their tooltips joined by
    ["; "] in date order; an empty cell holds [0] and [""]. *)
Theorem prepare_heatmap_data_cell (m : Mileage) (y : Z) (i j : nat) (wk : Z) :
  (i < 7)%nat -> hm_x (prepare_heatmap_data m y) !! j = Some wk ->
  (hm_z (prepare_heatmap_data m y) !! i ≫= fun row => row !! j)
    = Some (qsum (mileage_of m <$> dates_at y (Z.of_nat i) wk))
  /\ (hm_text (prepare_heatmap_data m y) !! i ≫= fun row => row !! j)
    = Some (join "; " (tooltip m <$> dates_at y (Z.of_nat i) wk)).
Proof.
  intros Hi Hj. unfold prepare_heatmap_data, pivot_z, pivot_text in *.
  cbn [hm_z hm_x hm_text] in *. rewrite pivot_index_frame, !list_lookup_fmap.
  rewrite lookup_seqZ_lt by lia. cbn [fmap option_fmap option_map mbind option_bind].
  rewrite !list_lookup_fmap, Hj. cbn [fmap option_fmap option_map].
  rewrite pivot_cell_mileage, pivot_cell_text, group_frame, <- !list_fmap_compose.
  done.
Qed.

(** C7. The grouped frame has exactly one cell per distinct (weekday,
    week) pair that some date of the year takes: no date is dropped and
    no cell is duplicated. *)
Theorem groupby_frame_cells (m : Mileage) (y : Z) :
  NoDup ((fun c => (c_dow c, c_week c)) <$> groupby (frame m y))
  /\ forall dw wk, (dw, wk) ∈ (fun c => (c_dow c, c_week c)) <$> groupby (frame m y)
       <-> exists d, d ∈ year_dates y /\ weekday d = dw /\ iso_week d - 1 = wk.
Proof.
  rewrite groupby_keys. split; [apply NoDup_group_keys|]. intros dw wk.
  rewrite elem_of_group_keys, group_frame. unfold dates_at. split.
  - intros Hne. destruct (filter _ (year_dates y)) as [|d l] eqn:Hf; [done|].
    assert (d ∈ filter (fun d => weekday d = dw /\ iso_week d - 1 = wk) (year_dates y)) as Hd
      by (rewrite Hf; set_solver).
    apply list_elem_of_filter in Hd as [[? ?] ?]. eauto.
  - intros (d & Hd & Hw & Hk) Hnil. apply fmap_nil_inv in Hnil.
    assert (d ∈ filter (fun d => weekday d = dw /\ iso_week d - 1 = wk) (year_dates y)) as Hin
      by (by apply list_elem_of_filter).
    rewrite Hnil in Hin. set_solver.
Qed.

(** C8. A cell of the heatmap merges at most two dates, and only at the
    ends of the year: the [groupby] on (weekday, ISO week - 1) puts at
    most two dates of the year in one group, and two only when one is
    in January and the other in December (a date of January in the last
    ISO week of the year before, or of December in week 1 of the next,
    beside the date of the same weekday at the other end). *)
Theorem groupby_cells_year_ends (m : Mileage) (y dw wk : Z) :
  1 <= y <= 9999 ->
  (length (group (frame m y) dw wk) <= 2)%nat
  /\ forall r1 r2, r1 ∈ group (frame m y) dw wk -> r2 ∈ group (frame m y) dw wk ->
       r_date r1 <> r_date r2 ->
       (month (r_date r1) = 1 /\ month (r_date r2) = 12)
       \/ (month (r_date r1) = 12 /\ month (r_date r2) = 1).
Proof.
  intros Hy. rewrite group_frame, length_fmap. split.
  - pose proof (NoDup_filter (fun d => weekday d = dw /\ iso_week d - 1 = wk) _ (NoDup_year_dates y))
      as Hnd. fold (dates_at y dw wk) in Hnd.
    destruct (dates_at y dw wk) as [|a [|b [|c l]]] eqn:E; cbn; try lia.
    apply NoDup_cons in Hnd as [Ha Hnd]. apply NoDup_cons in Hnd as [Hb _].
    assert (forall d, d ∈ a :: b :: c :: l -> d ∈ dates_at y dw wk) as Hin by (by rewrite E).
    destruct (dates_at_year_ends y dw wk a b) as [?|?], (dates_at_year_ends y dw wk a c) as [?|?],
      (dates_at_year_ends y dw wk b c) as [?|?]; try lia; try (apply Hin; set_solver); set_solver.
  - intros r1 r2 (d1 & -> & H1)%list_elem_of_fmap (d2 & -> & H2)%list_elem_of_fmap Hne.
    by apply (dates_at_year_ends y dw wk).
Qed.

(** C9. The mileage cells of the heatmap add up to the mileage of the
    dates of the year: the groupby and the two pivots lose no date's
    mileage and count none twice. *)
Theorem prepare_heatmap_data_total (m : Mileage) (y : Z) :
  qsum (qsum <$> hm_z (prepare_heatmap_data m y)) = qsum (mileage_of m <$> year_dates y).
Proof.
  unfold prepare_heatmap_data, pivot_z. cbn [hm_z]. rewrite pivot_index_frame, <- list_fmap_compose.
  rewrite (list_fmap_ext _ (fun dw => qsum ((fun wk => qsum (r_mileage <$> group (frame m y) dw wk))
                                             <$> pivot_columns (groupby (frame m y)))) (seqZ 0 7)).
  2: { intros _ dw _. cbn. f_equal. apply list_fmap_ext. intros _ wk _. apply pivot_cell_mileage. }
  rewrite group_partition; [by unfold frame; rewrite <- list_fmap_compose|apply NoDup_seqZ|
    apply NoDup_sorted_uniq|].
  apply Forall_forall. intros r Hr. apply elem_of_frame in Hr as (d & Hd & ->). split.
  - rewrite elem_of_seqZ. pose proof (weekday_bounds d). cbn. lia.
  - rewrite pivot_columns_frame. apply elem_of_sorted_uniq, list_elem_of_fmap. eauto.
Qed.

(** C6. The week columns are distinct, ascending, within [0..52], and
    every date of the year has its column. *)
Theorem prepare_heatmap_data_columns (m : Mileage) (y : Z) :
  1 <= y <= 9999 ->
  NoDup (hm_x (prepare_heatmap_data m y)) /\ Sorted Z.le (hm_x (prepare_heatmap_data m y))
  /\ Forall (fun w => 0 <= w <= 52) (hm_x (prepare_heatmap_data m y))
  /\ (forall d, d ∈ year_dates y -> iso_week d - 1 ∈ hm_x (prepare_heatmap_data m y)).
Proof.
  intros Hy. unfold prepare_heatmap_data. cbn [hm_x]. rewrite pivot_columns_frame.
  split; [auto with pyhints|]. split; [auto with pyhints|]. split.
  - apply Forall_forall. intros w Hw. apply elem_of_sorted_uniq, list_elem_of_fmap in Hw
      as (d & -> & Hd). pose proof (iso_week_range d (year_dates_valid y d Hy Hd)). lia.
  - intros d Hd. apply elem_of_sorted_uniq, list_elem_of_fmap. eauto.
Qed.

(** With no runs, every mileage cell of the grid is zero. *)
Theorem prepare_heatmap_data_empty (y : Z) :
  Forall (Forall (fun q => q = 0%Q)) (hm_z (prepare_heatmap_data ∅ y)).
Proof.
  unfold prepare_heatmap_data, pivot_z. cbn [hm_z].
  apply Forall_fmap, Forall_forall. intros dw _. apply Forall_fmap, Forall_forall.
  intros wk _. cbn. rewrite pivot_cell_mileage. apply qsum_zeros.
  apply Forall_forall. intros q Hq. apply list_elem_of_fmap in Hq as (r & -> & Hr).
  apply elem_of_group in Hr as (Hr & _). apply elem_of_frame in Hr as (d & _ & ->).
  unfold frame_row, mileage_of. cbn. by rewrite lookup_empty.
Qed.

(** One run of 1609.34 m in 60 s on 2024-03-01 (08:00 UTC). *)
Definition mile_run : list Activity := [mkActivity "Run" 1609.34 60 1709280000].

(** The unit conversion of both data paths: a 1609.34 m, 60 s run
    shows in its tooltip as one mile in one minute, through the factor
    0.000621371 of [src/flask-app/app.py] and through the division by
    1609.34 of [fetch_data] read back by [src/app.py]. *)
Example unit_conversion_tooltip :
  tooltip (fetch_running_data_strava 0 (Some mile_run)) (mkDate 2024 3 1)
    = "1.00 miles in 1.00 minutes on 2024-03-01"
  /\ tooltip (fetch_running_data_netlify (Some (fetch_data_runs mile_run))) (mkDate 2024 3 1)
    = "1.00 miles in 1.00 minutes on 2024-03-01".
Proof. split; vm_compute; reflexivity. Qed.

(** ** Witnesses *)

Lemma prepare_heatmap_data_cell_witness :
  (0 < 7)%nat /\ hm_x (prepare_heatmap_data ∅ 2024) !! 0%nat = Some 0
  /\ (hm_z (prepare_heatmap_data ∅ 2024) !! 0%nat ≫= fun row => row !! 0%nat)
      = Some (qsum (mileage_of ∅ <$> dates_at 2024 (Z.of_nat 0) 0))
  /\ (hm_text (prepare_heatmap_data ∅ 2024) !! 0%nat ≫= fun row => row !! 0%nat)
      = Some (join "; " (tooltip ∅ <$> dates_at 2024 (Z.of_nat 0) 0)).
Proof.
  assert (hm_x (prepare_heatmap_data ∅ 2024) !! 0%nat = Some 0) as Hx
    by (vm_compute; reflexivity).
  split; [lia|]. split; [exact Hx|]. apply prepare_heatmap_data_cell; [lia|exact Hx].
Defined.

Lemma prepare_heatmap_data_columns_witness :
  1 <= 2021 <= 9999
  /\ NoDup (hm_x (prepare_heatmap_data ∅ 2021)) /\ Sorted Z.le (hm_x (prepare_heatmap_data ∅ 2021))
  /\ Forall (fun w => 0 <= w <= 52) (hm_x (prepare_heatmap_data ∅ 2021))
  /\ (forall d, d ∈ year_dates 2021 -> iso_week d - 1 ∈ hm_x (prepare_heatmap_data ∅ 2021)).
Proof. split; [lia|]. apply prepare_heatmap_data_columns. lia. Defined.

(** The boundary artifact of the ISO weeks in 2024: column 0 of the
    Monday row holds both 2024-01-01 and 2024-12-30, which belongs to ISO
    week 1 of 2025. *)
Example dates_at_2024_monday_week0 :
  dates_at 2024 0 0 = [mkDate 2024 1 1; mkDate 2024 12 30].
Proof. vm_compute. reflexivity. Qed.

(** With no runs, tooltips are not all ["No activity"]: in 2024 the
    merged cell reads ["No activity; No activity"], and in 2021, whose
    1-3 January fall in ISO week 53 (column 52, after December), the
    Monday cell of that column is [""]. *)
Example empty_tooltips_not_uniform :
  (hm_text (prepare_heatmap_data ∅ 2024) !! 0%nat ≫= fun row => row !! 0%nat)
    = Some "No activity; No activity"
  /\ (hm_text (prepare_heatmap_data ∅ 2021) !! 0%nat ≫= fun row => row !! 52%nat) = Some ""
  /\ hm_x (prepare_heatmap_data ∅ 2021) !! 52%nat = Some 52.
Proof. vm_compute. repeat split. Qed.

Lemma groupby_cells_year_ends_witness :
  1 <= 2024 <= 9999
  /\ (length (group (frame ∅ 2024) 0 0) <= 2)%nat
  /\ forall r1 r2, r1 ∈ group (frame ∅ 2024) 0 0 -> r2 ∈ group (frame ∅ 2024) 0 0 ->
       r_date r1 <> r_date r2 ->
       (month (r_date r1) = 1 /\ month (r_date r2) = 12)
       \/ (month (r_date r1) = 12 /\ month (r_date r2) = 1).
Proof. split; [lia|]. apply groupby_cells_year_ends. lia. Defined.

End Heatmap.
