(* ===== verification/Token.v ===== *)
(** The OAuth token lifecycle. Both apps keep one credential and refresh
    it lazily: [src/app.py] stores it in [os.environ] ([save_token],
    [load_token] on [ACCESS_TOKEN], [REFRESH_TOKEN], [EXPIRES_AT]),
    [src/auth.py] in the file [token.json]. The function
    [refresh_token_if_needed] is the same text in both; it is modelled
    once, against the interface [TokenStore] that both stores implement.
    Programs run in [PyM], a state monad with Python exceptions: an
    exception keeps the effects made before it (a half-done [save_token]
    stays half done). The external stravalib calls are inputs of the
    model (a response or an exception), and every call is logged in the
    state, so that the theorems can count them. *)

From S2P Require Import Prelude PyStr.
Import PyStr.

Module Token.

#[local] Open Scope Z_scope.

(** ** Python values and exceptions *)

(** A JSON value of a token response or of [token.json]: a string, an
    integer, a float (its value and its [str()]), [null], a boolean, or
    a list or object (its [str()] and whether it is non-empty). *)
Inductive JVal :=
  | JStr (s : string)
  | JInt (z : Z)
  | JFloat (q : Q) (repr : string)
  | JNull
  | JBool (b : bool)
  | JOther (repr : string) (nonempty : bool).

Abbreviation Dict := (gmap string JVal).

Inductive Exn :=
  | KeyError (k : string)
  | TypeError
  | ValueError
  | JSONDecodeError
  | AttributeError
  | HTTPError.

(** [str(v)] *)
Definition py_str (v : JVal) : string :=
  match v with
  | JStr s => s | JInt z => str_Z z | JFloat _ r => r | JNull => "None"
  | JBool b => if b then "True" else "False" | JOther r _ => r
  end.

(** Python truthiness of a value and of an optional value ([None]). *)
Definition truthy (v : JVal) : bool :=
  match v with
  | JStr s => negb (String.eqb s "") | JInt z => negb (z =? 0)
  | JFloat q _ => negb (Qeq_bool q 0) | JNull => false | JBool b => b | JOther _ b => b
  end.

Definition truthy_opt (o : option JVal) : bool := default false (truthy <$> o).

(** ** The monad *)

Definition PyM (S A : Type) : Type := S -> (Exn + A) * S.

Definition pret {S A} (a : A) : PyM S A := fun s => (inr a, s).

Definition pbind {S A B} (m : PyM S A) (f : A -> PyM S B) : PyM S B :=
  fun s => match m s with (inl e, s') => (inl e, s') | (inr a, s') => f a s' end.

Definition raise {S A} (e : Exn) : PyM S A := fun s => (inl e, s).

(** [try: m except Exception as e: h e] *)
Definition try_except {S A} (m : PyM S A) (h : Exn -> PyM S A) : PyM S A :=
  fun s => match m s with (inl e, s') => h e s' | r => r end.

Definition of_sum {S A} (r : Exn + A) : PyM S A :=
  match r with inl e => raise e | inr a => pret a end.

Notation "x <- m ;; k" := (pbind m (fun x => k))
  (at level 60, m at next level, right associativity) : py_scope.
Notation "m ;;; k" := (pbind m (fun _ => k))
  (at level 60, right associativity) : py_scope.

#[local] Open Scope py_scope.

(** [d[k]] on a dict *)
Definition getitem {S} (d : Dict) (k : string) : PyM S JVal :=
  match d !! k with Some v => pret v | None => raise (KeyError k) end.

(** [v < t] for a float [t]: only numbers (booleans among them)
    compare with a float. *)
Definition py_lt_now (v : JVal) (now : Q) : Exn + bool :=
  match v with
  | JInt z => inr (bool_decide (inject_Z z < now)%Q)
  | JFloat q _ => inr (bool_decide (q < now)%Q)
  | JBool b => inr (bool_decide (inject_Z (if b then 1 else 0) < now)%Q)
  | _ => inl TypeError
  end.

(** ** The state *)

(** A call to the authorization collaborator, with its argument. *)
Inductive Call := CRefresh (refresh_token : JVal) | CExchange (code : option string).

(** The token store, the [global access_token] and the log of calls. *)
Record St (Store : Type) := mkSt {
  st_store : Store;
  st_access : option JVal;
  st_calls : list Call
}.
Arguments mkSt {Store}.
Arguments st_store {Store}.
Arguments st_access {Store}.
Arguments st_calls {Store}.

(** ** The store interface *)

(** What [save_token] and [load_token] promise to the lifecycle: [load]
    reads without writing; [save] may fail after a partial write. *)
Class TokenStore (Store : Type) := {
  store_load : Store -> Exn + option Dict;
  store_save : Dict -> Store -> (Exn + unit) * Store
}.

(** The three fields of a token, as [load_token] exposes them. *)
Definition token_fields (d : Dict) : option JVal * option JVal * option JVal :=
  (d !! "access_token", d !! "refresh_token", d !! "expires_at").

(** A response with the three fields a token needs. *)
Definition well_formed (d : Dict) : Prop :=
  exists a r e, d !! "access_token" = Some (JStr a) /\ d !! "refresh_token" = Some (JStr r)
                /\ d !! "expires_at" = Some (JInt e).

(** The law both stores satisfy: a token saved is the token loaded. *)
Class TokenStoreLaws (Store : Type) `{!TokenStore Store} := {
  save_load (d : Dict) (s : Store) :
    well_formed d ->
    exists s' d', store_save d s = (inr tt, s') /\ store_load s' = inr (Some d')
                  /\ token_fields d' = token_fields d
}.

(** ** [src/app.py]: the token in [os.environ] *)

Abbreviation Environ := (gmap string string).

(** [os.environ[k] = v]: the environment only holds strings. *)
Definition env_set (k : string) (v : JVal) : PyM Environ unit :=
  fun env => match v with JStr s => (inr tt, <[k := s]> env) | _ => (inl TypeError, env) end.

(** [save_token]: three assignments, in order; an exception stops it
    after the assignments already made. *)
Definition env_save_token (token_response : Dict) : PyM Environ unit :=
  a <- getitem token_response "access_token" ;; env_set "ACCESS_TOKEN" a ;;;
  r <- getitem token_response "refresh_token" ;; env_set "REFRESH_TOKEN" r ;;;
  e <- getitem token_response "expires_at" ;; env_set "EXPIRES_AT" (JStr (py_str e)).

(** [load_token]: the dict of the three variables when all are set;
    [int()] of [EXPIRES_AT] raises [ValueError] on a non-integer. *)
Definition env_load_token (env : Environ) : Exn + option Dict :=
  match env !! "ACCESS_TOKEN", env !! "REFRESH_TOKEN", env !! "EXPIRES_AT" with
  | Some a, Some r, Some e =>
      match int_of_str e with
      | Some z => inr (Some (<["access_token" := JStr a]> (<["refresh_token" := JStr r]>
                              (<["expires_at" := JInt z]> ∅))))
      | None => inl ValueError
      end
  | _, _, _ => inr None
  end.

#[export] Instance env_store : TokenStore Environ := {
  store_load := env_load_token;
  store_save := env_save_token
}.

(** ** [src/auth.py]: the token in [token.json] *)

(** The file: absent, a JSON document, or bytes [json.load] rejects. *)
Inductive FileSt := NoFile | JsonFile (d : Dict) | Garbage.

(** [save_token]: [json.dump] of the whole response into a fresh file. *)
Definition file_save_token (token_response : Dict) : PyM FileSt unit :=
  fun _ => (inr tt, JsonFile token_response).

(** [load_token]: [None] when the file does not exist. *)
Definition file_load_token (f : FileSt) : Exn + option Dict :=
  match f with
  | NoFile => inr None
  | JsonFile d => inr (Some d)
  | Garbage => inl JSONDecodeError
  end.

#[export] Instance file_store : TokenStore FileSt := {
  store_load := file_load_token;
  store_save := file_save_token
}.

(** ** The lifecycle, against the interface *)

(** The responses of the Flask handlers. *)
Inductive Resp :=
  | RRedirect (url : string)
  | RText (body : string) (status : Z).

Section Lifecycle.
Context {Store : Type} `{!TokenStore Store}.

Definition load_token : PyM (St Store) (option Dict) :=
  fun s => match store_load (st_store s) with
           | inl e => (inl e, s)
           | inr o => (inr o, s)
           end.

Definition save_token (d : Dict) : PyM (St Store) unit :=
  fun s => let '(r, st') := store_save d (st_store s) in
           (r, mkSt st' (st_access s) (st_calls s)).

(** [global access_token; access_token = v] *)
Definition set_global (v : option JVal) : PyM (St Store) unit :=
  fun s => (inr tt, mkSt (st_store s) v (st_calls s)).

(** [client.refresh_access_token(..., refresh_token=rt)]: logged, then
    the collaborator's answer. *)
Definition call_refresh (srv : JVal -> Exn + Dict) (rt : JVal) : PyM (St Store) Dict :=
  fun s => of_sum (srv rt) (mkSt (st_store s) (st_access s) (st_calls s ++ [CRefresh rt])).

Definition call_exchange (srv : option string -> Exn + Dict) (code : option string)
  : PyM (St Store) Dict :=
  fun s => of_sum (srv code) (mkSt (st_store s) (st_access s) (st_calls s ++ [CExchange code])).

(** [v < time.time()] *)
Definition lt_now (v : JVal) (now : Q) : PyM (St Store) bool := of_sum (py_lt_now v now).

(** [refresh_token_if_needed(client)] at time [now]. *)
Definition refresh_token_if_needed (now : Q) (srv : JVal -> Exn + Dict)
  : PyM (St Store) (option JVal) :=
  token_info <- load_token ;;
  match token_info with
  | Some ti =>
      if bool_decide (ti ≠ ∅) then
        expired <- lt_now (default (JInt 0) (ti !! "expires_at")) now ;;
        if expired then
          try_except
            (rt <- getitem ti "refresh_token" ;;
             refresh_response <- call_refresh srv rt ;;
             save_token refresh_response ;;;
             a <- getitem refresh_response "access_token" ;;
             pret (Some a))
            (fun _ => pret None)
        else (a <- getitem ti "access_token" ;; pret (Some a))
      else pret None
  | None => pret None
  end.

(** [get_access_token()] of [src/app.py]: the token, or the
    authorization URL [authorize_url] built by stravalib. *)
Definition get_access_token (now : Q) (srv : JVal -> Exn + Dict) (authorize_url : string)
  : PyM (St Store) JVal :=
  access_token <- refresh_token_if_needed now srv ;;
  set_global access_token ;;;
  if truthy_opt access_token then pret (default (JStr authorize_url) access_token)
  else pret (JStr authorize_url).

(** The [/authorized] callback of [src/app.py]. *)
Definition authorized (code : option string) (srv : option string -> Exn + Dict)
  : PyM (St Store) Resp :=
  match code with
  | Some c =>
      if String.eqb c "" then pret (RText "No authorization code was provided." 400)
      else
        try_except
          (token_response <- call_exchange srv (Some c) ;;
           a <- getitem token_response "access_token" ;;
           set_global (Some a) ;;;
           save_token token_response ;;;
           pret (RRedirect "/"))
          (fun _ => pret (RText "Authorization failed. Please check the logs for more details." 200))
  | None => pret (RText "No authorization code was provided." 400)
  end.

(** The [/api/authorized] callback of [src/auth.py]: no check of the
    code, which goes to the collaborator even when it is [None]. *)
Definition authorized_file (code : option string) (srv : option string -> Exn + Dict)
  : PyM (St Store) string :=
  try_except
    (token_response <- call_exchange srv code ;;
     a <- getitem token_response "access_token" ;;
     set_global (Some a) ;;;
     save_token token_response ;;;
     pret "Authorization successful! You can close this window.")
    (fun _ => pret "Authorization failed. Please check the logs for more details.").

(** [app.run(port=8282)]: the callbacks the server handles until it is
    stopped, in order. *)
Fixpoint run_server (codes : list (option string)) (srv : option string -> Exn + Dict)
  : PyM (St Store) unit :=
  match codes with
  | [] => pret tt
  | c :: cs => authorized_file c srv ;;; run_server cs srv
  end.

Definition get_global : PyM (St Store) (option JVal) := fun s => (inr (st_access s), s).

(** [get_access_token()] of [src/auth.py]: without a token, serve the
    authorization callbacks, then return the global token they set. *)
Definition get_access_token_file (now : Q) (srv : JVal -> Exn + Dict)
  (codes : list (option string)) (xsrv : option string -> Exn + Dict)
  : PyM (St Store) (option JVal) :=
  access_token <- refresh_token_if_needed now srv ;;
  set_global access_token ;;;
  if truthy_opt access_token then pret access_token
  else (run_server codes xsrv ;;; get_global).

End Lifecycle.

(** ** The lifecycle, against the interface: theorems *)

Section LifecycleFacts.
Context {Store : Type} `{!TokenStore Store}.

Lemma dict_nonempty (ti : Dict) (k : string) (v : JVal) :
  ti !! k = Some v -> bool_decide (ti ≠ ∅) = true.
Proof. intros H. apply bool_decide_eq_true. intros ->. by rewrite lookup_empty in H. Qed.

(** The expiry test on an integer [expires_at]. *)
Lemma lt_now_int (s : St Store) (e : Z) (now : Q) :
  lt_now (JInt e) now s = (inr (bool_decide (inject_Z e < now)%Q), s).
Proof. done. Qed.

(** [refresh_token_if_needed] on a stored token with an integer
    expiry: the expiry test decides between the refresh and the stored
    access token. *)
Lemma refresh_stored (now : Q) (srv : JVal -> Exn + Dict) (s : St Store) (ti : Dict) (e : Z) :
  store_load (st_store s) = inr (Some ti) -> ti !! "expires_at" = Some (JInt e) ->
  refresh_token_if_needed now srv s =
    (if bool_decide (inject_Z e < now)%Q then
       try_except
         (rt <- getitem ti "refresh_token" ;;
          refresh_response <- call_refresh srv rt ;;
          save_token refresh_response ;;;
          a <- getitem refresh_response "access_token" ;;
          pret (Some a))
         (fun _ => pret None)
     else (a <- getitem ti "access_token" ;; pret (Some a))) s.
Proof.
  intros Hl He. unfold refresh_token_if_needed, pbind at 1, load_token at 1. rewrite Hl.
  rewrite (dict_nonempty _ _ _ He), He. done.
Qed.

(** The stored token and its expiry, as [load_token] returns them. *)
Definition stored (s : St Store) (ti : Dict) (e : Z) : Prop :=
  store_load (st_store s) = inr (Some ti) /\ ti !! "expires_at" = Some (JInt e).

(** C18. A stored token that has not expired ([now <= expires_at]) is
    returned as it is: no call to the collaborator, no write. *)
Theorem refresh_valid (now : Q) (srv : JVal -> Exn + Dict) (s : St Store) (ti : Dict) (e : Z) (a : JVal) :
  stored s ti e -> (now <= inject_Z e)%Q -> ti !! "access_token" = Some a ->
  refresh_token_if_needed now srv s = (inr (Some a), s).
Proof.
  intros [Hl He] Hnow Ha. rewrite (refresh_stored _ _ _ _ _ Hl He).
  rewrite bool_decide_eq_false_2 by (by apply Qle_not_lt).
  unfold pbind, getitem. by rewrite Ha.
Qed.

(** C19. An expired token is refreshed with the stored refresh token:
    exactly one call, and a well-formed response becomes the stored
    token, all three fields, and its access token is returned. *)
Theorem refresh_expired_ok `{!TokenStoreLaws Store} (now : Q) (srv : JVal -> Exn + Dict)
  (s : St Store) (ti resp : Dict) (e : Z) (rt a : JVal) :
  stored s ti e -> (inject_Z e < now)%Q -> ti !! "refresh_token" = Some rt ->
  srv rt = inr resp -> well_formed resp -> resp !! "access_token" = Some a ->
  exists st' d',
    refresh_token_if_needed now srv s
      = (inr (Some a), mkSt st' (st_access s) (st_calls s ++ [CRefresh rt]))
    /\ store_load st' = inr (Some d') /\ token_fields d' = token_fields resp.
Proof.
  intros [Hl He] Hnow Hrt Hsrv Hwf Ha.
  destruct (save_load resp (st_store s) Hwf) as (st' & d' & Hsave & Hload & Hf).
  exists st', d'. split; [|done].
  rewrite (refresh_stored _ _ _ _ _ Hl He), bool_decide_eq_true_2 by done.
  unfold try_except, pbind, getitem. rewrite Hrt. cbn [pret]. unfold call_refresh. rewrite Hsrv. cbn.
  unfold save_token. cbn [st_store]. rewrite Hsave. cbn. by rewrite Ha.
Qed.

(** C20. When the refresh call fails, the stored token is left exactly
    as it was and the caller gets [None] (authorization required). *)
Theorem refresh_expired_fail (now : Q) (srv : JVal -> Exn + Dict) (s : St Store)
  (ti : Dict) (e : Z) (rt : JVal) (err : Exn) :
  stored s ti e -> (inject_Z e < now)%Q -> ti !! "refresh_token" = Some rt -> srv rt = inl err ->
  refresh_token_if_needed now srv s
  = (inr None, mkSt (st_store s) (st_access s) (st_calls s ++ [CRefresh rt])).
Proof.
  intros [Hl He] Hnow Hrt Hsrv.
  rewrite (refresh_stored _ _ _ _ _ Hl He), bool_decide_eq_true_2 by done.
  unfold try_except, pbind, getitem. rewrite Hrt. cbn [pret]. unfold call_refresh. by rewrite Hsrv.
Qed.

(** Without a stored token, [get_access_token] returns the
    authorization URL, clears the global token and calls nobody. *)
Theorem get_access_token_unauthenticated (now : Q) (srv : JVal -> Exn + Dict) (url : string)
  (s : St Store) :
  store_load (st_store s) = inr None ->
  get_access_token now srv url s = (inr (JStr url), mkSt (st_store s) None (st_calls s)).
Proof.
  intros Hl. unfold get_access_token, refresh_token_if_needed, pbind, load_token. by rewrite Hl.
Qed.

(** [refresh_token_if_needed] makes at most one call to the
    collaborator, whatever the store holds and however the call ends. *)
Theorem refresh_at_most_one_call (now : Q) (srv : JVal -> Exn + Dict) (s : St Store) :
  st_calls (refresh_token_if_needed now srv s).2 = st_calls s
  \/ exists rt, st_calls (refresh_token_if_needed now srv s).2 = st_calls s ++ [CRefresh rt].
Proof.
  unfold refresh_token_if_needed, pbind, load_token, try_except, save_token, getitem,
    call_refresh, lt_now, of_sum, pret, raise.
  repeat (case_match; simplify_eq/=); eauto.
Qed.

End LifecycleFacts.

(** ** The two stores *)

Definition token_dict (a r : string) (e : Z) : Dict :=
  <["access_token" := JStr a]> (<["refresh_token" := JStr r]> (<["expires_at" := JInt e]> ∅)).

Lemma env_save_ok (d : Dict) (env : Environ) (a r : string) (e : Z) :
  d !! "access_token" = Some (JStr a) -> d !! "refresh_token" = Some (JStr r) ->
  d !! "expires_at" = Some (JInt e) ->
  env_save_token d env
  = (inr tt, <["EXPIRES_AT" := str_Z e]> (<["REFRESH_TOKEN" := r]> (<["ACCESS_TOKEN" := a]> env))).
Proof.
  intros Ha Hr He. unfold env_save_token, pbind, getitem. rewrite Ha. cbn.
  rewrite Hr. cbn. by rewrite He.
Qed.

Lemma env_load_saved (env : Environ) (a r : string) (e : Z) :
  env_load_token (<["EXPIRES_AT" := str_Z e]> (<["REFRESH_TOKEN" := r]> (<["ACCESS_TOKEN" := a]> env)))
  = inr (Some (token_dict a r e)).
Proof. unfold env_load_token. simplify_map_eq. by rewrite int_of_str_str. Qed.

Lemma token_fields_token_dict (a r : string) (e : Z) :
  token_fields (token_dict a r e) = (Some (JStr a), Some (JStr r), Some (JInt e)).
Proof. unfold token_fields, token_dict. by simplify_map_eq. Qed.

(** A stored [token_dict] that has not expired is returned as it is. *)
Lemma refresh_token_dict {Store : Type} `{!TokenStore Store} (now : Q) (srv : JVal -> Exn + Dict)
  (s : St Store) (a r : string) (e : Z) :
  store_load (st_store s) = inr (Some (token_dict a r e)) -> (now <= inject_Z e)%Q ->
  refresh_token_if_needed now srv s = (inr (Some (JStr a)), s).
Proof.
  intros Hl He. rewrite (refresh_stored _ _ s (token_dict a r e) e Hl)
    by (unfold token_dict; by simplify_map_eq).
  rewrite bool_decide_eq_false_2 by (by apply Qle_not_lt).
  unfold pbind, getitem, token_dict. by simplify_map_eq.
Qed.

(** C23. What [save_token] writes into [os.environ] for a well-formed
    response, [load_token] reads back: the same access token, refresh
    token and expiry ([int(str(expires_at))] round trip). *)
Theorem env_save_load_token (d : Dict) (env : Environ) :
  well_formed d ->
  exists env' d', env_save_token d env = (inr tt, env') /\ env_load_token env' = inr (Some d')
                  /\ token_fields d' = token_fields d.
Proof.
  intros (a & r & e & Ha & Hr & He). do 2 eexists. split; [by apply env_save_ok|].
  split; [apply env_load_saved|]. rewrite token_fields_token_dict.
  unfold token_fields. by rewrite Ha, Hr, He.
Qed.

#[export] Instance env_store_laws : TokenStoreLaws Environ.
Proof.
  constructor. intros d env (a & r & e & Ha & Hr & He). cbn.
  rewrite (env_save_ok d env a r e Ha Hr He). do 2 eexists. split; [done|].
  split; [apply env_load_saved|]. rewrite token_fields_token_dict.
  unfold token_fields. by rewrite Ha, Hr, He.
Qed.

#[export] Instance file_store_laws : TokenStoreLaws FileSt.
Proof. constructor. intros d f _. cbn. by exists (JsonFile d), d. Qed.

(** C24. A refresh response without [refresh_token] makes the
    [os.environ] store half-written: [ACCESS_TOKEN] is the new token,
    [REFRESH_TOKEN] and [EXPIRES_AT] are the old ones, and the [KeyError]
    is swallowed: the caller gets [None]. *)
Theorem env_refresh_partial_write (now : Q) (srv : JVal -> Exn + Dict) (env : Environ)
  (g : option JVal) (c : list Call) (ti resp : Dict) (e : Z) (rt : JVal) (a : string) :
  env_load_token env = inr (Some ti) -> ti !! "expires_at" = Some (JInt e) ->
  (inject_Z e < now)%Q -> ti !! "refresh_token" = Some rt -> srv rt = inr resp ->
  resp !! "access_token" = Some (JStr a) -> resp !! "refresh_token" = None ->
  refresh_token_if_needed now srv (mkSt env g c)
  = (inr None, mkSt (<["ACCESS_TOKEN" := a]> env) g (c ++ [CRefresh rt])).
Proof.
  intros Hl He Hnow Hrt Hsrv Ha Hr.
  rewrite (@refresh_stored Environ env_store now srv (mkSt env g c) ti e Hl He), bool_decide_eq_true_2 by done.
  unfold try_except, pbind, getitem. rewrite Hrt. cbn [pret]. unfold call_refresh. rewrite Hsrv.
  cbn [of_sum pret]. unfold save_token. cbn [st_store store_save env_store].
  unfold env_save_token, pbind, getitem. rewrite Ha. cbn [env_set pret].
  rewrite Hr. done.
Qed.

(** C25. The [/authorized] callback of [src/app.py] on an exchange
    response without [refresh_token]: it answers that the authorization
    failed, yet [ACCESS_TOKEN] and the global token already hold the new
    access token, while [REFRESH_TOKEN] and [EXPIRES_AT] keep the values
    of the previous credential. *)
Theorem authorized_partial_write (code : string) (xsrv : option string -> Exn + Dict)
  (env : Environ) (g : option JVal) (c : list Call) (resp : Dict) (a : string) :
  String.eqb code "" = false -> xsrv (Some code) = inr resp ->
  resp !! "access_token" = Some (JStr a) -> resp !! "refresh_token" = None ->
  authorized (Some code) xsrv (mkSt env g c)
  = (inr (RText "Authorization failed. Please check the logs for more details." 200),
     mkSt (<["ACCESS_TOKEN" := a]> env) (Some (JStr a)) (c ++ [CExchange (Some code)])).
Proof.
  intros Hc Hx Ha Hr. unfold authorized. rewrite Hc.
  unfold try_except, pbind, call_exchange. rewrite Hx. cbn [of_sum pret].
  unfold getitem at 1. rewrite Ha. cbn. unfold save_token. cbn [st_store store_save env_store].
  unfold env_save_token, pbind, getitem. rewrite Ha. cbn [env_set pret]. rewrite Hr. done.
Qed.

(** The first run of [src/auth.py]: with no [token.json], the
    server handles the callback, the exchanged response is written to
    [token.json] whole, and [get_access_token] returns its access token;
    the only call is the code exchange. *)
Theorem first_authorization_file (now : Q) (srv : JVal -> Exn + Dict) (code : string)
  (xsrv : option string -> Exn + Dict) (resp : Dict) (a : JVal) (g : option JVal) (c : list Call) :
  xsrv (Some code) = inr resp -> resp !! "access_token" = Some a ->
  get_access_token_file now srv [Some code] xsrv (mkSt NoFile g c)
  = (inr (Some a), mkSt (JsonFile resp) (Some a) (c ++ [CExchange (Some code)])).
Proof.
  intros Hx Ha. unfold get_access_token_file, refresh_token_if_needed, pbind, load_token.
  cbn -[authorized_file]. unfold authorized_file, try_except, pbind, call_exchange.
  rewrite Hx. cbn. unfold getitem. rewrite Ha. done.
Qed.

(** C27. In [token.json] a refresh response without [refresh_token] and
    [expires_at] replaces the whole stored credential: the next request
    finds the token expired ([get('expires_at', 0)]), cannot read a
    refresh token, and falls back to authorization without calling the
    collaborator. *)
Theorem file_refresh_malformed (now now' : Q) (srv : JVal -> Exn + Dict) (g : option JVal)
  (c : list Call) (ti resp : Dict) (e : Z) (rt a : JVal) :
  ti !! "expires_at" = Some (JInt e) -> (inject_Z e < now)%Q -> ti !! "refresh_token" = Some rt ->
  srv rt = inr resp -> resp !! "access_token" = Some a -> resp !! "refresh_token" = None ->
  resp !! "expires_at" = None -> (0 < now')%Q ->
  refresh_token_if_needed now srv (mkSt (JsonFile ti) g c)
    = (inr (Some a), mkSt (JsonFile resp) g (c ++ [CRefresh rt]))
  /\ refresh_token_if_needed now' srv (mkSt (JsonFile resp) g (c ++ [CRefresh rt]))
    = (inr None, mkSt (JsonFile resp) g (c ++ [CRefresh rt])).
Proof.
  intros He Hnow Hrt Hsrv Ha Hr Hnone Hnow'. split.
  - rewrite (@refresh_stored FileSt file_store now srv (mkSt (JsonFile ti) g c) ti e eq_refl He).
    rewrite bool_decide_eq_true_2 by done.
    unfold try_except, pbind, getitem. rewrite Hrt. cbn [pret]. unfold call_refresh. rewrite Hsrv.
    cbn. by rewrite Ha.
  - unfold refresh_token_if_needed, pbind, load_token at 1. cbn [st_store store_load file_store file_load_token].
    rewrite (dict_nonempty _ _ _ Ha), Hnone. cbn [from_option id].
    rewrite lt_now_int, bool_decide_eq_true_2 by done.
    unfold try_except, getitem. by rewrite Hr.
Qed.

(** ** Witnesses *)

(** A deployment whose token expires at [1700000000]. *)
Definition env0 : Environ :=
  <["EXPIRES_AT" := "1700000000"]> (<["REFRESH_TOKEN" := "r0"]> (<["ACCESS_TOKEN" := "a0"]> ∅)).
Definition ti0 : Dict := token_dict "a0" "r0" 1700000000.
Definition s0 : St Environ := mkSt env0 None [].
Definition fresh_token : Dict := token_dict "a1" "r1" 1700021600.

(** At [now = expires_at] the token still counts as valid. *)
Lemma refresh_valid_witness :
  stored s0 ti0 1700000000 /\ (inject_Z 1700000000 <= inject_Z 1700000000)%Q
  /\ ti0 !! "access_token" = Some (JStr "a0")
  /\ refresh_token_if_needed (inject_Z 1700000000) (fun _ => inl HTTPError) s0
     = (inr (Some (JStr "a0")), s0).
Proof.
  assert (stored s0 ti0 1700000000) as H by (split; reflexivity).
  split; [exact H|]. split; [apply Qle_refl|]. split; [reflexivity|].
  apply (refresh_valid _ _ _ ti0 1700000000); [exact H|apply Qle_refl|reflexivity].
Defined.

Lemma refresh_expired_ok_witness :
  stored s0 ti0 1700000000 /\ (inject_Z 1700000000 < inject_Z 1700000001)%Q
  /\ well_formed fresh_token
  /\ exists st' d',
       refresh_token_if_needed (inject_Z 1700000001) (fun _ => inr fresh_token) s0
         = (inr (Some (JStr "a1")), mkSt st' (st_access s0) (st_calls s0 ++ [CRefresh (JStr "r0")]))
       /\ store_load st' = inr (Some d') /\ token_fields d' = token_fields fresh_token.
Proof.
  assert (stored s0 ti0 1700000000) as H by (split; reflexivity).
  assert (well_formed fresh_token) as Hw by (do 3 eexists; split; [|split]; reflexivity).
  assert (inject_Z 1700000000 < inject_Z 1700000001)%Q as Hlt by (reflexivity).
  split; [exact H|]. split; [exact Hlt|]. split; [exact Hw|].
  apply (refresh_expired_ok _ _ _ ti0 fresh_token 1700000000);
    [exact H|exact Hlt|reflexivity|reflexivity|exact Hw|reflexivity].
Defined.

Lemma refresh_expired_fail_witness :
  stored s0 ti0 1700000000 /\ (inject_Z 1700000000 < inject_Z 1700000001)%Q
  /\ refresh_token_if_needed (inject_Z 1700000001) (fun _ => inl HTTPError) s0
     = (inr None, mkSt (st_store s0) (st_access s0) (st_calls s0 ++ [CRefresh (JStr "r0")])).
Proof.
  assert (stored s0 ti0 1700000000) as H by (split; reflexivity).
  assert (inject_Z 1700000000 < inject_Z 1700000001)%Q as Hlt by (reflexivity).
  split; [exact H|]. split; [exact Hlt|].
  apply (refresh_expired_fail _ _ _ ti0 1700000000 _ HTTPError);
    [exact H|exact Hlt|reflexivity|reflexivity].
Defined.

Lemma get_access_token_unauthenticated_witness :
  store_load (st_store (mkSt (∅ : Environ) None [])) = inr None
  /\ get_access_token 0 (fun _ => inl HTTPError) "https://www.strava.com/oauth/authorize"
       (mkSt (∅ : Environ) None [])
     = (inr (JStr "https://www.strava.com/oauth/authorize"), mkSt ∅ None []).
Proof. split; [reflexivity|]. apply get_access_token_unauthenticated. reflexivity. Defined.

Lemma env_save_load_token_witness :
  well_formed fresh_token
  /\ exists env' d', env_save_token fresh_token env0 = (inr tt, env')
       /\ env_load_token env' = inr (Some d') /\ token_fields d' = token_fields fresh_token.
Proof.
  assert (well_formed fresh_token) as Hw by (do 3 eexists; split; [|split]; reflexivity).
  split; [exact Hw|]. apply env_save_load_token. exact Hw.
Defined.

Lemma env_refresh_partial_write_witness :
  env_load_token env0 = inr (Some ti0)
  /\ refresh_token_if_needed (inject_Z 1700000001)
       (fun _ => inr (<["access_token" := JStr "a1"]> ∅)) (mkSt env0 None [])
     = (inr None, mkSt (<["ACCESS_TOKEN" := "a1"]> env0) None ([] ++ [CRefresh (JStr "r0")])).
Proof.
  split; [reflexivity|].
  apply (env_refresh_partial_write _ _ _ _ _ ti0 (<["access_token" := JStr "a1"]> ∅) 1700000000);
    reflexivity.
Defined.

Definition bare_token : Dict := <["access_token" := JStr "a1"]> ∅.

Lemma first_authorization_file_witness :
  get_access_token_file 0 (fun _ => inl HTTPError) [Some "code1"] (fun _ => inr fresh_token)
    (mkSt NoFile None [])
  = (inr (Some (JStr "a1")), mkSt (JsonFile fresh_token) (Some (JStr "a1")) ([] ++ [CExchange (Some "code1")])).
Proof. apply first_authorization_file; reflexivity. Defined.

Lemma file_refresh_malformed_witness :
  refresh_token_if_needed (inject_Z 1700000001) (fun _ => inr bare_token) (mkSt (JsonFile ti0) None [])
    = (inr (Some (JStr "a1")), mkSt (JsonFile bare_token) None ([] ++ [CRefresh (JStr "r0")]))
  /\ refresh_token_if_needed (inject_Z 1700000002) (fun _ => inr bare_token)
       (mkSt (JsonFile bare_token) None ([] ++ [CRefresh (JStr "r0")]))
    = (inr None, mkSt (JsonFile bare_token) None ([] ++ [CRefresh (JStr "r0")])).
Proof. apply (file_refresh_malformed _ _ _ _ _ ti0 bare_token 1700000000); reflexivity. Defined.

Lemma authorized_partial_write_witness :
  String.eqb "c0" "" = false /\ (fun _ : option string => inr bare_token : Exn + Dict) (Some "c0") = inr bare_token
  /\ bare_token !! "access_token" = Some (JStr "a1") /\ bare_token !! "refresh_token" = None
  /\ authorized (Some "c0") (fun _ => inr bare_token) (mkSt env0 None [])
     = (inr (RText "Authorization failed. Please check the logs for more details." 200),
        mkSt (<["ACCESS_TOKEN" := "a1"]> env0) (Some (JStr "a1")) ([] ++ [CExchange (Some "c0")])).
Proof.
  split; [reflexivity|]. split; [reflexivity|]. split; [reflexivity|]. split; [reflexivity|].
  apply (authorized_partial_write _ _ _ _ _ bare_token); reflexivity.
Defined.

End Token.
