(* ===== verification/NetlifyJson.v ===== *)
(** The loop of [fetch_running_data] of [src/app.py] over the records of
    the Netlify [run-details] response as [response.json()] gives them:
    each record should be a JSON object with [start_date], [distance]
    and [duration]. The loop body reads them with [run['...']],
    [pd.to_datetime] and [float()], and any exception (a record that is
    not an object, a missing key, a value [float()] or [pd.to_datetime]
    rejects) lands in the [except], which returns an empty dictionary.
    Two library functions are inputs of the Section: CPython's [float()]
    on a string, and [pd.to_datetime] on any JSON value (pandas accepts
    many string forms beyond ["YYYY-MM-DD"], and reads a number as
    nanoseconds since the epoch); the one thing assumed of it is that
    the dates it gives lie in the [pd.Timestamp] range. [Aggregate]
    models the same loop over typed [Run] records; the lemmas here show
    that the loop over the raw records is that loop over the decoded
    records. *)

From S2P Require Import Prelude PyStr Dates Ordinal Aggregate Token.
Import PyStr Dates Ordinal Aggregate Token.

Module NetlifyJson.

#[local] Open Scope Z_scope.

Section Loop.
(** CPython's [float(s)] on a string: [None] is [ValueError]. *)
Context (float_of_str : string -> option Q).
(** [pd.to_datetime(v)] on a JSON value, as a date; [None] is an
    exception (or [NaT], whose [strftime] raises). *)
Context (to_datetime : JVal -> option date).
(** pandas gives only dates of the [pd.Timestamp] range. *)
Hypothesis to_datetime_valid :
  forall v d, to_datetime v = Some d -> valid_date d = true /\ in_pd_range d = true.

(** [float(v)] on a JSON value: numbers and booleans convert, a string
    is parsed, [None], lists and dicts raise [TypeError]. *)
Definition py_float (v : JVal) : option Q :=
  match v with
  | JInt z => Some (inject_Z z)
  | JFloat q _ => Some q
  | JBool b => Some (if b then 1%Q else 0%Q)
  | JStr s => float_of_str s
  | JNull | JOther _ _ => None
  end.

(** The body of [for run in data] on one record ([None]: not a JSON
    object, so [run['start_date']] raises [TypeError]). The
    [defaultdict] entry that [daily_mileage[local_date]] inserts before
    [float(run['distance'])] raises is dropped with the dictionary, so
    the [float()]s are taken first. *)
Definition netlify_json_step (m : Mileage) (run : option Dict) : option Mileage :=
  d ← run;
  sd ← d !! "start_date";
  date ← to_datetime sd;
  let local_date := date_str date in
  dist ← d !! "distance"; x ← py_float dist;
  dur ← d !! "duration"; y ← py_float dur;
  Some (add_duration local_date y (add_distance local_date x m)).

Fixpoint netlify_json_loop (m : Mileage) (l : list (option Dict)) : option Mileage :=
  match l with
  | [] => Some m
  | r :: l' => m' ← netlify_json_step m r; netlify_json_loop m' l'
  end.

(** [fetch_running_data()] of [src/app.py] on the response: [None] is a
    failed request or a body that is not a JSON list (iterating a dict
    or a number raises as well, or yields nothing). *)
Definition fetch_running_data_json (data : option (list (option Dict))) : Mileage :=
  match data with
  | None => ∅
  | Some l => default ∅ (netlify_json_loop ∅ l)
  end.

(** The typed record a JSON record decodes to, when it does. *)
Definition decode_run (run : option Dict) : option Run :=
  d ← run;
  sd ← d !! "start_date";
  date ← to_datetime sd;
  dist ← d !! "distance"; x ← py_float dist;
  dur ← d !! "duration"; y ← py_float dur;
  Some (mkRun (date_str date) x y).

(** ** Lemmas *)

(** One step over a raw record is the typed step over its decoding. *)
Lemma netlify_json_step_decode (m : Mileage) (r : option Dict) :
  netlify_json_step m r = rr ← decode_run r; netlify_step m rr.
Proof.
  unfold netlify_json_step, decode_run.
  destruct r as [d|]; [cbn -[netlify_step]|done].
  destruct (d !! "start_date") as [sd|]; [cbn -[netlify_step]|done].
  destruct (to_datetime sd) as [date|] eqn:Ht; [cbn -[netlify_step]|done].
  destruct (d !! "distance") as [dist|]; [cbn -[netlify_step]|done].
  destruct (py_float dist) as [x|]; [cbn -[netlify_step]|done].
  destruct (d !! "duration") as [dur|]; [cbn -[netlify_step]|done].
  destruct (py_float dur) as [y|]; [cbn -[netlify_step]|done].
  destruct (to_datetime_valid sd date Ht) as [Hv Hr].
  unfold netlify_step. cbn [run_start_date run_distance run_duration].
  by rewrite parse_date_date_str.
Qed.

Lemma netlify_json_loop_decode (m : Mileage) (l : list (option Dict)) :
  netlify_json_loop m l = rs ← mapM decode_run l; netlify_loop m rs.
Proof.
  revert m. induction l as [|r l IH]; intros m; [done|].
  cbn [netlify_json_loop mapM]. rewrite netlify_json_step_decode.
  destruct (decode_run r) as [rr|]; [cbn -[netlify_step]|done].
  destruct (netlify_step m rr) as [m'|] eqn:Hs; cbn -[netlify_step]; rewrite ?IH;
    destruct (mapM decode_run l); cbn -[netlify_step]; by rewrite ?Hs.
Qed.

(** [fetch_running_data] on the response is [fetch_running_data_netlify]
    on the decoded records, and on nothing (the empty dictionary) when
    one record does not decode. *)
Lemma fetch_running_data_json_decode (data : option (list (option Dict))) :
  fetch_running_data_json data = fetch_running_data_netlify (data ≫= mapM decode_run).
Proof.
  destruct data as [l|]; [cbn|done]. rewrite netlify_json_loop_decode.
  by destruct (mapM decode_run l).
Qed.

(** ** Theorems *)

(** C3. One malformed record (not an object, a missing key, a value
    [float()] or [pd.to_datetime] rejects) makes the broad [except]
    drop every run: the dashboard gets the empty dictionary. *)
Theorem fetch_running_data_json_malformed (l : list (option Dict)) (r : option Dict) :
  r ∈ l -> decode_run r = None -> fetch_running_data_json (Some l) = ∅.
Proof.
  intros Hin Hr. cbn. rewrite netlify_json_loop_decode.
  rewrite mapM_None_2; [done|]. apply Exists_exists. eauto.
Qed.

End Loop.

(** ** Witnesses *)

(** No string [float()] accepts, and a [pd.to_datetime] that reads the
    ["YYYY-MM-DD"] strings only. *)
Definition no_float (s : string) : option Q := None.
Definition ymd_only (v : JVal) : option date :=
  match v with JStr s => parse_date s | _ => None end.

Lemma ymd_only_valid :
  forall v d, ymd_only v = Some d -> valid_date d = true /\ in_pd_range d = true.
Proof. intros [] d; cbn; try done. apply parse_date_valid. Qed.

(** A record of 2024-03-01, and one whose [distance] is missing. *)
Definition rec_ok : option Dict :=
  Some (<["start_date" := JStr "2024-03-01"]> (<["distance" := JFloat 3.1 "3.1"]>
         (<["duration" := JInt 28]> ∅))).
Definition rec_no_distance : option Dict :=
  Some (<["start_date" := JStr "2024-03-02"]> (<["duration" := JInt 45]> ∅)).

Lemma fetch_running_data_json_malformed_witness :
  (forall v d, ymd_only v = Some d -> valid_date d = true /\ in_pd_range d = true)
  /\ rec_no_distance ∈ [rec_ok; rec_no_distance]
  /\ decode_run no_float ymd_only rec_no_distance = None
  /\ fetch_running_data_json no_float ymd_only (Some [rec_ok; rec_no_distance]) = ∅.
Proof.
  assert (rec_no_distance ∈ [rec_ok; rec_no_distance]) as Hin by (right; left).
  split; [exact ymd_only_valid|]. split; [exact Hin|]. split; [reflexivity|].
  apply (fetch_running_data_json_malformed _ _ ymd_only_valid _ rec_no_distance Hin). reflexivity.
Defined.

End NetlifyJson.
