(* ===== verification/TokenSpec.v ===== *)
(** The contract of the token lifecycle, as the specification states it
    ([get_valid_token] of its TokenLifecycleManager), and the refinement
    theorem: [refresh_token_if_needed], written against the
    [TokenStore] class, implements it for every store that satisfies
    the class's law, away from the two cases where the code departs
    from the contract (a token expiring exactly now, and a malformed
    refresh response). *)

From S2P Require Import Prelude PyStr Token.
Import PyStr Token.

Module TokenSpec.

#[local] Open Scope Z_scope.

(** ** The abstract lifecycle *)

(** The specification's TokenState. *)
Record TokenState := mkTokenState { ts_access : string; ts_refresh : string; ts_expires : Z }.

(** What [get_valid_token] returns: a token, or "authorization
    required". *)
Inductive Outcome := OToken (access : string) | OAuthRequired.

(** [get_valid_token] on the stored credential [st] at time [now], with
    the collaborator's refresh [refresh]: the new stored credential, the
    outcome, and the number of refresh calls. A token is valid while
    [expires_at > now]; a failed refresh leaves the credential as it
    was. *)
Definition get_valid_token (now : Q) (refresh : string -> option TokenState)
  (st : option TokenState) : option TokenState * Outcome * nat :=
  match st with
  | None => (None, OAuthRequired, 0%nat)
  | Some t =>
      if bool_decide (now < inject_Z (ts_expires t))%Q then (Some t, OToken (ts_access t), 0%nat)
      else match refresh (ts_refresh t) with
           | Some t' => (Some t', OToken (ts_access t'), 1%nat)
           | None => (Some t, OAuthRequired, 1%nat)
           end
  end.

(** ** The abstraction of the concrete state *)

(** The credential a token dict holds, when it has the three fields. *)
Definition abs_dict (d : Dict) : option TokenState :=
  match token_fields d with
  | (Some (JStr a), Some (JStr r), Some (JInt e)) => Some (mkTokenState a r e)
  | _ => None
  end.

Section Refinement.
Context {Store : Type} `{!TokenStore Store} `{!TokenStoreLaws Store}.

(** The credential of a store: [Some None] when there is none, [None]
    when what is stored is not a credential. *)
Definition abs_store (s : Store) : option (option TokenState) :=
  match store_load s with
  | inr None => Some None
  | inr (Some d) => Some <$> abs_dict d
  | inl _ => None
  end.

(** The collaborator's refresh, as the contract sees it. *)
Definition spec_refresh (srv : JVal -> Exn + Dict) (rt : string) : option TokenState :=
  match srv (JStr rt) with inr d => abs_dict d | inl _ => None end.

(** The outcome of [refresh_token_if_needed]. *)
Definition outcome (r : Exn + option JVal) : option Outcome :=
  match r with
  | inr (Some (JStr a)) => Some (OToken a)
  | inr None => Some OAuthRequired
  | _ => None
  end.

(** ** Lemmas *)

Lemma abs_dict_fields (d : Dict) (t : TokenState) :
  abs_dict d = Some t ->
  d !! "access_token" = Some (JStr (ts_access t)) /\ d !! "refresh_token" = Some (JStr (ts_refresh t))
  /\ d !! "expires_at" = Some (JInt (ts_expires t)).
Proof. unfold abs_dict, token_fields. repeat case_match; intros; simplify_eq/=; done. Qed.

Lemma abs_dict_well_formed (d : Dict) (t : TokenState) : abs_dict d = Some t -> well_formed d.
Proof. intros (? & ? & ?)%abs_dict_fields. do 3 eexists. eauto. Qed.

Lemma abs_dict_token_fields (d d' : Dict) : token_fields d' = token_fields d -> abs_dict d' = abs_dict d.
Proof. unfold abs_dict. by intros ->. Qed.

Lemma abs_store_Some (s : Store) (t : TokenState) :
  abs_store s = Some (Some t) -> exists d, store_load s = inr (Some d) /\ abs_dict d = Some t.
Proof.
  unfold abs_store. destruct (store_load s) as [|[d|]]; try done.
  destruct (abs_dict d) eqn:?; intros; simplify_eq/=. eauto.
Qed.

Lemma abs_store_None (s : Store) : abs_store s = Some None -> store_load s = inr None.
Proof.
  unfold abs_store. destruct (store_load s) as [|[d|]]; try done.
  by destruct (abs_dict d).
Qed.

(** ** Refinement *)

(** C21. Refinement of the specification's [get_valid_token] by
    [refresh_token_if_needed], for any store that satisfies the
    [TokenStore] law: on a stored credential (or none), with an expiry
    other than the current instant and a collaborator that answers a
    refresh with a whole TokenState or an error, the code leaves the
    store holding the credential the contract prescribes, returns the
    contract's outcome, and makes as many calls as the contract. *)
Theorem refresh_token_if_needed_refines (now : Q) (srv : JVal -> Exn + Dict)
  (s : St Store) (o : option TokenState) :
  abs_store (st_store s) = Some o ->
  (forall t, o = Some t -> ~ (inject_Z (ts_expires t) == now)%Q) ->
  (forall t d, o = Some t -> srv (JStr (ts_refresh t)) = inr d -> is_Some (abs_dict d)) ->
  abs_store (st_store (refresh_token_if_needed now srv s).2)
    = Some (get_valid_token now (spec_refresh srv) o).1.1
  /\ outcome (refresh_token_if_needed now srv s).1 = Some (get_valid_token now (spec_refresh srv) o).1.2
  /\ length (st_calls (refresh_token_if_needed now srv s).2)
     = (length (st_calls s) + (get_valid_token now (spec_refresh srv) o).2)%nat.
Proof.
  intros Habs Hb Hwf. destruct o as [t|].
  - apply abs_store_Some in Habs as (ti & Hl & Ht).
    destruct (abs_dict_fields _ _ Ht) as (Ha & Hr & He). specialize (Hb t eq_refl).
    rewrite (refresh_stored _ _ _ _ _ Hl He). cbn [get_valid_token].
    assert (abs_store (st_store s) = Some (Some t)) as Hs by (unfold abs_store; by rewrite Hl, Ht).
    destruct (Qlt_le_dec (inject_Z (ts_expires t)) now) as [Hlt|Hge].
    + rewrite bool_decide_eq_true_2, bool_decide_eq_false_2 by (done || by apply Qle_not_lt, Qlt_le_weak).
      unfold try_except, pbind, getitem, call_refresh, spec_refresh. rewrite Hr. cbn [pret].
      destruct (srv (JStr (ts_refresh t))) as [err|d] eqn:Hsrv; cbn [of_sum raise pret].
      * cbn. rewrite length_app. cbn. split; [done|split; [done|lia]].
      * destruct (Hwf t d eq_refl Hsrv) as [t' Ht']. rewrite Ht'.
        destruct (save_load d (st_store s) (abs_dict_well_formed _ _ Ht'))
          as (st' & d' & Hsave & Hload & Hf).
        destruct (abs_dict_fields _ _ Ht') as (Ha' & _ & _).
        unfold save_token. cbn [st_store st_access st_calls]. rewrite Hsave. rewrite Ha'. cbn.
        unfold abs_store. rewrite Hload, (abs_dict_token_fields _ _ Hf), Ht', length_app.
        cbn. split; [done|split; [done|lia]].
    + assert (now < inject_Z (ts_expires t))%Q as Hlt.
      { apply Qle_lt_or_eq in Hge as [?|Heq]; [done|]. exfalso. apply Hb. by rewrite Heq. }
      rewrite bool_decide_eq_false_2, bool_decide_eq_true_2 by (done || by apply Qle_not_lt, Qlt_le_weak).
      unfold pbind, getitem. rewrite Ha. cbn. split; [done|split; [done|lia]].
  - apply abs_store_None in Habs.
    unfold refresh_token_if_needed, pbind, load_token. rewrite Habs. cbn.
    split; [unfold abs_store; by rewrite Habs|split; [done|lia]].
Qed.

End Refinement.

(** ** Witnesses *)

Definition t0 : TokenState := mkTokenState "a0" "r0" 1700000000.

(** A collaborator that answers every refresh with [fresh_token]. *)
Definition fresh_srv : JVal -> Exn + Dict := fun _ => inr fresh_token.

Lemma refresh_token_if_needed_refines_witness :
  abs_store (st_store s0) = Some (Some t0)
  /\ (forall t, Some t0 = Some t -> ~ (inject_Z (ts_expires t) == inject_Z 1700000001)%Q)
  /\ (forall t d, Some t0 = Some t -> fresh_srv (JStr (ts_refresh t)) = inr d ->
        is_Some (abs_dict d))
  /\ abs_store (st_store (refresh_token_if_needed (inject_Z 1700000001) fresh_srv s0).2)
       = Some (get_valid_token (inject_Z 1700000001) (spec_refresh fresh_srv) (Some t0)).1.1
  /\ outcome (refresh_token_if_needed (inject_Z 1700000001) fresh_srv s0).1
       = Some (get_valid_token (inject_Z 1700000001) (spec_refresh fresh_srv) (Some t0)).1.2
  /\ length (st_calls (refresh_token_if_needed (inject_Z 1700000001) fresh_srv s0).2)
       = (length (st_calls s0)
          + (get_valid_token (inject_Z 1700000001) (spec_refresh fresh_srv) (Some t0)).2)%nat.
Proof.
  assert (abs_store (st_store s0) = Some (Some t0)) as H1 by reflexivity.
  assert (forall t, Some t0 = Some t -> ~ (inject_Z (ts_expires t) == inject_Z 1700000001)%Q) as H2
    by (intros t [= <-]; rewrite inject_Z_injective; cbn; lia).
  assert (forall t d, Some t0 = Some t -> fresh_srv (JStr (ts_refresh t)) = inr d ->
            is_Some (abs_dict d)) as H3
    by (intros t d _ [= <-]; eexists; reflexivity).
  split; [exact H1|]. split; [exact H2|]. split; [exact H3|].
  apply refresh_token_if_needed_refines; [exact H1|exact H2|exact H3].
Defined.

End TokenSpec.
