(* ===== verification/Interleave.v ===== *)
(** Two dashboard requests at once. [src/app.py] runs Flask's development
    server, which serves requests on threads, and [get_access_token]
    takes no lock around [refresh_token_if_needed]. This file splits
    [refresh_token_if_needed] into its atomic steps (read the store,
    decide, call the collaborator, write the store), proves that one
    thread running them alone computes exactly the function of [Token]
    (a refinement), and then interleaves two threads over the shared
    store. *)

From S2P Require Import Prelude PyStr Token.
Import PyStr Token.

Module Interleave.

#[local] Open Scope Z_scope.

(** Where a thread is inside [refresh_token_if_needed]. *)
Inductive Phase :=
  | PStart
  | PLoaded (token_info : option Dict)
  | PCalled (refresh_response : Exn + Dict)
  | PDone (result : Exn + option JVal).

Section Steps.
Context {Store : Type} `{!TokenStore Store}.
Context (now : Q) (srv : JVal -> Exn + Dict).

(** What the code does between [load_token()] and the refresh call:
    [inl r] returns [r], [inr rt] calls the collaborator with [rt]. *)
Definition after_load (token_info : option Dict) : (Exn + option JVal) + JVal :=
  match token_info with
  | Some ti =>
      if bool_decide (ti ≠ ∅) then
        match py_lt_now (default (JInt 0) (ti !! "expires_at")) now with
        | inr true =>
            match ti !! "refresh_token" with
            | Some rt => inr rt
            | None => inl (inr None)
            end
        | inr false =>
            match ti !! "access_token" with
            | Some a => inl (inr (Some a))
            | None => inl (inl (KeyError "access_token"))
            end
        | inl e => inl (inl e)
        end
      else inl (inr None)
  | None => inl (inr None)
  end.

(** [save_token(refresh_response); return refresh_response['access_token']]
    inside the [try]. *)
Definition after_call (s : St Store) (resp : Dict) : St Store * (Exn + option JVal) :=
  let '(r, st') := store_save resp (st_store s) in
  let s' := mkSt st' (st_access s) (st_calls s) in
  match r with
  | inl _ => (s', inr None)
  | inr _ => (s', inr (resp !! "access_token"))
  end.

Definition log_call (s : St Store) (c : Call) : St Store :=
  mkSt (st_store s) (st_access s) (st_calls s ++ [c]).

(** One atomic step of one thread over the shared state. *)
Inductive tstep : St Store -> Phase -> St Store -> Phase -> Prop :=
  | ts_load s o :
      store_load (st_store s) = inr o -> tstep s PStart s (PLoaded o)
  | ts_load_err s e :
      store_load (st_store s) = inl e -> tstep s PStart s (PDone (inl e))
  | ts_decide s ti r :
      after_load ti = inl r -> tstep s (PLoaded ti) s (PDone r)
  | ts_call s ti rt :
      after_load ti = inr rt -> tstep s (PLoaded ti) (log_call s (CRefresh rt)) (PCalled (srv rt))
  | ts_save s resp :
      tstep s (PCalled (inr resp)) (after_call s resp).1 (PDone (after_call s resp).2)
  | ts_fail s e :
      tstep s (PCalled (inl e)) s (PDone (inr None)).

(** Two threads: either one takes a step. *)
Inductive sys_step : St Store * Phase * Phase -> St Store * Phase * Phase -> Prop :=
  | sys_left s p1 p2 s' p1' : tstep s p1 s' p1' -> sys_step (s, p1, p2) (s', p1', p2)
  | sys_right s p1 p2 s' p2' : tstep s p2 s' p2' -> sys_step (s, p1, p2) (s', p1, p2').

(** A thread alone. *)
Definition solo_step (x y : St Store * Phase) : Prop := tstep x.1 x.2 y.1 y.2.

End Steps.

(** ** One thread: the steps implement [refresh_token_if_needed] *)

Section Solo.
Context {Store : Type} `{!TokenStore Store}.
Context (now : Q) (srv : JVal -> Exn + Dict).

(** [refresh_token_if_needed], cut at its effects. *)
Lemma refresh_decompose (s : St Store) :
  refresh_token_if_needed now srv s =
  match store_load (st_store s) with
  | inl e => (inl e, s)
  | inr o =>
      match after_load now o with
      | inl r => (r, s)
      | inr rt =>
          let s1 := log_call s (CRefresh rt) in
          match srv rt with
          | inl _ => (inr None, s1)
          | inr resp => ((after_call s1 resp).2, (after_call s1 resp).1)
          end
      end
  end.
Proof.
  unfold refresh_token_if_needed, after_load, after_call, log_call, pbind, load_token,
    try_except, save_token, getitem, call_refresh, lt_now, py_lt_now, of_sum, pret, raise.
  destruct s as [st g c]; cbn [st_store st_access st_calls].
  repeat (case_match; simplify_eq/=); try done;
    repeat match goal with H : _ !! _ = _ |- _ => rewrite H end; done.
Qed.

Lemma tstep_from_done (s s' : St Store) (r : Exn + option JVal) (p : Phase) :
  ~ tstep now srv s (PDone r) s' p.
Proof. inversion 1. Qed.

Lemma rtc_solo_done (x : St Store * Phase) (s : St Store) (r : Exn + option JVal) :
  rtc (solo_step now srv) (s, PDone r) x -> x = (s, PDone r).
Proof.
  intros H. apply rtc_inv in H as [<-|([s1 p1] & Hs & _)]; [done|].
  by apply tstep_from_done in Hs.
Qed.

(** Invert the first step of a solo run. *)
Ltac solo_inv H :=
  let Hs := fresh "Hs" in
  apply rtc_inv in H as [?|([? ?] & Hs & H)];
  [simplify_eq | unfold solo_step in Hs; cbn in Hs; inversion Hs; subst; clear Hs].

(** Refinement: a thread that runs the steps alone, from its start
    to its end, does exactly what [refresh_token_if_needed] does, and
    every result of the function is such a run. *)
Theorem solo_refines (s s' : St Store) (r : Exn + option JVal) :
  rtc (solo_step now srv) (s, PStart) (s', PDone r)
  <-> refresh_token_if_needed now srv s = (r, s').
Proof.
  rewrite refresh_decompose. split.
  - intros H. solo_inv H.
    + match goal with E : store_load _ = _ |- _ => rewrite E end.
      solo_inv H.
      * match goal with E : after_load _ _ = _ |- _ => rewrite E end.
        by apply rtc_solo_done in H; simplify_eq.
      * match goal with E : after_load _ _ = _ |- _ => rewrite E end.
        destruct (srv _) as [err|resp] eqn:Hsrv; solo_inv H;
          by apply rtc_solo_done in H; simplify_eq.
    + match goal with E : store_load _ = _ |- _ => rewrite E end.
      by apply rtc_solo_done in H; simplify_eq.
  - intros H. destruct (store_load (st_store s)) as [e|o] eqn:Hl.
    + simplify_eq. apply rtc_once. by apply ts_load_err.
    + apply (rtc_l _ _ (s, PLoaded o)); [by apply ts_load|].
      destruct (after_load now o) as [r'|rt] eqn:Ha.
      * simplify_eq. apply rtc_once. by apply ts_decide.
      * apply (rtc_l _ _ (log_call s (CRefresh rt), PCalled (srv rt))); [by apply ts_call|].
        destruct (srv rt) as [err|resp]; cbn zeta in H; simplify_eq; apply rtc_once.
        -- apply ts_fail.
        -- apply ts_save.
Qed.

End Solo.

(** ** Two threads *)

Section Two.
Context {Store : Type} `{!TokenStore Store}.
Context (now : Q) (srv : JVal -> Exn + Dict).

Lemma after_load_expired (ti : Dict) (e : Z) (rt : JVal) :
  ti !! "expires_at" = Some (JInt e) -> (inject_Z e < now)%Q -> ti !! "refresh_token" = Some rt ->
  after_load now (Some ti) = inr rt.
Proof.
  intros He Hlt Hrt. unfold after_load.
  rewrite (dict_nonempty _ _ _ He), He. cbn [from_option id py_lt_now].
  by rewrite bool_decide_eq_true_2, Hrt.
Qed.

(** The calls a phase may have made. *)
Definition phase_calls (p : Phase) : nat :=
  match p with PStart | PLoaded _ => 0 | PCalled _ | PDone _ => 1 end.

(** A step logs one call when it leaves [PLoaded] for [PCalled], and no
    call otherwise. *)
Lemma tstep_calls (s s' : St Store) (p p' : Phase) :
  tstep now srv s p s' p' ->
  (st_calls s' = st_calls s /\ phase_calls p <= phase_calls p')%nat
  \/ (exists c, st_calls s' = st_calls s ++ [c]) /\ phase_calls p = 0%nat /\ phase_calls p' = 1%nat.
Proof.
  destruct 1 as [| | | s ti rt _ | s resp |]; cbn; try (left; split; [done|lia]).
  - right. split; [by eexists|done].
  - left. split; [|done]. unfold after_call. by destruct (store_save resp (st_store s)) as [[] ?].
Qed.

Definition calls_inv (s0 : St Store) (x : St Store * Phase * Phase) : Prop :=
  exists l, st_calls x.1.1 = st_calls s0 ++ l
            /\ (length l <= phase_calls x.1.2 + phase_calls x.2)%nat.

Lemma calls_inv_step (s0 : St Store) (x y : St Store * Phase * Phase) :
  calls_inv s0 x -> sys_step now srv x y -> calls_inv s0 y.
Proof.
  intros (l & Hl & Hlen) Hxy. unfold calls_inv.
  destruct Hxy as [s p1 p2 s' p1' Hs|s p1 p2 s' p2' Hs]; cbn in *;
    destruct (tstep_calls _ _ _ _ Hs) as [[-> Hp]|[[c ->] [Hp Hp']]].
  all: try (exists l; split; [done|lia]).
  all: exists (l ++ [c]); rewrite Hl, app_assoc; split; [done|rewrite length_app; cbn; lia].
Qed.

(** In every state two concurrent requests can reach, they have
    made at most one call each: the new calls number no more than the
    threads past their decision, so at most two. *)
Theorem sys_calls_bound (s0 : St Store) (x : St Store * Phase * Phase) :
  rtc (sys_step now srv) (s0, PStart, PStart) x ->
  exists l, st_calls x.1.1 = st_calls s0 ++ l
            /\ (length l <= phase_calls x.1.2 + phase_calls x.2)%nat.
Proof.
  intros H. change (calls_inv s0 x).
  assert (calls_inv s0 (s0, PStart, PStart)) as H0 by (exists []; by rewrite app_nil_r).
  revert H0. induction H as [|x y z Hxy _ IH]; [done|].
  intros Hx. apply IH. by apply (calls_inv_step _ x).
Qed.

(** C29. Without a lock the two requests can both see the expired token
    and both refresh it: with the schedule load, load, call, call, save,
    save, the collaborator receives the same refresh token twice. *)
Theorem double_refresh (s : St Store) (ti resp : Dict) (e : Z) (rt a : JVal) (st1 st2 : Store) :
  store_load (st_store s) = inr (Some ti) -> ti !! "expires_at" = Some (JInt e) ->
  (inject_Z e < now)%Q -> ti !! "refresh_token" = Some rt -> srv rt = inr resp ->
  store_save resp (st_store s) = (inr tt, st1) -> store_save resp st1 = (inr tt, st2) ->
  resp !! "access_token" = Some a ->
  rtc (sys_step now srv) (s, PStart, PStart)
    (mkSt st2 (st_access s) (st_calls s ++ [CRefresh rt; CRefresh rt]),
     PDone (inr (Some a)), PDone (inr (Some a))).
Proof.
  intros Hl He Hlt Hrt Hsrv Hs1 Hs2 Ha.
  pose proof (after_load_expired ti e rt He Hlt Hrt) as Hal.
  eapply rtc_l; [apply sys_left, ts_load, Hl|].
  eapply rtc_l; [apply sys_right, ts_load, Hl|].
  eapply rtc_l; [apply sys_left, ts_call, Hal|].
  eapply rtc_l; [apply sys_right, ts_call, Hal|]. rewrite Hsrv.
  eapply rtc_l; [apply sys_left, ts_save|].
  eapply rtc_l; [apply sys_right, ts_save|].
  unfold after_call, log_call. cbn. rewrite Hs1. cbn. rewrite Hs2. cbn.
  rewrite Ha, <- app_assoc. apply rtc_refl.
Qed.

(** ** Termination and progress *)

(** How far a thread is from its end. *)
Definition phase_rank (p : Phase) : nat :=
  match p with PStart => 3 | PLoaded _ => 2 | PCalled _ => 1 | PDone _ => 0 end.

Definition sys_rank (x : St Store * Phase * Phase) : nat := phase_rank x.1.2 + phase_rank x.2.

Lemma tstep_rank (s s' : St Store) (p p' : Phase) :
  tstep now srv s p s' p' -> (phase_rank p' < phase_rank p)%nat.
Proof. destruct 1; cbn; lia. Qed.

Lemma sys_step_rank (x y : St Store * Phase * Phase) :
  sys_step now srv x y -> (sys_rank y < sys_rank x)%nat.
Proof. destruct 1 as [????? H|????? H]; apply tstep_rank in H; unfold sys_rank; cbn; lia. Qed.

(** A thread that has not returned can always take a step: every
    store read, every decision and every answer of the collaborator
    leads somewhere. *)
Lemma tstep_progress (s : St Store) (p : Phase) :
  (exists r, p = PDone r) \/ exists s' p', tstep now srv s p s' p'.
Proof.
  destruct p as [|o|[e|resp]|r]; [right..|left; eauto].
  - destruct (store_load (st_store s)) eqn:?; do 2 eexists; by constructor.
  - destruct (after_load now o) eqn:?; do 2 eexists; by constructor.
  - do 2 eexists. apply ts_fail.
  - do 2 eexists. apply ts_save.
Qed.

(** Termination: every schedule of two concurrent requests is
    finite, from any state: [sys_step] is strongly normalizing (each
    step moves one request closer to its return). *)
Theorem sys_step_terminates (x : St Store * Phase * Phase) : sn (sys_step now srv) x.
Proof.
  remember (sys_rank x) as n eqn:Hn. revert x Hn.
  induction (lt_wf n) as [n _ IH]. intros x ->.
  constructor. intros y Hxy. by eapply IH; [apply sys_step_rank|].
Qed.

(** Liveness: the two requests cannot block each other. From any
    state some schedule brings both to their return, and a state where
    no step is possible is one where both have returned. *)
Theorem sys_step_completes (x : St Store * Phase * Phase) :
  (exists s r1 r2, rtc (sys_step now srv) x (s, PDone r1, PDone r2))
  /\ (nf (sys_step now srv) x -> exists r1 r2, x.1.2 = PDone r1 /\ x.2 = PDone r2).
Proof.
  assert (forall y, nf (sys_step now srv) y -> exists r1 r2, y.1.2 = PDone r1 /\ y.2 = PDone r2)
    as Hnf.
  { intros [[s p1] p2] Hy. cbn.
    destruct (tstep_progress s p1) as [[r1 ->]|(s' & p1' & H1)];
      [|destruct Hy; eexists; by apply sys_left].
    destruct (tstep_progress s p2) as [[r2 ->]|(s' & p2' & H2)];
      [eauto|destruct Hy; eexists; by apply sys_right]. }
  split; [|apply Hnf].
  induction (sys_step_terminates x) as [x _ IH].
  destruct x as [[s p1] p2].
  destruct (tstep_progress s p1) as [[r1 ->]|(s' & p1' & H1)].
  - destruct (tstep_progress s p2) as [[r2 ->]|(s' & p2' & H2)]; [by do 3 eexists|].
    destruct (IH (s', PDone r1, p2')) as (sf & f1 & f2 & Hf); [by apply sys_right|].
    exists sf, f1, f2. eapply rtc_l; [by apply sys_right|exact Hf].
  - destruct (IH (s', p1', p2)) as (sf & f1 & f2 & Hf); [by apply sys_left|].
    exists sf, f1, f2. eapply rtc_l; [by apply sys_left|exact Hf].
Qed.

End Two.

(** ** Witnesses *)

(** The store after one refresh to [fresh_token]. *)
Definition env1 : Environ :=
  <["EXPIRES_AT" := "1700021600"]> (<["REFRESH_TOKEN" := "r1"]> (<["ACCESS_TOKEN" := "a1"]> env0)).

Lemma double_refresh_witness :
  rtc (sys_step (inject_Z 1700000001) (fun _ => inr fresh_token)) (s0, PStart, PStart)
    (mkSt env1 None ([] ++ [CRefresh (JStr "r0"); CRefresh (JStr "r0")]),
     PDone (inr (Some (JStr "a1"))), PDone (inr (Some (JStr "a1")))).
Proof.
  apply (double_refresh _ _ s0 ti0 fresh_token 1700000000 _ _ env1 env1); reflexivity.
Defined.

End Interleave.
