(* ===== verification/Dashboard.v ===== *)
(** The dashboard: [index] and [fetch_user_profile] of both apps, which
    compose the token check, the fetch, the layout and the summary. In
    [src/app.py], [index] asks [get_access_token] for a token, redirects
    to it when it is the authorization URL, and otherwise renders the
    profile, the heatmap and the year's totals of the Netlify data. In
    [src/flask-app/app.py] the token was obtained once at import time
    ([ACCESS_TOKEN = get_access_token()]), and [index] renders the
    stravalib data with the totals of 2024. *)

From S2P Require Import Prelude PyStr Dates Ordinal Aggregate Summary Heatmap Token.
Import PyStr Dates Ordinal Aggregate Summary Heatmap Token.

Module Dashboard.

#[local] Open Scope Z_scope.
#[local] Open Scope py_scope.

(** ** Profiles *)

(** A value handed to the template: a JSON value of the Netlify
    response, or a float computed by the code. *)
Inductive PVal := PJ (v : JVal) | PFloat (q : Q).

(** The dict [fetch_user_profile] returns. *)
Record Profile := mkProfile {
  p_name : PVal;
  p_avatar : PVal;
  p_total_runs : PVal;
  p_total_mileage : PVal
}.

(** The [except] branch of both versions. *)
Definition default_profile : Profile :=
  mkProfile (PJ (JStr "Unknown")) (PJ (JStr "")) (PJ (JInt 0)) (PJ (JInt 0)).

(** [data.get(k, dflt)] *)
Definition dict_get (d : Dict) (k : string) (dflt : JVal) : PVal := PJ (default dflt (d !! k)).

(** [fetch_user_profile] of [src/app.py]; [None] is a failed request,
    an HTTP error status, or a body that is not a JSON object. *)
Definition fetch_user_profile_netlify (resp : option Dict) : Profile :=
  match resp with
  | Some data =>
      mkProfile (dict_get data "name" (JStr "Unknown")) (dict_get data "avatar" (JStr ""))
                (dict_get data "total_runs" (JInt 0)) (dict_get data "total_mileage" (JInt 0))
  | None => default_profile
  end.

(** The fields of a stravalib athlete the code reads; a name may be
    [None]. *)
Record Athlete := mkAthlete {
  firstname : option string;
  lastname : option string;
  profile : string;
  run_count : Z;
  run_distance : Q
}.

(** [fetch_user_profile] of [src/flask-app/app.py]: [None] is a failed
    [get_athlete()]; a [None] name makes [+] raise [TypeError], caught
    by the same [except]. *)
Definition fetch_user_profile_strava (athlete : option Athlete) : Profile :=
  match athlete with
  | Some a =>
      match firstname a, lastname a with
      | Some f, Some l =>
          mkProfile (PJ (JStr (String.append f (String.append " " l)))) (PJ (JStr (profile a)))
                    (PJ (JInt (run_count a))) (PFloat (round2 (run_distance a * miles_per_metre)))
      | _, _ => default_profile
      end
  | None => default_profile
  end.

(** ** Pages *)

(** [redirect(url)], or [render_template('index.html', ...)] with the
    heatmap, the athlete's name, the current year, the avatar, the
    all-time totals of the profile and the totals of the summary. *)
Inductive Page :=
  | PRedirect (url : string)
  | PRender (heatmap_data : Heatmap) (athlete_name : PVal) (current_year : Z) (avatar : PVal)
            (total_runs total_mileage : PVal) (runs_year : Z) (mileage_year : Q).

(** [s.startswith(p)]; only strings have the method. *)
Definition startswith {S} (v : JVal) (p : string) : PyM S bool :=
  match v with JStr s => pret (String.prefix p s) | _ => raise AttributeError end.

(** [calculate_summary_statistics] with the exception of [pd.to_datetime]. *)
Definition summary_or_raise (m : Mileage) (y : Z) : Exn + (Z * Q) :=
  match calculate_summary_statistics m y with Some p => inr p | None => inl ValueError end.

(** [index] of [src/app.py]. [current_year] is [pd.Timestamp.now().year],
    read here and in [prepare_heatmap_data]; both reads are taken to
    fall in the same year. [runs_resp] is the [run-details] answer as
    decoded records ([None] when a record does not decode), which
    [NetlifyJson.fetch_running_data_json_decode] shows gives the
    dictionary of the loop over the raw JSON. *)
Definition index_netlify (now : Q) (srv : JVal -> Exn + Dict) (authorize_url : string)
  (profile_resp : option Dict) (runs_resp : option (list Run)) (current_year : Z)
  : PyM (St Environ) Page :=
  access_token <- get_access_token now srv authorize_url ;;
  to_auth <- startswith access_token "http" ;;
  if to_auth then pret (PRedirect (py_str access_token))
  else
    let user_profile := fetch_user_profile_netlify profile_resp in
    let daily_mileage := fetch_running_data_netlify runs_resp in
    let heatmap_data := prepare_heatmap_data daily_mileage current_year in
    totals <- of_sum (summary_or_raise daily_mileage current_year) ;;
    pret (PRender heatmap_data (p_name user_profile) current_year (p_avatar user_profile)
            (p_total_runs user_profile) (p_total_mileage user_profile) totals.1 totals.2).

(** [index] of [src/flask-app/app.py]: the stravalib answers are inputs
    (made with the token of import time); the server is at UTC offset
    [off]. *)
Definition index_strava (athlete : option Athlete) (acts : option (list Activity)) (off : Z)
  (current_year : Z) : Exn + Page :=
  let user_profile := fetch_user_profile_strava athlete in
  let daily_mileage := fetch_running_data_strava off acts in
  let heatmap_data := prepare_heatmap_data daily_mileage current_year in
  match summary_or_raise daily_mileage 2024 with
  | inr (total_runs_2024, total_mileage_2024) =>
      inr (PRender heatmap_data (p_name user_profile) current_year (p_avatar user_profile)
             (p_total_runs user_profile) (p_total_mileage user_profile)
             total_runs_2024 total_mileage_2024)
  | inl e => inl e
  end.

(** ** Lemmas *)

(** Every key of the Netlify dictionary is a date [pd.to_datetime]
    reads back: the loop writes [str] of a parsed date. *)
Lemma netlify_loop_keys (l : list Run) (m m' : Mileage) :
  map_Forall (fun k _ => key_parses k) m -> netlify_loop m l = Some m' ->
  map_Forall (fun k _ => key_parses k) m'.
Proof.
  revert m. induction l as [|r l IH]; intros m Hm; cbn [netlify_loop]; [by intros [= <-]|].
  unfold netlify_step. destruct (parse_date (run_start_date r)) as [d|] eqn:Hd; cbn; [|done].
  apply IH. intros k b Hk. rewrite add_run_lookup in Hk. case_decide as Hkd; [|exact (Hm k b Hk)].
  subst k. destruct (parse_date_valid _ _ Hd). unfold key_parses.
  rewrite parse_date_date_str by done. eauto.
Qed.

Lemma netlify_keys_parse (runs : option (list Run)) :
  map_Forall (fun k _ => key_parses k) (fetch_running_data_netlify runs).
Proof.
  destruct runs as [l|]; cbn; [|apply map_Forall_empty].
  destruct (netlify_loop ∅ l) as [m|] eqn:Hl; cbn; [|apply map_Forall_empty].
  eapply netlify_loop_keys; [apply map_Forall_empty|exact Hl].
Qed.

(** The start of an activity, in the server's local time, falls on a
    day [pd.Timestamp] can represent. *)
Definition in_pd_local (off : Z) (a : Activity) : Prop :=
  pd_min_ord <= epoch_ordinal + (act_start a + off) / 86400 <= pd_max_ord.

Lemma pd_range_ordinals : 1 <= pd_min_ord /\ pd_max_ord <= max_ordinal.
Proof. by split; vm_compute. Qed.

(** The key of such an activity is a date [pd.to_datetime] reads back. *)
Lemma local_date_parses (off : Z) (a : Activity) :
  in_pd_local off a -> key_parses (strava_key off a).
Proof.
  unfold in_pd_local, strava_key, local_date. intros Hr. pose proof pd_range_ordinals.
  destruct (ord2ymd_correct (epoch_ordinal + (act_start a + off) / 86400)) as [Hv Ho]; [lia|].
  unfold key_parses. rewrite parse_date_date_str; [eauto|done|].
  unfold in_pd_range. rewrite Ho. apply andb_true_iff. rewrite !Z.leb_le. lia.
Qed.

Lemma strava_keys_parse (off : Z) (l : list Activity) :
  Forall (fun a => is_run a = true -> in_pd_local off a) l ->
  map_Forall (fun k _ => key_parses k) (fetch_running_data_strava off (Some l)).
Proof.
  intros Hl k b Hk. cbn in Hk. rewrite strava_step_acc, acc_lookup, lookup_empty in Hk.
  destruct (hits is_run (strava_key off) k l) as [|a rs] eqn:Hh; [done|].
  assert (a ∈ hits is_run (strava_key off) k l) as Ha by (rewrite Hh; set_solver).
  apply list_elem_of_filter in Ha as [[Hrun <-] Hin].
  apply local_date_parses. rewrite Forall_forall in Hl. by apply Hl.
Qed.

(** ** The summary and the heatmap read the same days *)

(** The dates of year [y] that have a bucket: the non-empty days of the
    heatmap. *)
Definition active_days (m : Mileage) (y : Z) : list date :=
  filter (fun d => is_Some (m !! date_str d)) (year_dates y).

(** The entries the summary counts are the buckets of the heatmap's
    non-empty days, in another order. *)
Lemma year_entries_active_days (m : Mileage) (y : Z) :
  1 <= y <= 9999 -> map_Forall (fun k _ => key_parses k) m ->
  year_entries y (map_to_list m)
  ≡ₚ (fun d => (date_str d, default default_bucket (m !! date_str d))) <$> active_days m y.
Proof.
  intros Hy Hm. apply NoDup_Permutation.
  - apply NoDup_filter, NoDup_map_to_list.
  - apply NoDup_fmap_2_strong; [|apply NoDup_filter, NoDup_year_dates].
    intros d1 d2 H1 H2 Heq. apply (f_equal fst) in Heq as Hs. cbn [fst] in Hs.
    apply list_elem_of_filter in H1 as [_ H1], H2 as [_ H2].
    pose proof (parse_ymd_date_str d1 (year_dates_valid y d1 Hy H1)) as E1.
    rewrite Hs, parse_ymd_date_str in E1 by (exact (year_dates_valid y d2 Hy H2)). congruence.
  - intros [k b]. unfold year_entries. rewrite list_elem_of_filter, elem_of_map_to_list.
    rewrite list_elem_of_fmap. unfold key_in_year. cbn [fst snd]. split.
    + intros [Hk Hkb]. destruct (parse_date k) as [d|] eqn:Hp; [|done].
      destruct (parse_date_valid _ _ Hp) as [Hv _]. rewrite <- (date_str_parse_date _ _ Hp) in *.
      exists d. rewrite Hkb. split; [done|]. apply list_elem_of_filter. split; [by eexists|].
      apply valid_date_bounds in Hv. apply elem_of_year_dates. rewrite <- Hk. lia.
    + intros (d & [= -> ->] & Hd). apply list_elem_of_filter in Hd as [[b' Hb'] Hd].
      rewrite Hb'. split; [|done]. pose proof (Hm _ _ Hb') as [d' Hd']. rewrite Hd'.
      unfold parse_date in Hd'. rewrite parse_ymd_date_str in Hd' by (by apply (year_dates_valid y)).
      cbn in Hd'. destruct (_ && _); simplify_eq. by apply elem_of_year_dates in Hd as [? _].
Qed.

(** The heatmap's days carry the mileage the summary adds up. *)
Lemma year_mileage_entries (m : Mileage) (y : Z) :
  1 <= y <= 9999 -> map_Forall (fun k _ => key_parses k) m ->
  qsum (mileage_of m <$> year_dates y)
  = qsum ((fun kv => distance kv.2) <$> year_entries y (map_to_list m)).
Proof.
  intros Hy Hm. rewrite (year_entries_active_days m y) by done. rewrite <- list_fmap_compose.
  unfold active_days. rewrite qsum_filter_zero.
  - f_equal. apply list_fmap_ext. intros _ d _. unfold mileage_of. cbn.
    by destruct (m !! date_str d).
  - intros d _ Hnone. cbn. destruct (m !! date_str d); [exfalso; eauto|done].
Qed.

(** C12. The totals of the dashboard and its heatmap agree: for a
    dictionary whose keys [pd.to_datetime] reads, the summary of year
    [y] counts the heatmap's non-empty days and rounds the sum of its
    mileage cells. *)
Theorem summary_matches_heatmap (m : Mileage) (y : Z) :
  1 <= y <= 9999 -> map_Forall (fun k _ => key_parses k) m ->
  calculate_summary_statistics m y
  = Some (Z.of_nat (length (active_days m y)), round2 (qsum (qsum <$> hm_z (prepare_heatmap_data m y)))).
Proof.
  intros Hy Hm. rewrite prepare_heatmap_data_total, year_mileage_entries by done.
  unfold calculate_summary_statistics. rewrite summary_fold by (by apply keys_parse_list).
  cbn [mbind option_bind]. rewrite Qplus_0_l_L, Z.add_0_l.
  by rewrite (year_entries_active_days m y), length_fmap by done.
Qed.

(** The bind after [get_access_token] in [index]. *)
Lemma index_netlify_token (now : Q) (srv : JVal -> Exn + Dict) (url : string)
  (prof : option Dict) (runs : option (list Run)) (y : Z) (s s' : St Environ) (a : string) :
  get_access_token now srv url s = (inr (JStr a), s') ->
  index_netlify now srv url prof runs y s
  = (if String.prefix "http" a then pret (PRedirect a)
     else let user_profile := fetch_user_profile_netlify prof in
          let daily_mileage := fetch_running_data_netlify runs in
          totals <- of_sum (summary_or_raise daily_mileage y) ;;
          pret (PRender (prepare_heatmap_data daily_mileage y) (p_name user_profile) y
                  (p_avatar user_profile) (p_total_runs user_profile)
                  (p_total_mileage user_profile) totals.1 totals.2)) s'.
Proof. intros Hg. unfold index_netlify, pbind at 1. rewrite Hg. done. Qed.

(** ** Theorems *)

(** C14. With a token that is not the authorization URL, [index] of
    [src/app.py] renders the dashboard whatever the Netlify function
    answers: the heatmap and the year's totals of the same dictionary,
    and no exception reaches the page. *)
Theorem index_netlify_renders (now : Q) (srv : JVal -> Exn + Dict) (url : string)
  (prof : option Dict) (runs : option (list Run)) (y : Z) (s s' : St Environ) (a : string) :
  get_access_token now srv url s = (inr (JStr a), s') -> String.prefix "http" a = false ->
  exists n t,
    calculate_summary_statistics (fetch_running_data_netlify runs) y = Some (n, t)
    /\ index_netlify now srv url prof runs y s
       = (inr (PRender (prepare_heatmap_data (fetch_running_data_netlify runs) y)
                 (p_name (fetch_user_profile_netlify prof)) y
                 (p_avatar (fetch_user_profile_netlify prof))
                 (p_total_runs (fetch_user_profile_netlify prof))
                 (p_total_mileage (fetch_user_profile_netlify prof)) n t), s').
Proof.
  intros Hg Ha. destruct (summary_defined (fetch_running_data_netlify runs) y
    (netlify_keys_parse runs)) as [[n t] Hs].
  exists n, t. split; [done|]. rewrite (index_netlify_token _ _ _ _ _ _ _ _ _ Hg), Ha.
  cbn zeta. unfold summary_or_raise, pbind. rewrite Hs. done.
Qed.

(** C16. When both Netlify requests fail, [index] still renders: the
    default profile, the heatmap of an empty dictionary and zero totals
    (the [UpstreamFetchFailed] policy of the specification). *)
Theorem index_netlify_upstream_down (now : Q) (srv : JVal -> Exn + Dict) (url : string)
  (y : Z) (s s' : St Environ) (a : string) :
  get_access_token now srv url s = (inr (JStr a), s') -> String.prefix "http" a = false ->
  index_netlify now srv url None None y s
  = (inr (PRender (prepare_heatmap_data ∅ y) (PJ (JStr "Unknown")) y (PJ (JStr ""))
            (PJ (JInt 0)) (PJ (JInt 0)) 0 0.00%Q), s').
Proof. intros Hg Ha. rewrite (index_netlify_token _ _ _ _ _ _ _ _ _ Hg), Ha. reflexivity. Qed.

(** When [get_access_token] answers with the authorization URL
    (no token, or a failed refresh), [index] redirects to it and fetches
    nothing. *)
Theorem index_netlify_redirect (now : Q) (srv : JVal -> Exn + Dict) (url : string)
  (prof : option Dict) (runs : option (list Run)) (y : Z) (s s' : St Environ) :
  get_access_token now srv url s = (inr (JStr url), s') -> String.prefix "http" url = true ->
  index_netlify now srv url prof runs y s = (inr (PRedirect url), s').
Proof. intros Hg Ha. rewrite (index_netlify_token _ _ _ _ _ _ _ _ _ Hg), Ha. reflexivity. Qed.

(** One run on 2025-01-01 (10:00 UTC). *)
Definition new_year_run : list Activity := [mkActivity "Run" 5000 1500 1735725600].

(** [index] of [src/flask-app/app.py] always reports the totals of
    2024: in 2025 the heatmap shows the 3.106855 miles run on New Year's
    Day while the year's totals read 0 runs and 0 miles. *)
Example index_strava_totals_2024 :
  match index_strava None (Some new_year_run) 0 2025 with
  | inr (PRender h _ 2025 _ _ _ n t) => n = 0 /\ (t == 0)%Q /\ (qsum (mjoin (hm_z h)) == 3.106855)%Q
  | _ => False
  end.
Proof. vm_compute. split; [reflexivity|]. split; reflexivity. Qed.

(** C15. [index] of [src/flask-app/app.py] renders the dashboard for
    any list of activities whose runs fall in the range of
    [pd.Timestamp]: the summary of 2024 never raises, and the page holds
    the heatmap of the current year. *)
Theorem index_strava_renders (athlete : option Athlete) (l : list Activity) (off y : Z) :
  Forall (fun a => is_run a = true -> in_pd_local off a) l ->
  exists n t,
    calculate_summary_statistics (fetch_running_data_strava off (Some l)) 2024 = Some (n, t)
    /\ index_strava athlete (Some l) off y
       = inr (PRender (prepare_heatmap_data (fetch_running_data_strava off (Some l)) y)
                (p_name (fetch_user_profile_strava athlete)) y
                (p_avatar (fetch_user_profile_strava athlete))
                (p_total_runs (fetch_user_profile_strava athlete))
                (p_total_mileage (fetch_user_profile_strava athlete)) n t).
Proof.
  intros Hl. destruct (summary_defined _ 2024 (strava_keys_parse off l Hl)) as [[n t] Hs].
  exists n, t. split; [done|]. unfold index_strava, summary_or_raise. by rewrite Hs.
Qed.

(** ** Witnesses *)

Definition strava_url : string := "https://www.strava.com/oauth/authorize".

Lemma index_netlify_renders_witness :
  get_access_token (inject_Z 1700000000) (fun _ => inl HTTPError) strava_url s0
    = (inr (JStr "a0"), mkSt env0 (Some (JStr "a0")) [])
  /\ String.prefix "http" "a0" = false
  /\ exists n t,
    calculate_summary_statistics (fetch_running_data_netlify (Some good_runs)) 2024 = Some (n, t)
    /\ index_netlify (inject_Z 1700000000) (fun _ => inl HTTPError) strava_url None
         (Some good_runs) 2024 s0
       = (inr (PRender (prepare_heatmap_data (fetch_running_data_netlify (Some good_runs)) 2024)
                 (p_name (fetch_user_profile_netlify None)) 2024
                 (p_avatar (fetch_user_profile_netlify None))
                 (p_total_runs (fetch_user_profile_netlify None))
                 (p_total_mileage (fetch_user_profile_netlify None)) n t),
          mkSt env0 (Some (JStr "a0")) []).
Proof.
  split; [reflexivity|]. split; [reflexivity|].
  apply (index_netlify_renders _ _ _ _ _ _ _ _ "a0"); reflexivity.
Defined.

Lemma index_netlify_upstream_down_witness :
  get_access_token (inject_Z 1700000000) (fun _ => inl HTTPError) strava_url s0
    = (inr (JStr "a0"), mkSt env0 (Some (JStr "a0")) [])
  /\ String.prefix "http" "a0" = false
  /\ index_netlify (inject_Z 1700000000) (fun _ => inl HTTPError) strava_url None None 2024 s0
     = (inr (PRender (prepare_heatmap_data ∅ 2024) (PJ (JStr "Unknown")) 2024 (PJ (JStr ""))
              (PJ (JInt 0)) (PJ (JInt 0)) 0 0.00%Q), mkSt env0 (Some (JStr "a0")) []).
Proof.
  split; [reflexivity|]. split; [reflexivity|].
  apply (index_netlify_upstream_down _ _ _ _ _ _ "a0"); reflexivity.
Defined.

Lemma index_netlify_redirect_witness :
  get_access_token (inject_Z 1700000000) (fun _ => inl HTTPError) strava_url (mkSt ∅ None [])
    = (inr (JStr strava_url), mkSt ∅ None [])
  /\ String.prefix "http" strava_url = true
  /\ index_netlify (inject_Z 1700000000) (fun _ => inl HTTPError) strava_url None None 2024
       (mkSt ∅ None []) = (inr (PRedirect strava_url), mkSt ∅ None []).
Proof.
  split; [reflexivity|]. split; [reflexivity|].
  apply index_netlify_redirect; reflexivity.
Defined.

Lemma index_strava_renders_witness :
  Forall (fun a => is_run a = true -> in_pd_local 0 a) new_year_run
  /\ exists n t,
    calculate_summary_statistics (fetch_running_data_strava 0 (Some new_year_run)) 2024
      = Some (n, t)
    /\ index_strava None (Some new_year_run) 0 2025
       = inr (PRender (prepare_heatmap_data (fetch_running_data_strava 0 (Some new_year_run)) 2025)
                (p_name (fetch_user_profile_strava None)) 2025
                (p_avatar (fetch_user_profile_strava None))
                (p_total_runs (fetch_user_profile_strava None))
                (p_total_mileage (fetch_user_profile_strava None)) n t).
Proof.
  assert (Forall (fun a => is_run a = true -> in_pd_local 0 a) new_year_run) as H
    by (constructor; [intros _; unfold in_pd_local; split; vm_compute; congruence|constructor]).
  split; [exact H | apply index_strava_renders; exact H].
Defined.

Lemma summary_matches_heatmap_witness :
  (1 <= 2024 <= 9999 /\ map_Forall (fun k _ => key_parses k) two_days)
  /\ calculate_summary_statistics two_days 2024
     = Some (Z.of_nat (length (active_days two_days 2024)),
             round2 (qsum (qsum <$> hm_z (prepare_heatmap_data two_days 2024)))).
Proof.
  assert (map_Forall (fun k _ => key_parses k) two_days) as H.
  { apply map_Forall_insert_2; [vm_compute; eauto|].
    apply map_Forall_insert_2; [vm_compute; eauto|]. apply map_Forall_empty. }
  split; [split; [lia|exact H]|]. apply summary_matches_heatmap; [lia|exact H].
Defined.

End Dashboard.
