(* ===== verification/FlaskApp.v ===== *)
(** The life of the server of [src/flask-app/app.py]: the import of
    the module, which calls [get_access_token()] of [src/auth.py] once
    (line 13) and builds [STRAVA_CLIENT] with that token (line 16), then
    the dashboard requests, each of which asks the Strava API with the
    client's token. The API is an input: what [get_athlete()] and
    [get_activities()] answer for a token at an instant ([None] is the
    exception stravalib raises, an HTTP 401 for an expired token). *)

From S2P Require Import Prelude PyStr Dates Aggregate Summary Heatmap Token Dashboard.
Import PyStr Dates Aggregate Summary Heatmap Token Dashboard.

Module FlaskApp.

#[local] Open Scope Z_scope.
#[local] Open Scope py_scope.

(** The Strava API as the client sees it. *)
Record StravaApi := mkStravaApi {
  api_athlete : option JVal -> Q -> option Athlete;
  api_activities : option JVal -> Q -> option (list Activity)
}.

(** [STRAVA_CLIENT = Client(access_token=ACCESS_TOKEN)] *)
Record Client := mkClient { client_access_token : option JVal }.

(** The import of the module at time [now]: [ACCESS_TOKEN =
    get_access_token()] (which serves the authorization callbacks
    [codes] when there is no token), then the client. *)
Definition import_app (now : Q) (srv : JVal -> Exn + Dict) (codes : list (option string))
  (xsrv : option string -> Exn + Dict) : PyM (St FileSt) Client :=
  access_token <- get_access_token_file now srv codes xsrv ;;
  pret (mkClient access_token).

(** A request to [/] at time [now], in [current_year], on a server at
    UTC offset [off]: [fetch_user_profile] and [fetch_running_data] ask
    the API with the client's token. *)
Definition index (api : StravaApi) (client : Client) (off : Z) (now : Q) (current_year : Z)
  : Exn + Page :=
  index_strava (api_athlete api (client_access_token client) now)
               (api_activities api (client_access_token client) now) off current_year.

(** The import, then the requests [(now, current_year)] in order. *)
Definition run_app (now0 : Q) (srv : JVal -> Exn + Dict) (codes : list (option string))
  (xsrv : option string -> Exn + Dict) (api : StravaApi) (off : Z) (reqs : list (Q * Z))
  : PyM (St FileSt) (list (Exn + Page)) :=
  client <- import_app now0 srv codes xsrv ;;
  pret ((fun req => index api client off req.1 req.2) <$> reqs).

(** The page of a request whose two API calls both fail: the empty
    heatmap, the default profile and zero totals. *)
Definition empty_page (y : Z) : Page :=
  PRender (prepare_heatmap_data ∅ y) (p_name default_profile) y (p_avatar default_profile)
    (p_total_runs default_profile) (p_total_mileage default_profile) 0 (round2 0).

(** ** Lemmas *)

(** The import with a credential in [token.json] that has not expired
    and a non-empty access token: the client gets that token, with no
    call and no write. *)
Lemma import_app_valid (now0 : Q) (srv : JVal -> Exn + Dict) (codes : list (option string))
  (xsrv : option string -> Exn + Dict) (s : St FileSt) (a r : string) (e : Z) :
  st_store s = JsonFile (token_dict a r e) -> (now0 <= inject_Z e)%Q -> a <> ""%string ->
  import_app now0 srv codes xsrv s
  = (inr (mkClient (Some (JStr a))), mkSt (st_store s) (Some (JStr a)) (st_calls s)).
Proof.
  intros Hs He Ha. unfold import_app, get_access_token_file, pbind at 1 2.
  rewrite (refresh_token_dict now0 srv s a r e) by (by rewrite ?Hs).
  cbn. by destruct (String.eqb_spec a ""%string).
Qed.

(** A request whose two API calls fail renders the empty page. *)
Lemma index_api_down (api : StravaApi) (client : Client) (off : Z) (now : Q) (y : Z) :
  api_athlete api (client_access_token client) now = None ->
  api_activities api (client_access_token client) now = None ->
  index api client off now y = inr (empty_page y).
Proof. intros Hath Hact. unfold index. by rewrite Hath, Hact. Qed.

(** ** Theorems *)

(** C17. The token of [src/flask-app/app.py] is read once, at import,
    and never refreshed: with a credential in [token.json] valid at
    import, and an API that rejects its access token once it has
    expired, every request after the expiry renders the empty
    dashboard (no runs, the default profile, zero totals), while
    [token.json] keeps the refresh token that would renew it and no
    refresh is ever attempted. *)
Theorem run_app_stale_token (now0 : Q) (srv : JVal -> Exn + Dict) (codes : list (option string))
  (xsrv : option string -> Exn + Dict) (api : StravaApi) (off : Z) (reqs : list (Q * Z))
  (s : St FileSt) (a r : string) (e : Z) :
  st_store s = JsonFile (token_dict a r e) -> (now0 <= inject_Z e)%Q -> a <> ""%string ->
  (forall now, (inject_Z e < now)%Q ->
     api_athlete api (Some (JStr a)) now = None /\ api_activities api (Some (JStr a)) now = None) ->
  Forall (fun req => (inject_Z e < req.1)%Q) reqs ->
  run_app now0 srv codes xsrv api off reqs s
  = (inr ((fun req => inr (empty_page req.2)) <$> reqs),
     mkSt (JsonFile (token_dict a r e)) (Some (JStr a)) (st_calls s)).
Proof.
  intros Hs He Ha Hapi Hreqs. unfold run_app, pbind at 1.
  rewrite (import_app_valid _ _ _ _ _ a r e) by done. rewrite Hs. unfold pret.
  do 2 f_equal. apply Forall_fmap_ext_1. eapply Forall_impl; [exact Hreqs|].
  intros [now y] Hnow. apply index_api_down; apply Hapi, Hnow.
Qed.

(** ** Witnesses *)

(** An API that accepts ["a0"] until 1700000000 and nothing after. *)
Definition accepts_a0 (tok : option JVal) (now : Q) : bool :=
  match tok with
  | Some (JStr t) => String.eqb t "a0" && Qle_bool now (inject_Z 1700000000)
  | _ => false
  end.

Definition api_a0 : StravaApi :=
  mkStravaApi
    (fun tok now => if accepts_a0 tok now then Some (mkAthlete (Some "Ada") (Some "L") "" 0 0) else None)
    (fun tok now => if accepts_a0 tok now then Some [] else None).

(** [token.json] holding [ti0], and the requests of two later days. *)
Definition sf0 : St FileSt := mkSt (JsonFile ti0) None [].
Definition late_reqs : list (Q * Z) := [(inject_Z 1700000001, 2023); (inject_Z 1800000000, 2027)].

Lemma run_app_stale_token_witness :
  (st_store sf0 = JsonFile (token_dict "a0" "r0" 1700000000)
   /\ (inject_Z 1699990000 <= inject_Z 1700000000)%Q /\ "a0"%string <> ""%string
   /\ (forall now, (inject_Z 1700000000 < now)%Q ->
        api_athlete api_a0 (Some (JStr "a0")) now = None
        /\ api_activities api_a0 (Some (JStr "a0")) now = None)
   /\ Forall (fun req => (inject_Z 1700000000 < req.1)%Q) late_reqs)
  /\ run_app (inject_Z 1699990000) (fun _ => inl HTTPError) [] (fun _ => inl HTTPError) api_a0 0
       late_reqs sf0
     = (inr ((fun req => inr (empty_page req.2)) <$> late_reqs),
        mkSt (JsonFile (token_dict "a0" "r0" 1700000000)) (Some (JStr "a0")) (st_calls sf0)).
Proof.
  assert (forall now, (inject_Z 1700000000 < now)%Q ->
            api_athlete api_a0 (Some (JStr "a0")) now = None
            /\ api_activities api_a0 (Some (JStr "a0")) now = None) as Hapi.
  { intros now Hnow. cbn. destruct (Qle_bool now _) eqn:Hb; [|done].
    apply Qle_bool_iff in Hb. by apply Qlt_not_le in Hnow. }
  assert (Forall (fun req => (inject_Z 1700000000 < req.1)%Q) late_reqs) as Hreqs
    by (repeat constructor).
  assert ((inject_Z 1699990000 <= inject_Z 1700000000)%Q) as Hle
    by (rewrite <- Zle_Qle; lia).
  split; [split; [reflexivity|split; [exact Hle|split; [done|split; [exact Hapi|exact Hreqs]]]]|].
  apply run_app_stale_token; [reflexivity|exact Hle|done|exact Hapi|exact Hreqs].
Defined.

End FlaskApp.
