(* ===== verification/Script.v ===== *)
(** The script [src/fetch_strava_data.py]: [authenticate] exchanges an
    authorization code written into the source, [fetch_data] asks
    Strava for the athlete and 200 activities and builds the run
    records, [save_to_json] writes them to [strava_data.json], and
    [main] runs the three in order. Strava is an input: its answer to a
    code exchange, given the calls it has already received (an
    authorization code is single-use), and its answers to the athlete
    and activity requests made with a token. *)

From S2P Require Import Prelude PyStr Dates Aggregate Token Dashboard.
Import PyStr Dates Aggregate Token Dashboard.

Module Script.

#[local] Open Scope py_scope.

(** The dict [fetch_data] returns: the athlete's name and avatar, and
    [run_details]. *)
Record FetchOut := mkFetchOut { out_name : string; out_avatar : string; out_runs : list Run }.

(** The script's state: the calls made to Strava, and what
    [strava_data.json] holds ([None] before any write). *)
Record ScriptSt := mkScriptSt { sc_calls : list Call; sc_file : option FetchOut }.

(** Strava, as the script sees it. *)
Record Strava := mkStrava {
  sv_exchange : list Call -> option string -> Exn + Dict;
  sv_athlete : JVal -> Exn + Athlete;
  sv_activities : JVal -> Exn + list Activity
}.

(** The code of line 22. *)
Definition code : string := "a4eeaf2194bafada7969a167015b4628fa64924f".

(** [client.exchange_code_for_token(..., code=c)]: logged, then
    Strava's answer given the calls before it. *)
Definition exchange (sv : Strava) (c : option string) : PyM ScriptSt Dict :=
  fun s => of_sum (sv_exchange sv (sc_calls s) c) (mkScriptSt (sc_calls s ++ [CExchange c]) (sc_file s)).

Definition authenticate (sv : Strava) : PyM ScriptSt Dict :=
  token_response <- exchange sv (Some code) ;;
  pret token_response.

(** [athlete.firstname + ' ' + athlete.lastname]: [TypeError] when a
    name is [None]. *)
Definition full_name (a : Athlete) : Exn + string :=
  match firstname a, lastname a with
  | Some f, Some l => inr (String.append f (String.append " " l))
  | _, _ => inl TypeError
  end.

(** [fetch_data(client, access_token)]; the loop over the activities
    is [fetch_data_runs], and nothing catches an exception. *)
Definition fetch_data (sv : Strava) (access_token : JVal) : PyM ScriptSt FetchOut :=
  athlete <- of_sum (sv_athlete sv access_token) ;;
  activities <- of_sum (sv_activities sv access_token) ;;
  let run_details := fetch_data_runs activities in
  name <- of_sum (full_name athlete) ;;
  pret (mkFetchOut name (profile athlete) run_details).

(** [save_to_json(data)]: [open(filename, 'w')] and [json.dump]. *)
Definition save_to_json (data : FetchOut) : PyM ScriptSt unit :=
  fun s => (inr tt, mkScriptSt (sc_calls s) (Some data)).

Definition main (sv : Strava) : PyM ScriptSt unit :=
  token_response <- authenticate sv ;;
  access_token <- getitem token_response "access_token" ;;
  data <- fetch_data sv access_token ;;
  save_to_json data.

(** Strava refuses a code it has already exchanged. *)
Definition single_use (sv : Strava) : Prop :=
  forall hist c, CExchange c ∈ hist -> exists e, sv_exchange sv hist c = inl e.

(** ** Lemmas *)

(** [fetch_data] makes no call that is logged and writes nothing. *)
Lemma fetch_data_state (sv : Strava) (tok : JVal) (s : ScriptSt) : (fetch_data sv tok s).2 = s.
Proof.
  unfold fetch_data, pbind, of_sum, pret, raise.
  destruct (sv_athlete sv tok), (sv_activities sv tok); cbn; try done.
  by destruct (full_name _).
Qed.

(** [main] in one step: the state after the exchange call is [s1]. *)
Lemma main_eq (sv : Strava) (s : ScriptSt) :
  main sv s =
  let s1 := mkScriptSt (sc_calls s ++ [CExchange (Some code)]) (sc_file s) in
  match sv_exchange sv (sc_calls s) (Some code) with
  | inl e => (inl e, s1)
  | inr d =>
      match d !! "access_token" with
      | None => (inl (KeyError "access_token"), s1)
      | Some tok =>
          match (fetch_data sv tok s1).1 with
          | inl e => (inl e, s1)
          | inr out => (inr tt, mkScriptSt (sc_calls s1) (Some out))
          end
      end
  end.
Proof.
  unfold main, authenticate, exchange, pbind at 1 2 3, of_sum, pret at 1, raise at 1.
  destruct (sv_exchange sv (sc_calls s) (Some code)) as [e|d]; [done|]. cbn.
  unfold getitem. destruct (d !! "access_token") as [tok|]; [|done]. cbn. unfold pbind at 1.
  pose proof (fetch_data_state sv tok (mkScriptSt (sc_calls s ++ [CExchange (Some code)]) (sc_file s))) as Hs.
  destruct (fetch_data sv tok _) as [[e|out] s'] eqn:Hf; cbn in Hs |- *; by subst s'.
Qed.

(** One run of [main] makes one exchange call, with the code of line 22,
    and writes the file exactly when it returns normally. *)
Lemma main_effects (sv : Strava) (s : ScriptSt) :
  sc_calls (main sv s).2 = sc_calls s ++ [CExchange (Some code)]
  /\ match (main sv s).1 with
     | inl _ => sc_file (main sv s).2 = sc_file s
     | inr _ => is_Some (sc_file (main sv s).2)
     end.
Proof. rewrite main_eq. cbn. repeat case_match; simplify_eq/=; eauto. Qed.

(** ** Theorems *)

(** C30. [main] can succeed once at most: every run exchanges the same
    code, so against a Strava that refuses a code already exchanged, a
    second run raises in [authenticate] and leaves [strava_data.json]
    as the first run wrote it. *)
Theorem main_second_run_fails (sv : Strava) (s : ScriptSt) :
  single_use sv ->
  exists e, main sv (main sv s).2
    = (inl e, mkScriptSt (sc_calls (main sv s).2 ++ [CExchange (Some code)]) (sc_file (main sv s).2)).
Proof.
  intros Hsu. destruct (main_effects sv s) as [Hc _].
  destruct (Hsu (sc_calls (main sv s).2) (Some code)) as [e He].
  { rewrite Hc. set_solver. }
  exists e. rewrite (main_eq sv (main sv s).2), He. done.
Qed.

(** ** Witnesses *)

(** Strava with one single-use code, [code]. *)
Definition exchanged (hist : list Call) (c : option string) : bool :=
  existsb (fun cl => match cl, c with
                     | CExchange (Some c'), Some c0 => String.eqb c' c0
                     | CExchange None, None => true
                     | _, _ => false
                     end) hist.

Definition strava1 : Strava :=
  mkStrava (fun hist c => if exchanged hist c then inl HTTPError else inr fresh_token)
           (fun _ => inr (mkAthlete (Some "Ada") (Some "L") "" 0 0))
           (fun _ => inr []).

Lemma main_second_run_fails_witness :
  single_use strava1
  /\ exists e, main strava1 (main strava1 (mkScriptSt [] None)).2
    = (inl e, mkScriptSt (sc_calls (main strava1 (mkScriptSt [] None)).2 ++ [CExchange (Some code)])
                         (sc_file (main strava1 (mkScriptSt [] None)).2)).
Proof.
  assert (single_use strava1) as H.
  { intros hist c Hin. cbn. exists HTTPError. unfold exchanged.
    replace (existsb _ hist) with true; [done|]. symmetry. apply existsb_exists.
    exists (CExchange c). split; [by apply list_elem_of_In|].
    destruct c; [apply String.eqb_refl|done]. }
  split; [exact H|]. apply main_second_run_fails; exact H.
Defined.

End Script.
