(* ===== verification/Server.v ===== *)
(** The Flask application of [src/app.py] as a server: its three
    routes ([/], [/authorized], [/health]), Flask's answer to a path
    without a route (404) and to an exception that escapes a handler
    (500, the effects made before the exception kept), and a run of the
    server over a sequence of requests sharing [os.environ] and the
    global [access_token]. What the outside world answers during a
    request (the time, the Strava and Netlify responses, the current
    year) is a [World] given with each request. *)

From S2P Require Import Prelude PyStr Dates Aggregate Summary Heatmap Token Dashboard.
Import PyStr Dates Aggregate Summary Heatmap Token Dashboard.

Module Server.

#[local] Open Scope Z_scope.
#[local] Open Scope py_scope.

(** The world during one request. *)
Record World := mkWorld {
  w_now : Q;                               (* time.time() *)
  w_refresh : JVal -> Exn + Dict;          (* client.refresh_access_token *)
  w_exchange : option string -> Exn + Dict; (* client.exchange_code_for_token *)
  w_authorize_url : string;                (* client.authorization_url(...) *)
  w_profile : option Dict;                 (* GET {NETLIFY_BASE_URL}/athlete-profile *)
  w_runs : option (list Run);              (* GET {NETLIFY_BASE_URL}/run-details *)
  w_year : Z                               (* pd.Timestamp.now().year *)
}.

(** A GET request: its path and [request.args.get('code')]. *)
Inductive Request := Get (path : string) (code : option string).

(** What the server answers: the page of [index], the response of
    [authorized], [{"status": "healthy"}], 404, or 500 with the
    exception that escaped the handler. *)
Inductive Response :=
  | RPage (p : Page)
  | RCallback (r : Resp)
  | RHealth
  | RNotFound
  | RServerError (e : Exn).

(** Flask's call of a view function: an exception becomes a 500
    response, and what the handler changed before it stays changed. *)
Definition flask_call {S A} (m : PyM S A) (k : A -> Response) : PyM S Response :=
  fun s => match m s with
           | (inl e, s') => (inr (RServerError e), s')
           | (inr a, s') => (inr (k a), s')
           end.

(** The URL map of [app]: [@app.route('/')], [@app.route('/authorized')]
    and [@app.route('/health')]. *)
Definition handle (w : World) (req : Request) : PyM (St Environ) Response :=
  let '(Get path code) := req in
  if String.eqb path "/" then
    flask_call (index_netlify (w_now w) (w_refresh w) (w_authorize_url w) (w_profile w)
                  (w_runs w) (w_year w)) RPage
  else if String.eqb path "/authorized" then
    flask_call (authorized code (w_exchange w)) RCallback
  else if String.eqb path "/health" then pret RHealth
  else pret RNotFound.

(** [app.run(...)]: the requests, one after the other. *)
Fixpoint serve (reqs : list (World * Request)) : PyM (St Environ) (list Response) :=
  match reqs with
  | [] => pret []
  | (w, req) :: rest =>
      resp <- handle w req ;;
      resps <- serve rest ;;
      pret (resp :: resps)
  end.

(** The dashboard [index] renders in world [w] with the year's totals
    [(n, t)]. *)
Definition netlify_page (w : World) (n : Z) (t : Q) : Page :=
  PRender (prepare_heatmap_data (fetch_running_data_netlify (w_runs w)) (w_year w))
    (p_name (fetch_user_profile_netlify (w_profile w))) (w_year w)
    (p_avatar (fetch_user_profile_netlify (w_profile w)))
    (p_total_runs (fetch_user_profile_netlify (w_profile w)))
    (p_total_mileage (fetch_user_profile_netlify (w_profile w))) n t.

(** [os.environ] after [save_token] of a credential [(a, r, e)]. *)
Definition saved_env (env : Environ) (a r : string) (e : Z) : Environ :=
  <["EXPIRES_AT" := str_Z e]> (<["REFRESH_TOKEN" := r]> (<["ACCESS_TOKEN" := a]> env)).

(** ** Lemmas *)

Lemma flask_call_inr {S A} (m : PyM S A) (k : A -> Response) (s s' : S) (a : A) :
  m s = (inr a, s') -> flask_call m k s = (inr (k a), s').
Proof. unfold flask_call. by intros ->. Qed.

Lemma flask_call_inl {S A} (m : PyM S A) (k : A -> Response) (s s' : S) (e : Exn) :
  m s = (inl e, s') -> flask_call m k s = (inr (RServerError e), s').
Proof. unfold flask_call. by intros ->. Qed.

(** No exception escapes a request. *)
Lemma handle_total (w : World) (req : Request) (s : St Environ) :
  exists resp s', handle w req s = (inr resp, s').
Proof.
  destruct req as [path code]. unfold handle, flask_call, pret.
  repeat case_match; simplify_eq; eauto.
Qed.

Lemma serve_cons (w : World) (req : Request) (rest : list (World * Request))
  (s s1 : St Environ) (resp : Response) :
  handle w req s = (inr resp, s1) ->
  serve ((w, req) :: rest) s
  = match serve rest s1 with
    | (inr resps, s2) => (inr (resp :: resps), s2)
    | (inl e, s2) => (inl e, s2)
    end.
Proof.
  intros H. cbn [serve]. unfold pbind at 1. rewrite H.
  unfold pbind. by destruct (serve rest s1) as [[|] ?].
Qed.

(** [/] without a stored token redirects to the authorization URL. *)
Lemma handle_index_no_token (w : World) (s : St Environ) :
  env_load_token (st_store s) = inr None -> String.prefix "http" (w_authorize_url w) = true ->
  handle w (Get "/" None) s
  = (inr (RPage (PRedirect (w_authorize_url w))), mkSt (st_store s) None (st_calls s)).
Proof.
  intros Hl Hu. apply flask_call_inr. apply index_netlify_redirect; [|done].
  by apply get_access_token_unauthenticated.
Qed.

(** [/authorized?code=c] with a well-formed exchange response saves the
    credential and redirects to [/]. *)
Lemma handle_authorized_ok (w : World) (s : St Environ) (c a r : string) (e : Z) (d : Dict) :
  c <> ""%string -> w_exchange w (Some c) = inr d ->
  d !! "access_token" = Some (JStr a) -> d !! "refresh_token" = Some (JStr r) ->
  d !! "expires_at" = Some (JInt e) ->
  handle w (Get "/authorized" (Some c)) s
  = (inr (RCallback (RRedirect "/")),
     mkSt (saved_env (st_store s) a r e) (Some (JStr a)) (st_calls s ++ [CExchange (Some c)])).
Proof.
  intros Hc Hx Ha Hr He. apply flask_call_inr.
  unfold authorized. rewrite (proj2 (String.eqb_neq c "") Hc).
  unfold try_except, pbind, call_exchange, of_sum. rewrite Hx. cbn [pret].
  unfold getitem. rewrite Ha. cbn.
  unfold save_token. cbn. by rewrite (env_save_ok d (st_store s) a r e Ha Hr He).
Qed.

(** [/] with a stored credential that has not expired renders the
    dashboard of the Netlify data. *)
Lemma handle_index_token (w : World) (s : St Environ) (a r : string) (e : Z) :
  env_load_token (st_store s) = inr (Some (token_dict a r e)) -> (w_now w <= inject_Z e)%Q ->
  a <> ""%string -> String.prefix "http" a = false ->
  exists n t,
    calculate_summary_statistics (fetch_running_data_netlify (w_runs w)) (w_year w) = Some (n, t)
    /\ handle w (Get "/" None) s
       = (inr (RPage (netlify_page w n t)), mkSt (st_store s) (Some (JStr a)) (st_calls s)).
Proof.
  intros Hl Hnow Ha Hp.
  destruct (summary_defined (fetch_running_data_netlify (w_runs w)) (w_year w)
    (netlify_keys_parse (w_runs w))) as [[n t] Hs].
  exists n, t. split; [done|]. apply flask_call_inr.
  assert (get_access_token (w_now w) (w_refresh w) (w_authorize_url w) s
          = (inr (JStr a), mkSt (st_store s) (Some (JStr a)) (st_calls s))) as Hg.
  { unfold get_access_token, pbind at 1. rewrite (refresh_token_dict _ _ s a r e) by done.
    cbn. by destruct (String.eqb_spec a ""%string). }
  rewrite (index_netlify_token _ _ _ _ _ _ _ _ _ Hg), Hp.
  cbn zeta. unfold summary_or_raise, pbind. by rewrite Hs.
Qed.

(** The callback with a well-formed response, then [/] while the token
    is valid, whatever the store held before. *)
Lemma serve_callback_index (s : St Environ) (w2 w3 : World) (c a r : string) (e : Z) (d : Dict)
  (rest : list (World * Request)) :
  c <> ""%string -> w_exchange w2 (Some c) = inr d ->
  d !! "access_token" = Some (JStr a) -> d !! "refresh_token" = Some (JStr r) ->
  d !! "expires_at" = Some (JInt e) ->
  a <> ""%string -> String.prefix "http" a = false -> (w_now w3 <= inject_Z e)%Q ->
  exists n t,
    calculate_summary_statistics (fetch_running_data_netlify (w_runs w3)) (w_year w3) = Some (n, t)
    /\ serve [(w2, Get "/authorized" (Some c)); (w3, Get "/" None)] s
       = (inr [RCallback (RRedirect "/"); RPage (netlify_page w3 n t)],
          mkSt (saved_env (st_store s) a r e) (Some (JStr a)) (st_calls s ++ [CExchange (Some c)])).
Proof.
  intros Hc Hx Ha Hr He Ha0 Hp Hnow.
  set (s2 := mkSt (saved_env (st_store s) a r e) (Some (JStr a)) (st_calls s ++ [CExchange (Some c)])).
  destruct (handle_index_token w3 s2 a r e) as (n & t & Hs & H3); [apply env_load_saved|done|done|done|].
  exists n, t. split; [done|].
  rewrite (serve_cons _ _ _ _ _ _ (handle_authorized_ok w2 _ c a r e d Hc Hx Ha Hr He)).
  fold s2. by rewrite (serve_cons _ _ _ _ _ _ H3).
Qed.

(** The calls [index] makes are those of [refresh_token_if_needed]:
    what follows the token check calls nobody. *)
Lemma index_netlify_calls (now : Q) (srv : JVal -> Exn + Dict) (url : string)
  (prof : option Dict) (runs : option (list Run)) (y : Z) (s : St Environ) :
  st_calls (index_netlify now srv url prof runs y s).2 = st_calls (refresh_token_if_needed now srv s).2.
Proof.
  unfold index_netlify, get_access_token, set_global, startswith, pbind, pret, raise, of_sum.
  destruct (refresh_token_if_needed now srv s) as [[e|o] s1]; cbn;
    repeat (case_match; unfold raise, pret in *; simplify_eq/=); done.
Qed.

(** [authorized] makes at most the exchange call. *)
Lemma authorized_calls (code : option string) (xsrv : option string -> Exn + Dict) (s : St Environ) :
  st_calls (authorized code xsrv s).2 = st_calls s
  \/ st_calls (authorized code xsrv s).2 = st_calls s ++ [CExchange code].
Proof.
  unfold authorized, try_except, call_exchange, pbind, getitem, set_global, save_token, of_sum, pret, raise.
  repeat (case_match; simplify_eq/=); auto.
Qed.

Lemma flask_call_state {S A} (m : PyM S A) (k : A -> Response) (s : S) :
  (flask_call m k s).2 = (m s).2.
Proof. unfold flask_call. by destruct (m s) as [[] ?]. Qed.

(** A list of new calls of length at most one. *)
Lemma calls_at_most_one (c c' : list Call) :
  c' = c \/ (exists x, c' = c ++ [x]) -> exists l, c' = c ++ l /\ (length l <= 1)%nat.
Proof. intros [->|[x ->]]; [exists []; rewrite app_nil_r|exists [x]]; cbn; split; [done|lia|done|lia]. Qed.

(** One request answers, and calls Strava at most once. *)
Lemma handle_calls (w : World) (req : Request) (s : St Environ) :
  (exists resp, (handle w req s).1 = inr resp)
  /\ exists l, st_calls (handle w req s).2 = st_calls s ++ l /\ (length l <= 1)%nat.
Proof.
  split; [destruct (handle_total w req s) as (resp & s' & ->); eauto|].
  apply calls_at_most_one. destruct req as [path code]. unfold handle.
  repeat case_match; try by left.
  - rewrite flask_call_state, index_netlify_calls.
    destruct (refresh_at_most_one_call (w_now w) (w_refresh w) s) as [->|[rt ->]]; eauto.
  - rewrite flask_call_state. destruct (authorized_calls code (w_exchange w) s) as [->| ->]; eauto.
Qed.

(** ** Theorems *)

(** C22. The server answers every request: whatever the requests and
    whatever Strava and Netlify answer, no exception escapes Flask,
    each request gets exactly one response, and each makes at most one
    call to Strava (a refresh on [/], the code exchange on
    [/authorized]). *)
Theorem serve_invariant (reqs : list (World * Request)) (s : St Environ) :
  exists resps l, (serve reqs s).1 = inr resps /\ length resps = length reqs
    /\ st_calls (serve reqs s).2 = st_calls s ++ l /\ (length l <= length reqs)%nat.
Proof.
  revert s. induction reqs as [|[w req] rest IH]; intros s.
  - exists [], []. rewrite app_nil_r. cbn. auto.
  - destruct (handle_total w req s) as (resp & s1 & H).
    destruct (handle_calls w req s) as [_ (l0 & Hc0 & Hl0)]. rewrite H in Hc0. cbn in Hc0.
    destruct (IH s1) as (resps & l & H1 & Hlen & Hc & Hl).
    rewrite (serve_cons _ _ _ _ _ _ H).
    destruct (serve rest s1) as [r s2]; cbn in H1, Hc |- *; subst r.
    exists (resp :: resps), (l0 ++ l). cbn. rewrite Hc, Hc0, <- app_assoc, length_app. cbn. split; [done|]. split; [lia|]. split; [done|]. lia.
Qed.

(** C28. The first authorization, end to end: on a server with no stored
    token, [/] redirects to Strava's authorization page; the callback
    [/authorized?code=c], given a well-formed token response, saves it
    and redirects back to [/]; and [/] then renders the dashboard of
    the Netlify data, while the token is valid. One exchange call is
    made, no refresh, and [os.environ] holds the credential. *)
Theorem first_authorization_flow (s : St Environ) (w1 w2 w3 : World)
  (c a r : string) (e : Z) (d : Dict) :
  env_load_token (st_store s) = inr None -> String.prefix "http" (w_authorize_url w1) = true ->
  c <> ""%string -> w_exchange w2 (Some c) = inr d ->
  d !! "access_token" = Some (JStr a) -> d !! "refresh_token" = Some (JStr r) ->
  d !! "expires_at" = Some (JInt e) ->
  a <> ""%string -> String.prefix "http" a = false -> (w_now w3 <= inject_Z e)%Q ->
  exists n t,
    calculate_summary_statistics (fetch_running_data_netlify (w_runs w3)) (w_year w3) = Some (n, t)
    /\ serve [(w1, Get "/" None); (w2, Get "/authorized" (Some c)); (w3, Get "/" None)] s
       = (inr [RPage (PRedirect (w_authorize_url w1)); RCallback (RRedirect "/");
               RPage (netlify_page w3 n t)],
          mkSt (saved_env (st_store s) a r e) (Some (JStr a)) (st_calls s ++ [CExchange (Some c)])).
Proof.
  intros Hl Hu Hc Hx Ha Hr He Ha0 Hp Hnow.
  destruct (serve_callback_index (mkSt (st_store s) None (st_calls s)) w2 w3 c a r e d [])
    as (n & t & Hs & H23); [done..|].
  exists n, t. split; [done|].
  rewrite (serve_cons _ _ _ _ _ _ (handle_index_no_token w1 s Hl Hu)), H23. done.
Qed.

(** C26. A malformed [EXPIRES_AT] (one [int()] rejects) makes every
    request to [/] answer 500 and change nothing, however many there
    are: the server does not fall back to the authorization page. Only
    a callback [/authorized?code=c] with a well-formed response
    repairs the store, after which [/] renders the dashboard. *)
Theorem bad_expiry_until_reauthorized (s : St Environ) (ws : list World) (w2 w3 : World)
  (a0 r0 v c a r : string) (e : Z) (d : Dict) :
  st_store s !! "ACCESS_TOKEN" = Some a0 -> st_store s !! "REFRESH_TOKEN" = Some r0 ->
  st_store s !! "EXPIRES_AT" = Some v -> int_of_str v = None ->
  c <> ""%string -> w_exchange w2 (Some c) = inr d ->
  d !! "access_token" = Some (JStr a) -> d !! "refresh_token" = Some (JStr r) ->
  d !! "expires_at" = Some (JInt e) ->
  a <> ""%string -> String.prefix "http" a = false -> (w_now w3 <= inject_Z e)%Q ->
  exists n t,
    calculate_summary_statistics (fetch_running_data_netlify (w_runs w3)) (w_year w3) = Some (n, t)
    /\ serve (((fun w => (w, Get "/" None)) <$> ws) ++ [(w2, Get "/authorized" (Some c)); (w3, Get "/" None)]) s
       = (inr (((fun _ => RServerError ValueError) <$> ws)
               ++ [RCallback (RRedirect "/"); RPage (netlify_page w3 n t)]),
          mkSt (saved_env (st_store s) a r e) (Some (JStr a)) (st_calls s ++ [CExchange (Some c)])).
Proof.
  intros Ha1 Hr1 Hv Hi Hc Hx Ha Hr He Ha0 Hp Hnow.
  destruct (serve_callback_index s w2 w3 c a r e d []) as (n & t & Hs & H23); [done..|].
  exists n, t. split; [done|].
  (* [/]: [load_token] raises [ValueError] before any change; Flask answers 500. *)
  assert (forall w, handle w (Get "/" None) s = (inr (RServerError ValueError), s)) as Hbad.
  { intros w. apply flask_call_inl.
    unfold index_netlify, get_access_token, refresh_token_if_needed, load_token, pbind.
    cbn [store_load env_store]. unfold env_load_token. by rewrite Ha1, Hr1, Hv, Hi. }
  induction ws as [|w ws IH]; [done|].
  cbn [fmap list_fmap app]. rewrite (serve_cons _ _ _ _ _ _ (Hbad w)).
  cbn [fmap list_fmap app] in IH. by rewrite IH.
Qed.

(** ** Witnesses *)

(** The world of each request: no Netlify data, the token [fresh_token]
    (expiring at 1700021600) from the exchange. *)
Definition world_at (now : Q) : World :=
  mkWorld now (fun _ => inl HTTPError) (fun _ => inr fresh_token)
    "https://www.strava.com/oauth/authorize" None None 2023.

(** A server started without a token. *)
Definition s_empty : St Environ := mkSt ∅ None [].

Lemma first_authorization_flow_witness :
  (env_load_token (st_store s_empty) = inr None
   /\ String.prefix "http" (w_authorize_url (world_at (inject_Z 1700000000))) = true
   /\ "c0"%string <> ""%string /\ w_exchange (world_at (inject_Z 1700000001)) (Some "c0") = inr fresh_token
   /\ fresh_token !! "access_token" = Some (JStr "a1") /\ fresh_token !! "refresh_token" = Some (JStr "r1")
   /\ fresh_token !! "expires_at" = Some (JInt 1700021600)
   /\ "a1"%string <> ""%string /\ String.prefix "http" "a1" = false
   /\ (w_now (world_at (inject_Z 1700000002)) <= inject_Z 1700021600)%Q)
  /\ exists n t,
    calculate_summary_statistics (fetch_running_data_netlify (w_runs (world_at (inject_Z 1700000002))))
      (w_year (world_at (inject_Z 1700000002))) = Some (n, t)
    /\ serve [(world_at (inject_Z 1700000000), Get "/" None);
              (world_at (inject_Z 1700000001), Get "/authorized" (Some "c0"));
              (world_at (inject_Z 1700000002), Get "/" None)] s_empty
       = (inr [RPage (PRedirect (w_authorize_url (world_at (inject_Z 1700000000)))); RCallback (RRedirect "/");
               RPage (netlify_page (world_at (inject_Z 1700000002)) n t)],
          mkSt (saved_env (st_store s_empty) "a1" "r1" 1700021600) (Some (JStr "a1"))
               (st_calls s_empty ++ [CExchange (Some "c0")])).
Proof.
  assert ((w_now (world_at (inject_Z 1700000002)) <= inject_Z 1700021600)%Q) as Hnow
    by (cbn; rewrite <- Zle_Qle; lia).
  split; [repeat split; (reflexivity || done || exact Hnow)|].
  apply (first_authorization_flow _ _ _ _ _ _ _ _ fresh_token); (reflexivity || done || exact Hnow).
Defined.

(** A server whose [EXPIRES_AT] is ["soon"]. *)
Definition s_bad : St Environ :=
  mkSt (<["EXPIRES_AT" := "soon"]> (<["REFRESH_TOKEN" := "r0"]> (<["ACCESS_TOKEN" := "a0"]> ∅))) None [].

Lemma bad_expiry_until_reauthorized_witness :
  (st_store s_bad !! "ACCESS_TOKEN" = Some "a0"%string /\ st_store s_bad !! "REFRESH_TOKEN" = Some "r0"%string
   /\ st_store s_bad !! "EXPIRES_AT" = Some "soon"%string /\ int_of_str "soon" = None
   /\ "c0"%string <> ""%string /\ w_exchange (world_at (inject_Z 1700000001)) (Some "c0") = inr fresh_token
   /\ fresh_token !! "access_token" = Some (JStr "a1") /\ fresh_token !! "refresh_token" = Some (JStr "r1")
   /\ fresh_token !! "expires_at" = Some (JInt 1700021600)
   /\ "a1"%string <> ""%string /\ String.prefix "http" "a1" = false
   /\ (w_now (world_at (inject_Z 1700000002)) <= inject_Z 1700021600)%Q)
  /\ exists n t,
    calculate_summary_statistics (fetch_running_data_netlify (w_runs (world_at (inject_Z 1700000002))))
      (w_year (world_at (inject_Z 1700000002))) = Some (n, t)
    /\ serve (((fun w => (w, Get "/" None)) <$> [world_at (inject_Z 1699990000); world_at (inject_Z 1699995000)])
              ++ [(world_at (inject_Z 1700000001), Get "/authorized" (Some "c0"));
                  (world_at (inject_Z 1700000002), Get "/" None)]) s_bad
       = (inr (((fun _ => RServerError ValueError) <$> [world_at (inject_Z 1699990000); world_at (inject_Z 1699995000)])
               ++ [RCallback (RRedirect "/"); RPage (netlify_page (world_at (inject_Z 1700000002)) n t)]),
          mkSt (saved_env (st_store s_bad) "a1" "r1" 1700021600) (Some (JStr "a1"))
               (st_calls s_bad ++ [CExchange (Some "c0")])).
Proof.
  assert ((w_now (world_at (inject_Z 1700000002)) <= inject_Z 1700021600)%Q) as Hnow
    by (cbn; rewrite <- Zle_Qle; lia).
  split; [repeat split; (reflexivity || done || exact Hnow)|].
  apply (bad_expiry_until_reauthorized _ _ _ _ "a0" "r0" "soon" _ _ _ _ fresh_token); (reflexivity || done || exact Hnow).
Defined.

End Server.
